(** * LaunchSim backend (launchsim/backend/server.py): shallow embedding

    The simulation core of the FastAPI server is embedded function by
    function: thrust-curve synthesis, the RocketPy adapter, the mock
    (fallback) integrator, the Monte Carlo endpoint and the stability
    endpoint.

    Conventions of the embedding.
    - Python [float] values are exact rationals ([Q]): rounding,
      underflow, infinities and NaN of binary64 are outside the model.
      What is modelled of the float range is the one way in which it
      changes the control flow of this code: [x ** 2] on a number of the
      request, and the conversion of an [int] to [float], raise
      [OverflowError] when the exact result is out of range.  Python
      [int] is [Z].
    - A Python computation is an [outcome]: it returns, raises, or runs
      out of the step budget given to the one unbounded [while] loop.
    - RocketPy, numpy and the builtin [float(str)] are not code of the
      repository: they are parameters (records of operations). *)

From Stdlib Require Import QArith Qround Qabs Lqa Lia ZArith List String Bool Sorted.
Import ListNotations.

(* ================================================================== *)
(** * Python runtime *)
(* ================================================================== *)

Module Py.

(** Exceptions deriving from [Exception]; [str e] is the text that
    [str(e)] yields. *)
Inductive exception : Type :=
| ZeroDivisionError (msg : string)
| ValueError (msg : string)
| IndexError (msg : string)
| OverflowError (msg : string)
| LibraryError (msg : string).

Definition str (e : exception) : string :=
  match e with
  | ZeroDivisionError msg => msg
  | ValueError msg => msg
  | IndexError msg => msg
  | OverflowError msg => msg
  | LibraryError msg => msg
  end.

Inductive outcome (A : Type) : Type :=
| Returns (a : A)
| Raises (e : exception)
| OutOfFuel.

Arguments Returns {A} a.
Arguments Raises {A} e.
Arguments OutOfFuel {A}.

Definition bind {A B : Type} (c : outcome A) (k : A -> outcome B) : outcome B :=
  match c with
  | Returns a => k a
  | Raises e => Raises e
  | OutOfFuel => OutOfFuel
  end.

(** What a call into an external library gives back: a value or an
    exception.  A result is used as an outcome wherever one is expected. *)
Inductive result (A : Type) : Type :=
| Ok (a : A)
| Err (e : exception).

Arguments Ok {A} a.
Arguments Err {A} e.

Definition lift {A : Type} (r : result A) : outcome A :=
  match r with
  | Ok a => Returns a
  | Err e => Raises e
  end.

Coercion lift : result >-> outcome.

(** [try: body / except Exception as e: handler e]; also the bare
    [except:], whose handler ignores [e]. *)
Definition try_except {A : Type} (body : outcome A) (handler : exception -> outcome A)
  : outcome A :=
  match body with
  | Returns a => Returns a
  | Raises e => handler e
  | OutOfFuel => OutOfFuel
  end.

(** [x if hasattr(obj, 'x') else default] for an attribute that may be
    absent ([None]) and whose read may itself raise. *)
Definition getattr_or {A : Type} (attr : option (result A)) (default : A) : outcome A :=
  match attr with
  | Some read => read
  | None => Returns default
  end.

Definition Qltb (x y : Q) : bool := negb (Qle_bool y x).

(** [a / b] on floats. *)
Definition div (a b : Q) : outcome Q :=
  if Qeq_bool b 0 then Raises (ZeroDivisionError "float division by zero")
  else Returns (a / b).

(** The magnitudes that binary64 rounds to infinity: [2^1024 - 2^970],
    half a unit in the last place above the largest float, and more. *)
Definition float_overflow : Q := inject_Z (2 ^ 1024 - 2 ^ 970).

(** [x ** n] on a float for a positive literal [n]: the power, or
    [OverflowError] when [x] is finite and the power is out of range.
    (A base that is out of range itself stands for an infinity, whose
    powers Python returns without an error.) *)
Definition pow (x : Q) (n : positive) : outcome Q :=
  if Qltb (Qabs x) float_overflow && Qle_bool float_overflow (Qabs (x ^ Zpos n))
  then Raises (OverflowError "(34, 'Numerical result out of range')")
  else Returns (x ^ Zpos n).

(** The conversion of an [int] operand of a float operation. *)
Definition float_of_int (z : Z) : outcome Q :=
  if Qle_bool float_overflow (Qabs (inject_Z z))
  then Raises (OverflowError "int too large to convert to float")
  else Returns (inject_Z z).

(** [max(0, z)]: the first argument wins ties. *)
Definition max0 (z : Q) : Q := if Qltb 0 z then z else 0.

(** [seq[i]] for a non-negative literal index. *)
Definition index {A : Type} (l : list A) (i : nat) : outcome A :=
  match nth_error l i with
  | Some a => Returns a
  | None => Raises (IndexError "list index out of range")
  end.

(** [seq[-1]] *)
Definition last_item {A : Type} (l : list A) : outcome A :=
  match rev l with
  | a :: _ => Returns a
  | [] => Raises (IndexError "list index out of range")
  end.

(** [range(n)] *)
Definition range (n : Z) : list nat := seq 0 (Z.to_nat n).

End Py.

Export Py.

Declare Scope py_scope.
Delimit Scope py_scope with py.
Notation "x <- c ;; k" := (Py.bind c (fun x => k))
  (at level 61, c at next level, right associativity) : py_scope.
Notation "' pat <- c ;; k" := (Py.bind c (fun x => match x with pat => k end))
  (at level 61, pat pattern, c at next level, right associativity) : py_scope.

Open Scope string_scope.
Open Scope list_scope.
Open Scope Q_scope.
Open Scope py_scope.

(* ================================================================== *)
(** * API schema (the pydantic models) *)
(* ================================================================== *)

Inductive NoseShape : Type :=
| CONICAL | OGIVE | PARABOLIC | ELLIPTICAL | VON_KARMAN | LVHAACK | POWER_SERIES.

Definition NoseShape_value (k : NoseShape) : string :=
  match k with
  | CONICAL => "conical"
  | OGIVE => "ogive"
  | PARABOLIC => "parabolic"
  | ELLIPTICAL => "elliptical"
  | VON_KARMAN => "vonKarman"
  | LVHAACK => "lvHaack"
  | POWER_SERIES => "powerSeries"
  end.

Inductive MotorType : Type := SOLID | HYBRID | LIQUID.

Inductive AtmosphereType : Type := STANDARD | CUSTOM | FORECAST | REANALYSIS | WINDY.

Module EnvironmentConfig.
Record t : Type := {
  latitude : Q;
  longitude : Q;
  elevation : Q;
  date : option string;
  atmosphere_type : AtmosphereType;
  wind_speed : Q;
  wind_direction : Q
}.
(** [EnvironmentConfig()] with every field at its default. *)
Definition default : t := {|
  latitude := 32.990254; longitude := -106.974998; elevation := 1400;
  date := None; atmosphere_type := STANDARD; wind_speed := 0; wind_direction := 0 |}.
Definition set_wind_speed (v : Q) (e : t) : t := {|
  latitude := latitude e; longitude := longitude e; elevation := elevation e;
  date := date e; atmosphere_type := atmosphere_type e;
  wind_speed := v; wind_direction := wind_direction e |}.
Definition set_wind_direction (v : Q) (e : t) : t := {|
  latitude := latitude e; longitude := longitude e; elevation := elevation e;
  date := date e; atmosphere_type := atmosphere_type e;
  wind_speed := wind_speed e; wind_direction := v |}.
End EnvironmentConfig.

Module MotorConfig.
Record t : Type := {
  motor_type : MotorType;
  thrust_source : option string;
  burn_time : Q;
  total_impulse : Q;
  avg_thrust : Q;
  propellant_mass : Q;
  dry_mass : Q;
  nozzle_radius : Q;
  throat_radius : Q;
  grain_outer_radius : Q;
  grain_initial_inner_radius : Q;
  grain_initial_height : Q;
  grain_number : Z;
  grain_separation : Q;
  grain_density : Q;
  thrust_curve : option (list (list Q))
}.
Definition default : t := {|
  motor_type := SOLID; thrust_source := None; burn_time := 1.5;
  total_impulse := 100; avg_thrust := 50; propellant_mass := 0.05;
  dry_mass := 0.03; nozzle_radius := 0.015; throat_radius := 0.005;
  grain_outer_radius := 0.02; grain_initial_inner_radius := 0.008;
  grain_initial_height := 0.05; grain_number := 1%Z;
  grain_separation := 0.002; grain_density := 1700; thrust_curve := None |}.
End MotorConfig.

Module NoseConfig.
Record t : Type := {
  length : Q;
  kind : NoseShape;
  base_radius : option Q;
  rocket_radius : option Q
}.
End NoseConfig.

Module FinConfig.
Record t : Type := {
  n : Z;
  root_chord : Q;
  tip_chord : Q;
  span : Q;
  sweep_length : option Q;
  sweep_angle : option Q;
  cant_angle : Q;
  position : Q
}.
Definition default : t := {|
  n := 3%Z; root_chord := 0.08; tip_chord := 0.03; span := 0.06;
  sweep_length := None; sweep_angle := None; cant_angle := 0; position := -0.1 |}.
End FinConfig.

Module ParachuteConfig.
Record t : Type := {
  name : string;
  cd_s : Q;
  trigger : string;
  sampling_rate : Q;
  lag : Q;
  noise : list Q
}.
Definition default : t := {|
  name := "Main"; cd_s := 1.0; trigger := "apogee"; sampling_rate := 100;
  lag := 1.5; noise := [0; 8.3; 0.5] |}.
End ParachuteConfig.

Module RocketConfig.
Record t : Type := {
  mass : Q;
  radius : Q;
  inertia_i : Q;
  inertia_z : Q;
  center_of_mass : Q;
  power_off_drag : option (list (list Q));
  power_on_drag : option (list (list Q));
  nose : option NoseConfig.t;
  fins : option FinConfig.t;
  motor : MotorConfig.t;
  parachutes : option (list ParachuteConfig.t)
}.
(** [RocketConfig(motor=m)]: the motor is the only required field. *)
Definition default (m : MotorConfig.t) : t := {|
  mass := 0.5; radius := 0.025; inertia_i := 0.01; inertia_z := 0.001;
  center_of_mass := 0.3; power_off_drag := None; power_on_drag := None;
  nose := None; fins := None; motor := m; parachutes := None |}.
Definition set_mass (v : Q) (r : t) : t := {|
  mass := v; radius := radius r; inertia_i := inertia_i r; inertia_z := inertia_z r;
  center_of_mass := center_of_mass r; power_off_drag := power_off_drag r;
  power_on_drag := power_on_drag r; nose := nose r; fins := fins r;
  motor := motor r; parachutes := parachutes r |}.
End RocketConfig.

Module FlightConfig.
Record t : Type := {
  rail_length : Q;
  inclination : Q;
  heading : Q;
  max_time : Q;
  max_time_step : Q;
  terminate_on_apogee : bool
}.
Definition default : t := {|
  rail_length := 2.0; inclination := 85; heading := 0; max_time := 600;
  max_time_step := 0.01; terminate_on_apogee := false |}.
End FlightConfig.

Module SimulationRequest.
Record t : Type := {
  environment : EnvironmentConfig.t;
  rocket : RocketConfig.t;
  flight : FlightConfig.t;
  output_sampling_rate : Q
}.
Definition default (r : RocketConfig.t) : t := {|
  environment := EnvironmentConfig.default; rocket := r;
  flight := FlightConfig.default; output_sampling_rate := 100 |}.
Definition set_environment (e : EnvironmentConfig.t) (s : t) : t := {|
  environment := e; rocket := rocket s; flight := flight s;
  output_sampling_rate := output_sampling_rate s |}.
Definition set_rocket (r : RocketConfig.t) (s : t) : t := {|
  environment := environment s; rocket := r; flight := flight s;
  output_sampling_rate := output_sampling_rate s |}.
End SimulationRequest.

Module MonteCarloRequest.
Record t : Type := {
  base_simulation : SimulationRequest.t;
  num_simulations : Z;
  wind_speed_std : Q;
  wind_direction_std : Q;
  mass_std : Q;
  thrust_std : Q
}.
End MonteCarloRequest.

Module TrajectoryPoint.
Record t : Type := {
  time : Q;
  x : Q; y : Q; z : Q;
  vx : Q; vy : Q; vz : Q;
  ax : Q; ay : Q; az : Q;
  pitch : Q; yaw : Q; roll : Q;
  mach : Q;
  dynamic_pressure : Q;
  angle_of_attack : Q
}.
End TrajectoryPoint.

Module FlightEvent.
Record t : Type := {
  name : string;
  time : Q;
  altitude : option Q;
  velocity : option Q
}.
End FlightEvent.

Module SimulationResult.
Record t : Type := {
  success : bool;
  message : string;
  apogee : Q;
  apogee_time : Q;
  max_velocity : Q;
  max_velocity_time : Q;
  max_acceleration : Q;
  max_mach : Q;
  flight_time : Q;
  landing_velocity : Q;
  landing_position : list Q;
  out_of_rail_velocity : Q;
  out_of_rail_stability : Q;
  trajectory : list TrajectoryPoint.t;
  events : list FlightEvent.t;
  stability_margin_initial : Q;
  stability_margin_burnout : Q;
  cp_position : Q;
  cg_position : Q
}.
End SimulationResult.

Module MonteCarloResult.
Record t : Type := {
  success : bool;
  num_simulations : Z;
  apogee_mean : Q;
  apogee_std : Q;
  apogee_min : Q;
  apogee_max : Q;
  landing_dispersion_mean : Q;
  landing_dispersion_std : Q;
  landing_positions : list (list Q)
}.
End MonteCarloResult.

(** The dictionary returned by the stability endpoint. *)
Module StabilityResponse.
Record t : Type := {
  cp_position : Q;
  cg_position : Q;
  stability_margin : Q;
  stable : bool;
  recommendation : string
}.
End StabilityResponse.

(* ================================================================== *)
(** * External collaborators *)
(* ================================================================== *)

(** numpy.  The transcendental functions and the generator behind
    [np.random.normal] are parameters; [arange], [mean], [std], [min]
    and [max] are written out on exact rationals. *)
Module Numpy.
Record API : Type := {
  cos : Q -> Q;
  sin : Q -> Q;
  radians : Q -> Q;
  sqrt : Q -> Q;
  rng : Type;
  (** [np.random.normal(loc, scale)] reads and advances the global
      generator state; numpy raises for an invalid [scale]. *)
  random_normal : Q -> Q -> rng -> result (Q * rng)
}.

(** [np.arange(start, stop, step)]: [ceil((stop - start) / step)]
    points [start + i * step]. *)
Definition arange (start stop step : Q) : list Q :=
  map (fun i => start + inject_Z (Z.of_nat i) * step)
      (seq 0 (Z.to_nat (Qceiling ((stop - start) / step)))).

Definition sum (l : list Q) : Q := fold_left Qplus l 0.

(** [np.mean]; only ever applied to a non-empty list here. *)
Definition mean (l : list Q) : Q := sum l / inject_Z (Z.of_nat (List.length l)).

Definition std (np : API) (l : list Q) : Q :=
  let m := mean l in
  sqrt np (mean (map (fun v => Qabs (v - m) ^ 2) l)).

(** [np.min] / [np.max] raise [ValueError] on an empty sequence. *)
Definition min (l : list Q) : outcome Q :=
  match l with
  | [] => Raises (ValueError "zero-size array to reduction operation minimum which has no identity")
  | v :: rest => Returns (fold_left (fun m w => if Qltb w m then w else m) rest v)
  end.

Definition max (l : list Q) : outcome Q :=
  match l with
  | [] => Raises (ValueError "zero-size array to reduction operation maximum which has no identity")
  | v :: rest => Returns (fold_left (fun m w => if Qltb m w then w else m) rest v)
  end.
End Numpy.

(** RocketPy.  Constructors and mutating methods return the new object
    or raise; [float(obj.attr)] reads are [result Q]; an attribute
    probed with [hasattr] is an [option]. *)
Module RocketPy.

Record SolidMotorArgs : Type := {
  thrust_source : list (list Q);
  burn_time : Q;
  grain_number : Z;
  grain_separation : Q;
  grain_density : Q;
  grain_outer_radius : Q;
  grain_initial_inner_radius : Q;
  grain_initial_height : Q;
  nozzle_radius : Q;
  throat_radius : Q;
  interpolation_method : string;
  dry_mass : Q;
  center_of_dry_mass_position : Q;
  dry_inertia : Q * Q * Q;
  nozzle_position : Q;
  motor_coordinate_system_orientation : string
}.

Record RocketArgs : Type := {
  radius : Q;
  mass : Q;
  inertia : Q * Q * Q;
  power_off_drag : list (list Q);
  power_on_drag : list (list Q);
  center_of_mass_without_motor : Q;
  coordinate_system_orientation : string
}.

Record FinArgs : Type := {
  n : Z;
  root_chord : Q;
  tip_chord : Q;
  span : Q;
  sweep_length : option Q;
  cant_angle : option Q;   (* [None]: keyword not passed *)
  position : Q
}.

(** A parachute trigger is the closure [lambda p, h, y: ...]. *)
Definition trigger_fn : Type := Q -> Q -> list Q -> outcome bool.

Record ParachuteArgs : Type := {
  name : string;
  cd_s : Q;
  trigger : trigger_fn;
  sampling_rate : Q;
  lag : Q;
  noise : list Q
}.

Record FlightArgs : Type := {
  rail_length : Q;
  inclination : Q;
  heading : Q;
  max_time : Q;
  max_time_step : Q;
  terminate_on_apogee : bool
}.

(** What the server reads back from a [Flight] object. *)
Record Flight : Type := {
  t_final : result Q;
  get_solution : Q -> result unit;
  x : Q -> result Q;
  y : Q -> result Q;
  z : Q -> result Q;
  vx : Q -> result Q;
  vy : Q -> result Q;
  vz : Q -> result Q;
  ax : option (Q -> result Q);
  ay : option (Q -> result Q);
  az : option (Q -> result Q);
  attitude_angle : option (Q -> result Q);
  mach_number : Q -> result Q;
  dynamic_pressure : Q -> result Q;
  angle_of_attack : Q -> result Q;
  out_of_rail_time : result Q;
  out_of_rail_velocity : result Q;
  apogee_time : result Q;
  apogee : result Q;
  max_speed : result Q;
  max_speed_time : option (result Q);
  max_acceleration : option (result Q);
  max_mach_number : option (result Q);
  impact_time : option (result Q);
  impact_velocity : option (result Q);
  x_impact : option (result Q);
  y_impact : option (result Q);
  out_of_rail_static_margin : option (result Q)
}.

Record API : Type := {
  Environment : Type;
  SolidMotor : Type;
  Rocket : Type;
  new_Environment : Q -> Q -> Q -> result Environment;
  (** [env.set_atmospheric_model(type=..., wind_u=..., wind_v=...)] *)
  set_atmospheric_model : Environment -> string -> option Q -> option Q -> result Environment;
  new_SolidMotor : SolidMotorArgs -> result SolidMotor;
  motor_burn_time : SolidMotor -> result Q;
  new_Rocket : RocketArgs -> result Rocket;
  add_motor : Rocket -> SolidMotor -> Q -> result Rocket;
  add_nose : Rocket -> Q -> string -> Q -> result Rocket;
  add_trapezoidal_fins : Rocket -> FinArgs -> result Rocket;
  add_parachute : Rocket -> ParachuteArgs -> result Rocket;
  static_margin : Rocket -> Q -> result Q;
  center_of_mass : Rocket -> Q -> result Q;
  new_Flight : Rocket -> Environment -> FlightArgs -> result Flight
}.

End RocketPy.

(* ================================================================== *)
(** * Simulation engine (server.py) *)
(* ================================================================== *)

(** The thrust curve handed to the motor constructor: the configured
    one when it is present and non-empty, else the synthesized one. *)
Definition synthesized_thrust_curve (config : MotorConfig.t) : list (list Q) :=
  [ [0; 0];
    [0.02; MotorConfig.avg_thrust config * 1.5];
    [MotorConfig.burn_time config * 0.1; MotorConfig.avg_thrust config * 1.2];
    [MotorConfig.burn_time config * 0.5; MotorConfig.avg_thrust config];
    [MotorConfig.burn_time config * 0.9; MotorConfig.avg_thrust config * 0.6];
    [MotorConfig.burn_time config; 0] ].

Definition thrust_source_of (config : MotorConfig.t) : list (list Q) :=
  match MotorConfig.thrust_curve config with
  | Some (p :: ps) => p :: ps
  | _ => synthesized_thrust_curve config
  end.

(** The trigger closures of [create_rocketpy_rocket]. *)
Definition apogee_trigger : RocketPy.trigger_fn :=
  fun p h y => vy <- Py.index y 5 ;; Returns (Qltb vy 0).

Definition altitude_trigger (a : Q) : RocketPy.trigger_fn :=
  fun p h y =>
    vy <- Py.index y 5 ;;
    if Qltb vy 0 then (alt <- Py.index y 2 ;; Returns (Qltb alt a))
    else Returns false.

Section WithRocketPy.

(** The builtin [float(s)] on a string. *)
Variable float_of_str : string -> result Q.
Variable np : Numpy.API.
Variable rp : RocketPy.API.

(** [create_rocketpy_motor] with RocketPy installed.  (Without it the
    function hands back a placeholder dictionary; [run_simulation]
    never calls it then.)  Both branches on [motor_type] build the same
    [SolidMotor]. *)
Definition create_rocketpy_motor (config : MotorConfig.t)
  : outcome (RocketPy.SolidMotor rp) :=
  let thrust_source := thrust_source_of config in
  let args := {|
    RocketPy.thrust_source := thrust_source;
    RocketPy.burn_time := MotorConfig.burn_time config;
    RocketPy.grain_number := MotorConfig.grain_number config;
    RocketPy.grain_separation := MotorConfig.grain_separation config;
    RocketPy.grain_density := MotorConfig.grain_density config;
    RocketPy.grain_outer_radius := MotorConfig.grain_outer_radius config;
    RocketPy.grain_initial_inner_radius := MotorConfig.grain_initial_inner_radius config;
    RocketPy.grain_initial_height := MotorConfig.grain_initial_height config;
    RocketPy.nozzle_radius := MotorConfig.nozzle_radius config;
    RocketPy.throat_radius := MotorConfig.throat_radius config;
    RocketPy.interpolation_method := "linear";
    RocketPy.dry_mass := MotorConfig.dry_mass config;
    RocketPy.center_of_dry_mass_position := 0;
    RocketPy.dry_inertia := (0.001, 0.001, 0.0001);
    RocketPy.nozzle_position :=
      - MotorConfig.grain_initial_height config
        * inject_Z (MotorConfig.grain_number config) / 2;
    RocketPy.motor_coordinate_system_orientation := "nozzle_to_combustion_chamber" |} in
  match MotorConfig.motor_type config with
  | SOLID => RocketPy.new_SolidMotor rp args
  | _ => RocketPy.new_SolidMotor rp args
  end.

(** The [for chute in config.parachutes] loop. *)
Fixpoint add_parachutes (rocket : RocketPy.Rocket rp) (chutes : list ParachuteConfig.t)
  : outcome (RocketPy.Rocket rp) :=
  match chutes with
  | [] => Returns rocket
  | chute :: rest =>
      trigger <- (if String.eqb (ParachuteConfig.trigger chute) "apogee"
                  then Returns apogee_trigger
                  else (alt <- float_of_str (ParachuteConfig.trigger chute) ;;
                        Returns (altitude_trigger alt))) ;;
      rocket <- RocketPy.add_parachute rp rocket {|
        RocketPy.name := ParachuteConfig.name chute;
        RocketPy.cd_s := ParachuteConfig.cd_s chute;
        RocketPy.trigger := trigger;
        RocketPy.sampling_rate := ParachuteConfig.sampling_rate chute;
        RocketPy.lag := ParachuteConfig.lag chute;
        RocketPy.noise := ParachuteConfig.noise chute |} ;;
      add_parachutes rocket rest
  end.

(** [create_rocketpy_rocket] with RocketPy installed (same guard as
    for the motor). *)
Definition create_rocketpy_rocket (config : RocketConfig.t)
           (motor : RocketPy.SolidMotor rp) : outcome (RocketPy.Rocket rp) :=
  let power_off_drag :=
    match RocketConfig.power_off_drag config with
    | Some (p :: ps) => p :: ps
    | _ => [[0; 0.5]; [0.5; 0.5]; [1.0; 0.55]; [1.5; 0.6]; [2.0; 0.55]]
    end in
  let power_on_drag :=
    match RocketConfig.power_on_drag config with
    | Some (p :: ps) => p :: ps
    | _ => [[0; 0.45]; [0.5; 0.45]; [1.0; 0.5]; [1.5; 0.55]; [2.0; 0.5]]
    end in
  rocket <- RocketPy.new_Rocket rp {|
    RocketPy.radius := RocketConfig.radius config;
    RocketPy.mass := RocketConfig.mass config;
    RocketPy.inertia := (RocketConfig.inertia_i config, RocketConfig.inertia_i config,
                         RocketConfig.inertia_z config);
    RocketPy.power_off_drag := power_off_drag;
    RocketPy.power_on_drag := power_on_drag;
    RocketPy.center_of_mass_without_motor := RocketConfig.center_of_mass config;
    RocketPy.coordinate_system_orientation := "nose_to_tail" |} ;;
  rocket <- RocketPy.add_motor rp rocket motor (- RocketConfig.center_of_mass config * 0.8) ;;
  rocket <- match RocketConfig.nose config with
            | Some nose =>
                (* [nose_radius = config.nose.base_radius or config.radius],
                   computed and not used *)
                let nose_radius :=
                  match NoseConfig.base_radius nose with
                  | Some r => if Qeq_bool r 0 then RocketConfig.radius config else r
                  | None => RocketConfig.radius config
                  end in
                RocketPy.add_nose rp rocket (NoseConfig.length nose)
                  (NoseShape_value (NoseConfig.kind nose))
                  (RocketConfig.center_of_mass config + NoseConfig.length nose)
            | None =>
                RocketPy.add_nose rp rocket 0.1 "ogive" (RocketConfig.center_of_mass config + 0.1)
            end ;;
  rocket <- match RocketConfig.fins config with
            | Some fins =>
                RocketPy.add_trapezoidal_fins rp rocket {|
                  RocketPy.n := FinConfig.n fins;
                  RocketPy.root_chord := FinConfig.root_chord fins;
                  RocketPy.tip_chord := FinConfig.tip_chord fins;
                  RocketPy.span := FinConfig.span fins;
                  RocketPy.sweep_length := FinConfig.sweep_length fins;
                  RocketPy.cant_angle := Some (FinConfig.cant_angle fins);
                  RocketPy.position := FinConfig.position fins |}
            | None =>
                RocketPy.add_trapezoidal_fins rp rocket {|
                  RocketPy.n := 3%Z;
                  RocketPy.root_chord := 0.08;
                  RocketPy.tip_chord := 0.03;
                  RocketPy.span := 0.06;
                  RocketPy.sweep_length := None;
                  RocketPy.cant_angle := None;
                  RocketPy.position := - RocketConfig.center_of_mass config * 0.9 |}
            end ;;
  match RocketConfig.parachutes config with
  | Some (chute :: rest) => add_parachutes rocket (chute :: rest)
  | _ => Returns rocket
  end.

(** One pass of the resampling loop body: every accessor is called
    at time [t]. *)
Definition sample_point (flight : RocketPy.Flight) (t : Q) : outcome TrajectoryPoint.t :=
  _ <- RocketPy.get_solution flight t ;;
  x <- RocketPy.x flight t ;;
  y <- RocketPy.y flight t ;;
  z <- RocketPy.z flight t ;;
  vx <- RocketPy.vx flight t ;;
  vy <- RocketPy.vy flight t ;;
  vz <- RocketPy.vz flight t ;;
  ax <- Py.getattr_or (option_map (fun f => f t) (RocketPy.ax flight)) 0 ;;
  ay <- Py.getattr_or (option_map (fun f => f t) (RocketPy.ay flight)) 0 ;;
  az <- Py.getattr_or (option_map (fun f => f t) (RocketPy.az flight)) 0 ;;
  pitch <- Py.getattr_or (option_map (fun f => f t) (RocketPy.attitude_angle flight)) 0 ;;
  mach <- RocketPy.mach_number flight t ;;
  dynamic_pressure <- RocketPy.dynamic_pressure flight t ;;
  angle_of_attack <- RocketPy.angle_of_attack flight t ;;
  Returns {|
    TrajectoryPoint.time := t;
    TrajectoryPoint.x := x; TrajectoryPoint.y := y; TrajectoryPoint.z := z;
    TrajectoryPoint.vx := vx; TrajectoryPoint.vy := vy; TrajectoryPoint.vz := vz;
    TrajectoryPoint.ax := ax; TrajectoryPoint.ay := ay; TrajectoryPoint.az := az;
    TrajectoryPoint.pitch := pitch; TrajectoryPoint.yaw := 0; TrajectoryPoint.roll := 0;
    TrajectoryPoint.mach := mach;
    TrajectoryPoint.dynamic_pressure := dynamic_pressure;
    TrajectoryPoint.angle_of_attack := angle_of_attack |}.

(** [for t in times: try: trajectory.append(...) except: break].
    The bare [except] swallows whatever the accessors raise. *)
Fixpoint sample_trajectory (flight : RocketPy.Flight) (times : list Q)
  : outcome (list TrajectoryPoint.t) :=
  match times with
  | [] => Returns []
  | t :: rest =>
      match sample_point flight t with
      | Returns p => tail <- sample_trajectory flight rest ;; Returns (p :: tail)
      | Raises _ => Returns []
      | OutOfFuel => OutOfFuel
      end
  end.

(** The [except Exception as e] handler of [run_simulation]. *)
Definition failed_result (e : Py.exception) : SimulationResult.t := {|
  SimulationResult.success := false;
  SimulationResult.message := ("Simulation failed: " ++ Py.str e)%string;
  SimulationResult.apogee := 0; SimulationResult.apogee_time := 0;
  SimulationResult.max_velocity := 0; SimulationResult.max_velocity_time := 0;
  SimulationResult.max_acceleration := 0; SimulationResult.max_mach := 0;
  SimulationResult.flight_time := 0; SimulationResult.landing_velocity := 0;
  SimulationResult.landing_position := [0; 0];
  SimulationResult.out_of_rail_velocity := 0; SimulationResult.out_of_rail_stability := 0;
  SimulationResult.trajectory := []; SimulationResult.events := [];
  SimulationResult.stability_margin_initial := 0;
  SimulationResult.stability_margin_burnout := 0;
  SimulationResult.cp_position := 0; SimulationResult.cg_position := 0 |}.

(** First half of the [try] block: environment, motor, rocket and the
    [Flight] constructor, which runs the integration. *)
Definition build_flight (request : SimulationRequest.t)
  : outcome (RocketPy.SolidMotor rp * RocketPy.Rocket rp * RocketPy.Flight) :=
  let environment := SimulationRequest.environment request in
  env <- RocketPy.new_Environment rp (EnvironmentConfig.latitude environment)
           (EnvironmentConfig.longitude environment)
           (EnvironmentConfig.elevation environment) ;;
  env <- match EnvironmentConfig.atmosphere_type environment with
         | STANDARD => RocketPy.set_atmospheric_model rp env "standard_atmosphere" None None
         | CUSTOM =>
             RocketPy.set_atmospheric_model rp env "custom_atmosphere"
               (Some (EnvironmentConfig.wind_speed environment
                      * Numpy.cos np (Numpy.radians np (EnvironmentConfig.wind_direction environment))))
               (Some (EnvironmentConfig.wind_speed environment
                      * Numpy.sin np (Numpy.radians np (EnvironmentConfig.wind_direction environment))))
         | _ => Returns env
         end ;;
  motor <- create_rocketpy_motor (RocketConfig.motor (SimulationRequest.rocket request)) ;;
  rocket <- create_rocketpy_rocket (SimulationRequest.rocket request) motor ;;
  let fc := SimulationRequest.flight request in
  flight <- RocketPy.new_Flight rp rocket env {|
    RocketPy.rail_length := FlightConfig.rail_length fc;
    RocketPy.inclination := FlightConfig.inclination fc;
    RocketPy.heading := FlightConfig.heading fc;
    RocketPy.max_time := FlightConfig.max_time fc;
    RocketPy.max_time_step := FlightConfig.max_time_step fc;
    RocketPy.terminate_on_apogee := FlightConfig.terminate_on_apogee fc |} ;;
  Returns (motor, rocket, flight).

(** Second half of the [try] block: resampling, events, summary. *)
Definition extract_result (request : SimulationRequest.t)
           (motor : RocketPy.SolidMotor rp) (rocket : RocketPy.Rocket rp)
           (flight : RocketPy.Flight) : outcome SimulationResult.t :=
  dt <- Py.div 1.0 (SimulationRequest.output_sampling_rate request) ;;
  t_final <- RocketPy.t_final flight ;;
  let times := Numpy.arange 0 t_final dt in
  trajectory <- sample_trajectory flight times ;;
  rail_time <- RocketPy.out_of_rail_time flight ;;
  rail_velocity <- RocketPy.out_of_rail_velocity flight ;;
  burnout_time <- RocketPy.motor_burn_time rp motor ;;
  apogee_time <- RocketPy.apogee_time flight ;;
  apogee <- RocketPy.apogee flight ;;
  let events := [
    {| FlightEvent.name := "liftoff"; FlightEvent.time := 0;
       FlightEvent.altitude := Some 0; FlightEvent.velocity := None |};
    {| FlightEvent.name := "rail_departure"; FlightEvent.time := rail_time;
       FlightEvent.altitude := None; FlightEvent.velocity := Some rail_velocity |};
    {| FlightEvent.name := "burnout"; FlightEvent.time := burnout_time;
       FlightEvent.altitude := None; FlightEvent.velocity := None |};
    {| FlightEvent.name := "apogee"; FlightEvent.time := apogee_time;
       FlightEvent.altitude := Some apogee; FlightEvent.velocity := None |} ] in
  events <- match RocketPy.impact_time flight with
            | Some read =>
                impact_time <- read ;;
                if Qeq_bool impact_time 0 then Returns events
                else (impact_time <- read ;;
                      impact_velocity <- Py.getattr_or (RocketPy.impact_velocity flight) 0 ;;
                      Returns (events ++ [
                        {| FlightEvent.name := "landing"; FlightEvent.time := impact_time;
                           FlightEvent.altitude := None;
                           FlightEvent.velocity := Some impact_velocity |} ]))
            | None => Returns events
            end ;;
  '(stability_initial, stability_burnout) <-
    Py.try_except
      (s0 <- RocketPy.static_margin rp rocket 0 ;;
       bt <- RocketPy.motor_burn_time rp motor ;;
       s1 <- RocketPy.static_margin rp rocket bt ;;
       Returns (s0, s1))
      (fun _ => Returns (2.0, 2.0)) ;;
  r_apogee <- RocketPy.apogee flight ;;
  r_apogee_time <- RocketPy.apogee_time flight ;;
  r_max_velocity <- RocketPy.max_speed flight ;;
  r_max_velocity_time <- Py.getattr_or (RocketPy.max_speed_time flight) 0 ;;
  r_max_acceleration <- Py.getattr_or (RocketPy.max_acceleration flight) 0 ;;
  r_max_mach <- Py.getattr_or (RocketPy.max_mach_number flight) 0 ;;
  r_flight_time <- RocketPy.t_final flight ;;
  r_landing_velocity <- Py.getattr_or (RocketPy.impact_velocity flight) 0 ;;
  r_x_impact <- Py.getattr_or (RocketPy.x_impact flight) 0 ;;
  r_y_impact <- Py.getattr_or (RocketPy.y_impact flight) 0 ;;
  r_out_of_rail_velocity <- RocketPy.out_of_rail_velocity flight ;;
  r_out_of_rail_stability <-
    Py.getattr_or (RocketPy.out_of_rail_static_margin flight) stability_initial ;;
  r_cg <- RocketPy.center_of_mass rp rocket 0 ;;
  Returns {|
    SimulationResult.success := true;
    SimulationResult.message := "Simulation completed successfully";
    SimulationResult.apogee := r_apogee;
    SimulationResult.apogee_time := r_apogee_time;
    SimulationResult.max_velocity := r_max_velocity;
    SimulationResult.max_velocity_time := r_max_velocity_time;
    SimulationResult.max_acceleration := r_max_acceleration;
    SimulationResult.max_mach := r_max_mach;
    SimulationResult.flight_time := r_flight_time;
    SimulationResult.landing_velocity := r_landing_velocity;
    SimulationResult.landing_position := [r_x_impact; r_y_impact];
    SimulationResult.out_of_rail_velocity := r_out_of_rail_velocity;
    SimulationResult.out_of_rail_stability := r_out_of_rail_stability;
    SimulationResult.trajectory := trajectory;
    SimulationResult.events := events;
    SimulationResult.stability_margin_initial := stability_initial;
    SimulationResult.stability_margin_burnout := stability_burnout;
    SimulationResult.cp_position := 0;
    SimulationResult.cg_position := r_cg |}.

(** The [try] branch of [run_simulation]. *)
Definition run_rocketpy_simulation (request : SimulationRequest.t)
  : outcome SimulationResult.t :=
  Py.try_except
    ('(motor, rocket, flight) <- build_flight request ;;
     extract_result request motor rocket flight)
    (fun e => Returns (failed_result e)).

End WithRocketPy.

(** ** The mock (fallback) integrator *)

(** Body of the [while] loop of [create_mock_result] up to the [break]
    test: [None] is the [break], [Some p] the point to append. *)
Definition mock_step (request : SimulationRequest.t) (mass thrust burn_time g dt : Q)
           (t : Q) (trajectory : list TrajectoryPoint.t) : outcome (option TrajectoryPoint.t) :=
  let motor := RocketConfig.motor (SimulationRequest.rocket request) in
  a <- (if Qltb t burn_time
        then (burnt <- Py.div (MotorConfig.propellant_mass motor * t) burn_time ;;
              accel <- Py.div thrust (mass - burnt) ;;
              Returns (accel - g))
        else Returns (- g)) ;;
  '(v, z) <- (if Qeq_bool t 0
              then Returns (0, 0)
              else (prev <- Py.last_item trajectory ;;
                    let v := TrajectoryPoint.vz prev + a * dt in
                    let z := TrajectoryPoint.z prev + v * dt in
                    Returns (v, z))) ;;
  if Qltb z 0 && Qltb burn_time t
  then Returns None
  else (v_squared <- Py.pow v 2 ;;
        Returns (Some {|
          TrajectoryPoint.time := t;
          TrajectoryPoint.x := 0; TrajectoryPoint.y := 0; TrajectoryPoint.z := Py.max0 z;
          TrajectoryPoint.vx := 0; TrajectoryPoint.vy := 0; TrajectoryPoint.vz := v;
          TrajectoryPoint.ax := 0; TrajectoryPoint.ay := 0; TrajectoryPoint.az := a;
          TrajectoryPoint.pitch := 90; TrajectoryPoint.yaw := 0; TrajectoryPoint.roll := 0;
          TrajectoryPoint.mach := v / 340;
          TrajectoryPoint.dynamic_pressure := 0.5 * 1.225 * v_squared;
          TrajectoryPoint.angle_of_attack := 0 |})).

(** [while t < apogee_time * 2.5: ...]; returns the final [t] and the
    trajectory.  [fuel] bounds the number of loop tests. *)
Fixpoint mock_loop (fuel : nat) (request : SimulationRequest.t)
         (mass thrust burn_time g dt apogee_time : Q)
         (t : Q) (trajectory : list TrajectoryPoint.t)
  : outcome (Q * list TrajectoryPoint.t) :=
  match fuel with
  | O => OutOfFuel
  | S fuel' =>
      if Qltb t (apogee_time * 2.5) then
        step <- mock_step request mass thrust burn_time g dt t trajectory ;;
        match step with
        | None => Returns (t, trajectory)
        | Some p =>
            mock_loop fuel' request mass thrust burn_time g dt apogee_time
                      (t + dt) (trajectory ++ [p])
        end
      else Returns (t, trajectory)
  end.

Definition create_mock_result (fuel : nat) (request : SimulationRequest.t)
  : outcome SimulationResult.t :=
  let motor := RocketConfig.motor (SimulationRequest.rocket request) in
  let mass := RocketConfig.mass (SimulationRequest.rocket request)
              + MotorConfig.propellant_mass motor + MotorConfig.dry_mass motor in
  let thrust := MotorConfig.avg_thrust motor in
  let burn_time := MotorConfig.burn_time motor in
  let g := 9.81 in
  let avg_mass := mass - MotorConfig.propellant_mass motor / 2 in
  accel <- Py.div thrust avg_mass ;;
  let a_burn := accel - g in
  let v_burnout := a_burn * burn_time in
  burn_time_squared <- Py.pow burn_time 2 ;;
  let h_burnout := 0.5 * a_burn * burn_time_squared in
  let coast_time := v_burnout / g in
  coast_time_squared <- Py.pow coast_time 2 ;;
  let h_coast := v_burnout * coast_time - 0.5 * g * coast_time_squared in
  let apogee := h_burnout + h_coast in
  let apogee_time := burn_time + coast_time in
  dt <- Py.div 1.0 (SimulationRequest.output_sampling_rate request) ;;
  '(t, trajectory) <- mock_loop fuel request mass thrust burn_time g dt apogee_time 0 [] ;;
  landing_vz <- match trajectory with
                | [] => Returns 0
                | _ => (p <- Py.last_item trajectory ;; Returns (TrajectoryPoint.vz p))
                end ;;
  let events := [
    {| FlightEvent.name := "liftoff"; FlightEvent.time := 0;
       FlightEvent.altitude := Some 0; FlightEvent.velocity := None |};
    {| FlightEvent.name := "burnout"; FlightEvent.time := burn_time;
       FlightEvent.altitude := None; FlightEvent.velocity := None |};
    {| FlightEvent.name := "apogee"; FlightEvent.time := apogee_time;
       FlightEvent.altitude := Some apogee; FlightEvent.velocity := None |};
    {| FlightEvent.name := "landing"; FlightEvent.time := t;
       FlightEvent.altitude := None; FlightEvent.velocity := Some landing_vz |} ] in
  Returns {|
    SimulationResult.success := true;
    SimulationResult.message := "Mock simulation (RocketPy not installed)";
    SimulationResult.apogee := apogee;
    SimulationResult.apogee_time := apogee_time;
    SimulationResult.max_velocity := v_burnout;
    SimulationResult.max_velocity_time := burn_time;
    SimulationResult.max_acceleration := a_burn;
    SimulationResult.max_mach := v_burnout / 340;
    SimulationResult.flight_time := t;
    SimulationResult.landing_velocity := Qabs landing_vz;
    SimulationResult.landing_position := [0; 0];
    SimulationResult.out_of_rail_velocity := 20;
    SimulationResult.out_of_rail_stability := 2.0;
    SimulationResult.trajectory := trajectory;
    SimulationResult.events := events;
    SimulationResult.stability_margin_initial := 2.0;
    SimulationResult.stability_margin_burnout := 2.5;
    SimulationResult.cp_position := 0.25;
    SimulationResult.cg_position := 0.2 |}.

(** ** [run_simulation]

    [rocketpy] is [Some rp] when the import at module load succeeded
    ([ROCKETPY_AVAILABLE]), [None] otherwise. *)
Definition run_simulation (float_of_str : string -> result Q) (np : Numpy.API)
           (rocketpy : option RocketPy.API) (fuel : nat) (request : SimulationRequest.t)
  : outcome SimulationResult.t :=
  match rocketpy with
  | None => create_mock_result fuel request
  | Some rp => run_rocketpy_simulation float_of_str np rp request
  end.

(* ================================================================== *)
(** * API endpoints *)
(* ================================================================== *)

Section Endpoints.

Variable float_of_str : string -> result Q.
Variable np : Numpy.API.
Variable rocketpy : option RocketPy.API.

(** The list comprehension of the mock Monte Carlo answer: two draws
    per entry. *)
Fixpoint mock_landing_positions (iters : list nat) (st : Numpy.rng np)
  : outcome (list (list Q) * Numpy.rng np) :=
  match iters with
  | [] => Returns ([], st)
  | _ :: rest =>
      '(px, st) <- Numpy.random_normal np 0 50 st ;;
      '(py, st) <- Numpy.random_normal np 0 50 st ;;
      '(tail, st) <- mock_landing_positions rest st ;;
      Returns ([px; py] :: tail, st)
  end.

(** One pass of [for i in range(request.num_simulations)]: perturb a
    deep copy of the base request and simulate it. *)
Definition monte_carlo_iteration (fuel : nat) (request : MonteCarloRequest.t)
           (st : Numpy.rng np) : outcome (SimulationResult.t * Numpy.rng np) :=
  let modified_request := MonteCarloRequest.base_simulation request in
  '(d, st) <- Numpy.random_normal np 0 (MonteCarloRequest.wind_speed_std request) st ;;
  let modified_request :=
    SimulationRequest.set_environment
      (EnvironmentConfig.set_wind_speed
         (EnvironmentConfig.wind_speed (SimulationRequest.environment modified_request) + d)
         (SimulationRequest.environment modified_request))
      modified_request in
  '(d, st) <- Numpy.random_normal np 0 (MonteCarloRequest.wind_direction_std request) st ;;
  let modified_request :=
    SimulationRequest.set_environment
      (EnvironmentConfig.set_wind_direction
         (EnvironmentConfig.wind_direction (SimulationRequest.environment modified_request) + d)
         (SimulationRequest.environment modified_request))
      modified_request in
  '(d, st) <- Numpy.random_normal np 0 (MonteCarloRequest.mass_std request) st ;;
  let modified_request :=
    SimulationRequest.set_rocket
      (RocketConfig.set_mass
         (RocketConfig.mass (SimulationRequest.rocket modified_request) + d)
         (SimulationRequest.rocket modified_request))
      modified_request in
  result <- run_simulation float_of_str np rocketpy fuel modified_request ;;
  Returns (result, st).

Fixpoint monte_carlo_loop (fuel : nat) (request : MonteCarloRequest.t) (iters : list nat)
         (st : Numpy.rng np) (results : list SimulationResult.t)
         (landing_positions : list (list Q))
  : outcome (list SimulationResult.t * list (list Q) * Numpy.rng np) :=
  match iters with
  | [] => Returns (results, landing_positions, st)
  | _ :: rest =>
      '(result, st) <- monte_carlo_iteration fuel request st ;;
      if SimulationResult.success result
      then monte_carlo_loop fuel request rest st (results ++ [result])
             (landing_positions ++ [SimulationResult.landing_position result])
      else monte_carlo_loop fuel request rest st results landing_positions
  end.

(** [np.sqrt(p[0]**2 + p[1]**2) for p in landing_positions].  The
    coordinates are outputs of the engine; their squares are exact. *)
Fixpoint dispersions_of (landing_positions : list (list Q)) : outcome (list Q) :=
  match landing_positions with
  | [] => Returns []
  | p :: rest =>
      p0 <- Py.index p 0 ;;
      p1 <- Py.index p 1 ;;
      tail <- dispersions_of rest ;;
      Returns (Numpy.sqrt np (p0 ^ 2 + p1 ^ 2) :: tail)
  end.

(** The tail of [monte_carlo], from [if not results:] on. *)
Definition monte_carlo_summary (results : list SimulationResult.t)
         (landing_positions : list (list Q)) : outcome MonteCarloResult.t :=
  match results with
  | [] =>
      Returns {|
        MonteCarloResult.success := false;
        MonteCarloResult.num_simulations := 0;
        MonteCarloResult.apogee_mean := 0;
        MonteCarloResult.apogee_std := 0;
        MonteCarloResult.apogee_min := 0;
        MonteCarloResult.apogee_max := 0;
        MonteCarloResult.landing_dispersion_mean := 0;
        MonteCarloResult.landing_dispersion_std := 0;
        MonteCarloResult.landing_positions := [] |}
  | _ :: _ =>
      let apogees := map SimulationResult.apogee results in
      dispersions <- dispersions_of landing_positions ;;
      apogee_min <- Numpy.min apogees ;;
      apogee_max <- Numpy.max apogees ;;
      Returns {|
        MonteCarloResult.success := true;
        MonteCarloResult.num_simulations := Z.of_nat (List.length results);
        MonteCarloResult.apogee_mean := Numpy.mean apogees;
        MonteCarloResult.apogee_std := Numpy.std np apogees;
        MonteCarloResult.apogee_min := apogee_min;
        MonteCarloResult.apogee_max := apogee_max;
        MonteCarloResult.landing_dispersion_mean := Numpy.mean dispersions;
        MonteCarloResult.landing_dispersion_std := Numpy.std np dispersions;
        MonteCarloResult.landing_positions := firstn 100 landing_positions |}
  end.

(** POST /api/montecarlo.  The generator state is global in numpy; it
    is threaded explicitly and returned with the answer. *)
Definition monte_carlo (fuel : nat) (request : MonteCarloRequest.t) (st : Numpy.rng np)
  : outcome (MonteCarloResult.t * Numpy.rng np) :=
  match rocketpy with
  | None =>
      '(positions, st) <-
        mock_landing_positions
          (Py.range (Z.min (MonteCarloRequest.num_simulations request) 100)) st ;;
      Returns ({|
        MonteCarloResult.success := true;
        MonteCarloResult.num_simulations := MonteCarloRequest.num_simulations request;
        MonteCarloResult.apogee_mean := 500;
        MonteCarloResult.apogee_std := 25;
        MonteCarloResult.apogee_min := 450;
        MonteCarloResult.apogee_max := 550;
        MonteCarloResult.landing_dispersion_mean := 50;
        MonteCarloResult.landing_dispersion_std := 20;
        MonteCarloResult.landing_positions := positions |}, st)
  | Some _ =>
      '(results, landing_positions, st) <-
        monte_carlo_loop fuel request
          (Py.range (MonteCarloRequest.num_simulations request)) st [] [] ;;
      answer <- monte_carlo_summary results landing_positions ;;
      Returns (answer, st)
  end.

(** The results of all iterations of a batch in iteration order, the
    failed ones included: what the loop sees before it filters. *)
Fixpoint monte_carlo_trace (fuel : nat) (request : MonteCarloRequest.t) (iters : list nat)
         (st : Numpy.rng np) : outcome (list SimulationResult.t * Numpy.rng np) :=
  match iters with
  | [] => Returns ([], st)
  | _ :: rest =>
      '(result, st) <- monte_carlo_iteration fuel request st ;;
      '(tail, st) <- monte_carlo_trace fuel request rest st ;;
      Returns (result :: tail, st)
  end.

End Endpoints.

(** POST /api/stability *)
Definition calculate_stability (rocket : RocketConfig.t) : outcome StabilityResponse.t :=
  let radius := RocketConfig.radius rocket in
  let nose_length := match RocketConfig.nose rocket with
                     | Some nose => NoseConfig.length nose
                     | None => 0.1
                     end in
  let nose_cp := nose_length * 0.466 in
  let '(fin_area, fin_cp) :=
    match RocketConfig.fins rocket with
    | Some fins =>
        (0.5 * (FinConfig.root_chord fins + FinConfig.tip_chord fins) * FinConfig.span fins,
         Qabs (FinConfig.position fins) + FinConfig.root_chord fins * 0.4)
    | None => (0.01, 0.2)
    end in
  let nose_cn := 2 in
  fin_cn <- match RocketConfig.fins rocket with
            | Some fins =>
                (* [4 * n] is an exact [int]; it becomes a float when it
                   meets the square *)
                ratio <- Py.div (FinConfig.span fins) (2 * radius) ;;
                ratio_squared <- Py.pow ratio 2 ;;
                four_n <- Py.float_of_int (4 * FinConfig.n fins) ;;
                Returns (four_n * ratio_squared)
            | None => Returns 4
            end ;;
  let total_cn := nose_cn + fin_cn in
  cp <- Py.div (nose_cn * nose_cp + fin_cn * fin_cp) total_cn ;;
  let cg := RocketConfig.center_of_mass rocket in
  stability_margin <- Py.div (cp - cg) (2 * radius) ;;
  Returns {|
    StabilityResponse.cp_position := cp;
    StabilityResponse.cg_position := cg;
    StabilityResponse.stability_margin := stability_margin;
    StabilityResponse.stable := Qltb 1.0 stability_margin;
    StabilityResponse.recommendation :=
      if Qltb 1.5 stability_margin then "Stable"
      else if Qltb 1.0 stability_margin then "Marginally stable"
      else "Unstable - add weight to nose or move fins aft" |}.


(* ================================================================== *)
(** * Motor catalog and atmosphere endpoints *)
(* ================================================================== *)

(** One value of [MOTOR_DATABASE]: every entry is a dictionary with the
    same fifteen keys. *)
Module MotorData.
Record t : Type := entry {
  id : string;
  manufacturer : string;
  designation : string;
  impulse_class : string;
  diameter : Q;
  length : Q;
  total_mass : Q;
  propellant_mass : Q;
  avg_thrust : Q;
  max_thrust : Q;
  burn_time : Q;
  total_impulse : Q;
  isp : Q;
  delays : list Z;
  thrust_curve : list (list Q)
}.
End MotorData.

Module MotorInfo.
Record t : Type := {
  id : string;
  manufacturer : string;
  designation : string;
  impulse_class : string;
  diameter : Q;
  length : Q;
  total_mass : Q;
  propellant_mass : Q;
  avg_thrust : Q;
  max_thrust : Q;
  burn_time : Q;
  total_impulse : Q;
  isp : Q;
  thrust_curve : list (list Q)
}.
End MotorInfo.

(** The dictionary, as its items in insertion order (the order in which
    [.items()] yields them). *)
Definition MOTOR_DATABASE : list (string * MotorData.t) := [
  ("Estes_A8",
   MotorData.entry "Estes_A8" "Estes" "A8" "A" 18 70 16.2 3.12 5 10 0.5 2.5 82
     [3; 5]%Z
     [[0; 0]; [0.02; 10]; [0.1; 8]; [0.25; 5]; [0.4; 3]; [0.5; 0]]);
  ("Estes_B6",
   MotorData.entry "Estes_B6" "Estes" "B6" "B" 18 70 18.4 5.6 6 13 0.85 5.0 91
     [4; 6]%Z
     [[0; 0]; [0.03; 13]; [0.15; 9]; [0.4; 6]; [0.7; 4]; [0.85; 0]]);
  ("Estes_C6",
   MotorData.entry "Estes_C6" "Estes" "C6" "C" 18 70 24.0 10.8 6 14 1.6 8.8 83
     [3; 5; 7]%Z
     [[0; 0]; [0.04; 14]; [0.2; 10]; [0.5; 7]; [1.0; 5]; [1.4; 3]; [1.6; 0]]);
  ("Estes_D12",
   MotorData.entry "Estes_D12" "Estes" "D12" "D" 24 70 44.0 21.1 12 30 1.6 16.8 81
     [3; 5; 7]%Z
     [[0; 0]; [0.03; 30]; [0.1; 22]; [0.4; 14]; [0.8; 11]; [1.2; 8]; [1.6; 0]]);
  ("Estes_E12",
   MotorData.entry "Estes_E12" "Estes" "E12" "E" 24 95 57.0 33.0 12 35 2.2 28.4 88
     [4; 6; 8]%Z
     [[0; 0]; [0.04; 35]; [0.2; 22]; [0.6; 14]; [1.2; 10]; [1.8; 6]; [2.2; 0]]);
  ("Aerotech_F50",
   MotorData.entry "Aerotech_F50" "Aerotech" "F50" "F" 29 83 85.0 37.0 50 78 1.5 72.0 198
     [4; 6; 8; 10]%Z
     [[0; 0]; [0.02; 78]; [0.1; 65]; [0.4; 55]; [0.8; 48]; [1.2; 35]; [1.5; 0]]);
  ("Aerotech_G80",
   MotorData.entry "Aerotech_G80" "Aerotech" "G80" "G" 29 124 125.0 62.5 80 115 1.5 120.0 196
     [4; 7; 10]%Z
     [[0; 0]; [0.02; 115]; [0.15; 95]; [0.5; 85]; [0.9; 75]; [1.3; 50]; [1.5; 0]]);
  ("Aerotech_H128",
   MotorData.entry "Aerotech_H128" "Aerotech" "H128" "H" 29 195 195.0 95.0 128 180 1.65
     210.0 225
     [6; 10; 14]%Z
     [[0; 0]; [0.02; 180]; [0.15; 155]; [0.5; 140]; [1.0; 110]; [1.4; 70]; [1.65; 0]]);
  ("Aerotech_I284",
   MotorData.entry "Aerotech_I284" "Aerotech" "I284" "I" 38 230 350.0 175.0 284 380 1.5
     400.0 233
     [6; 10; 14]%Z
     [[0; 0]; [0.02; 380]; [0.12; 320]; [0.4; 300]; [0.8; 280]; [1.2; 200]; [1.5; 0]]);
  ("Cesaroni_M1670",
   MotorData.entry "Cesaroni_M1670" "Cesaroni" "M1670" "M" 75 621 4827.0 2727.0 1670 2100
     3.9 6500.0 243
     [14]%Z
     [[0; 0]; [0.1; 2100]; [0.5; 1900]; [1.5; 1700]; [2.5; 1600]; [3.5; 1400]; [3.9; 0]])
].

(** [MotorInfo(id=data["id"], ...)]: every key but [delays]. *)
Definition motor_info (data : MotorData.t) : MotorInfo.t := {|
  MotorInfo.id := MotorData.id data;
  MotorInfo.manufacturer := MotorData.manufacturer data;
  MotorInfo.designation := MotorData.designation data;
  MotorInfo.impulse_class := MotorData.impulse_class data;
  MotorInfo.diameter := MotorData.diameter data;
  MotorInfo.length := MotorData.length data;
  MotorInfo.total_mass := MotorData.total_mass data;
  MotorInfo.propellant_mass := MotorData.propellant_mass data;
  MotorInfo.avg_thrust := MotorData.avg_thrust data;
  MotorInfo.max_thrust := MotorData.max_thrust data;
  MotorInfo.burn_time := MotorData.burn_time data;
  MotorInfo.total_impulse := MotorData.total_impulse data;
  MotorInfo.isp := MotorData.isp data;
  MotorInfo.thrust_curve := MotorData.thrust_curve data |}.

(** The truth value of an optional query string: [None] and the empty
    string are false. *)
Definition truthy (q : option string) : bool :=
  match q with
  | Some (String _ _) => true
  | _ => false
  end.

(** What an endpoint that may answer with an HTTP error gives back. *)
Inductive http_response (A : Type) : Type :=
| Http200 (body : A)
| HTTPException (status_code : Z) (detail : string).

Arguments Http200 {A} body.
Arguments HTTPException {A} status_code detail.

Section MotorEndpoints.

(** [str.upper] and [str.lower]. *)
Variable upper : string -> string.
Variable lower : string -> string.

(** [impulse_class and data["impulse_class"] != impulse_class.upper()] *)
Definition class_mismatch (impulse_class : option string) (data : MotorData.t) : bool :=
  match impulse_class with
  | Some q => truthy impulse_class
              && negb (String.eqb (MotorData.impulse_class data) (upper q))
  | None => false
  end.

(** [manufacturer and data["manufacturer"].lower() != manufacturer.lower()] *)
Definition manufacturer_mismatch (manufacturer : option string) (data : MotorData.t) : bool :=
  match manufacturer with
  | Some q => truthy manufacturer
              && negb (String.eqb (lower (MotorData.manufacturer data)) (lower q))
  | None => false
  end.

(** GET /api/motors: the loop over the items of the dictionary, with
    its two [continue] tests. *)
Fixpoint list_motors_from (items : list (string * MotorData.t))
         (impulse_class manufacturer : option string) : list MotorInfo.t :=
  match items with
  | [] => []
  | (motor_id, data) :: rest =>
      if class_mismatch impulse_class data
      then list_motors_from rest impulse_class manufacturer
      else if manufacturer_mismatch manufacturer data
           then list_motors_from rest impulse_class manufacturer
           else motor_info data :: list_motors_from rest impulse_class manufacturer
  end.

Definition list_motors (impulse_class manufacturer : option string) : list MotorInfo.t :=
  list_motors_from MOTOR_DATABASE impulse_class manufacturer.

End MotorEndpoints.

(** [MOTOR_DATABASE[motor_id]], [None] when the key is absent. *)
Fixpoint database_get (items : list (string * MotorData.t)) (motor_id : string)
  : option MotorData.t :=
  match items with
  | [] => None
  | (key, data) :: rest =>
      if String.eqb key motor_id then Some data else database_get rest motor_id
  end.

(** GET /api/motors/{motor_id} *)
Definition get_motor (motor_id : string) : http_response MotorInfo.t :=
  match database_get MOTOR_DATABASE motor_id with
  | None => HTTPException 404 ("Motor " ++ motor_id ++ " not found")%string
  | Some data => Http200 (motor_info data)
  end.

(** The dictionary returned by the atmosphere endpoint. *)
Module AtmosphereResponse.
Record t : Type := {
  altitude : Q;
  temperature : Q;
  temperature_celsius : Q;
  pressure : Q;
  density : Q;
  speed_of_sound : Q;
  gravity : Q
}.
End AtmosphereResponse.

Section Atmosphere.

(** [x ** y] on floats (it may raise [OverflowError]) and [np.exp];
    [np.sqrt] comes with [np]. *)
Variable float_pow : Q -> Q -> result Q.
Variable np_exp : Q -> Q.
Variable np : Numpy.API.

(** GET /api/atmosphere.  [latitude] and [longitude] are accepted and
    not read.  The square of the gravity term is exact here: for a
    float altitude the ratio is at most about 7e15 in magnitude, so
    [** 2] cannot overflow on it. *)
Definition get_atmosphere (altitude latitude longitude : Q)
  : outcome AtmosphereResponse.t :=
  let T0 := 288.15 in
  let P0 := 101325 in
  let L := 0.0065 in
  let g := 9.81 in
  let M := 0.029 in
  let R := 8.314 in
  '(T, P) <- (if Qltb altitude 11000
              then (let T := T0 - L * altitude in
                    p <- float_pow (T / T0) (g * M / (R * L)) ;;
                    Returns (T, P0 * p))
              else (let T := 216.65 in
                    let T11 := T0 - L * 11000 in
                    p11 <- float_pow (T11 / T0) (g * M / (R * L)) ;;
                    let P11 := P0 * p11 in
                    Returns (T, P11 * np_exp (- g * M * (altitude - 11000) / (R * T))))) ;;
  rho <- Py.div P (287.05 * T) ;;
  let a := Numpy.sqrt np (1.4 * 287.05 * T) in
  ratio <- Py.div 6371000 (6371000 + altitude) ;;
  Returns {|
    AtmosphereResponse.altitude := altitude;
    AtmosphereResponse.temperature := T;
    AtmosphereResponse.temperature_celsius := T - 273.15;
    AtmosphereResponse.pressure := P;
    AtmosphereResponse.density := rho;
    AtmosphereResponse.speed_of_sound := a;
    AtmosphereResponse.gravity := 9.81 * ratio ^ 2 |}.

End Atmosphere.

(* ================================================================== *)
(** * Vocabulary of the specification *)
(* ================================================================== *)

(** A thrust-curve point is the pair [[time, thrust]]. *)
Definition point_time (p : list Q) : Q := nth 0 p 0.
Definition point_thrust (p : list Q) : Q := nth 1 p 0.

Definition strictly_increasing (l : list Q) : Prop := StronglySorted Qlt l.

Definition curve_times (curve : list (list Q)) : list Q := map point_time curve.

Definition starts_at_zero_thrust (curve : list (list Q)) : Prop :=
  exists p, nth_error curve 0 = Some p /\ point_thrust p == 0.

Definition ends_at_zero_thrust (curve : list (list Q)) : Prop :=
  exists p, Py.last_item curve = Returns p /\ point_thrust p == 0.

Definition trajectory_times (r : SimulationResult.t) : list Q :=
  map TrajectoryPoint.time (SimulationResult.trajectory r).

(** The event every successful run reports first. *)
Definition liftoff_event : FlightEvent.t :=
  {| FlightEvent.name := "liftoff"; FlightEvent.time := 0;
     FlightEvent.altitude := Some 0; FlightEvent.velocity := None |}.

(** Every numeric field of the summary and of the analysis is zero. *)
Definition numeric_fields_zero (r : SimulationResult.t) : Prop :=
  SimulationResult.apogee r = 0
  /\ SimulationResult.apogee_time r = 0
  /\ SimulationResult.max_velocity r = 0
  /\ SimulationResult.max_velocity_time r = 0
  /\ SimulationResult.max_acceleration r = 0
  /\ SimulationResult.max_mach r = 0
  /\ SimulationResult.flight_time r = 0
  /\ SimulationResult.landing_velocity r = 0
  /\ SimulationResult.out_of_rail_velocity r = 0
  /\ SimulationResult.out_of_rail_stability r = 0
  /\ SimulationResult.stability_margin_initial r = 0
  /\ SimulationResult.stability_margin_burnout r = 0
  /\ SimulationResult.cp_position r = 0
  /\ SimulationResult.cg_position r = 0.

(** The computation came to an end, by returning or by raising. *)
Definition terminates {A : Type} (c : outcome A) : Prop := c <> OutOfFuel.

(** The Monte Carlo answer that reports no successful run. *)
Definition no_successful_run : MonteCarloResult.t := {|
  MonteCarloResult.success := false;
  MonteCarloResult.num_simulations := 0;
  MonteCarloResult.apogee_mean := 0;
  MonteCarloResult.apogee_std := 0;
  MonteCarloResult.apogee_min := 0;
  MonteCarloResult.apogee_max := 0;
  MonteCarloResult.landing_dispersion_mean := 0;
  MonteCarloResult.landing_dispersion_std := 0;
  MonteCarloResult.landing_positions := [] |}.

(** numpy accepts the three standard deviations of the request: the
    draws of one iteration return whatever the generator state. *)
Definition draws_succeed (np : Numpy.API) (request : MonteCarloRequest.t) : Prop :=
  forall scale,
    In scale [MonteCarloRequest.wind_speed_std request;
              MonteCarloRequest.wind_direction_std request;
              MonteCarloRequest.mass_std request] ->
    forall st, exists draw st', Numpy.random_normal np 0 scale st = Ok (draw, st').

(** Two Monte Carlo requests that differ at most in [thrust_std]. *)
Definition same_but_thrust_std (r1 r2 : MonteCarloRequest.t) : Prop :=
  MonteCarloRequest.base_simulation r1 = MonteCarloRequest.base_simulation r2
  /\ MonteCarloRequest.num_simulations r1 = MonteCarloRequest.num_simulations r2
  /\ MonteCarloRequest.wind_speed_std r1 = MonteCarloRequest.wind_speed_std r2
  /\ MonteCarloRequest.wind_direction_std r1 = MonteCarloRequest.wind_direction_std r2
  /\ MonteCarloRequest.mass_std r1 = MonteCarloRequest.mass_std r2.

(** The closed-form estimate of the fallback path, as the
    specification words it. *)
Module ClosedForm.

Definition g : Q := 9.81.

Definition liftoff_mass (request : SimulationRequest.t) : Q :=
  RocketConfig.mass (SimulationRequest.rocket request)
  + MotorConfig.propellant_mass (RocketConfig.motor (SimulationRequest.rocket request))
  + MotorConfig.dry_mass (RocketConfig.motor (SimulationRequest.rocket request)).

Definition burn_acceleration (request : SimulationRequest.t) : Q :=
  MotorConfig.avg_thrust (RocketConfig.motor (SimulationRequest.rocket request))
  / (liftoff_mass request
     - MotorConfig.propellant_mass (RocketConfig.motor (SimulationRequest.rocket request)) / 2)
  - g.

Definition burn_time (request : SimulationRequest.t) : Q :=
  MotorConfig.burn_time (RocketConfig.motor (SimulationRequest.rocket request)).

Definition burnout_velocity (request : SimulationRequest.t) : Q :=
  burn_acceleration request * burn_time request.

Definition burnout_altitude (request : SimulationRequest.t) : Q :=
  burn_acceleration request * burn_time request ^ 2 / 2.

Definition coast_time (request : SimulationRequest.t) : Q :=
  burnout_velocity request / g.

Definition coast_altitude (request : SimulationRequest.t) : Q :=
  burnout_velocity request * coast_time request - g * coast_time request ^ 2 / 2.

Definition apogee (request : SimulationRequest.t) : Q :=
  burnout_altitude request + coast_altitude request.

Definition apogee_time (request : SimulationRequest.t) : Q :=
  burn_time request + coast_time request.

End ClosedForm.

(** A request the fallback path is meant for: positive rocket mass,
    non-negative motor masses, positive output rate. *)
Definition physical_request (request : SimulationRequest.t) : Prop :=
  0 < RocketConfig.mass (SimulationRequest.rocket request)
  /\ 0 <= MotorConfig.propellant_mass (RocketConfig.motor (SimulationRequest.rocket request))
  /\ 0 <= MotorConfig.dry_mass (RocketConfig.motor (SimulationRequest.rocket request))
  /\ 0 < SimulationRequest.output_sampling_rate request.

(** A number whose magnitude a float can hold: it is below the
    threshold from which binary64 rounds to infinity. *)
Definition in_float_range (x : Q) : Prop := Qabs x < Py.float_overflow.

(** An upper bound of the accelerations the mock loop computes: the
    thrust over the burnout mass, plus gravity. *)
Definition peak_acceleration (request : SimulationRequest.t) : Q :=
  Qabs (MotorConfig.avg_thrust (RocketConfig.motor (SimulationRequest.rocket request)))
  / (RocketConfig.mass (SimulationRequest.rocket request)
     + MotorConfig.dry_mass (RocketConfig.motor (SimulationRequest.rocket request)))
  + 9.81.

(** The squares the fallback path takes stay in the float range:
    [burn_time ** 2], [coast_time ** 2], and [v ** 2] for every speed
    the loop can reach before its horizon of 2.5 apogee times, none of
    which exceeds the peak acceleration times that horizon. *)
Definition squares_in_float_range (request : SimulationRequest.t) : Prop :=
  in_float_range (ClosedForm.burn_time request ^ 2)
  /\ in_float_range (ClosedForm.coast_time request ^ 2)
  /\ in_float_range
       ((peak_acceleration request * (ClosedForm.apogee_time request * 2.5)) ^ 2).

(** A parachute whose trigger is neither the literal "apogee" nor a
    string that [float] accepts. *)
Definition unparseable_trigger (float_of_str : string -> result Q)
           (chute : ParachuteConfig.t) : Prop :=
  ParachuteConfig.trigger chute <> "apogee"
  /\ exists e, float_of_str (ParachuteConfig.trigger chute) = Err e.

(** [needle] occurs in [text]. *)
Definition contains (text needle : string) : Prop :=
  exists before after, text = (before ++ needle ++ after)%string.

(** A catalog entry passes the two optional filters of [list_motors]:
    a filter that is absent or empty lets everything through. *)
Definition passes_filters (upper lower : string -> string)
           (impulse_class manufacturer : option string) (data : MotorData.t) : Prop :=
  (forall q, impulse_class = Some q -> q <> "" -> MotorData.impulse_class data = upper q)
  /\ (forall q, manufacturer = Some q -> q <> "" ->
                lower (MotorData.manufacturer data) = lower q).

(** Adjacent time points increase: the executable form of
    [strictly_increasing]. *)
Fixpoint increasingb (l : list Q) : bool :=
  match l with
  | [] => true
  | a :: rest =>
      match rest with
      | [] => true
      | b :: _ => Qltb a b && increasingb rest
      end
  end.

(** A thrust curve as the Motor data model wants it: at least two
    points, strictly increasing times, zero thrust at both ends. *)
Definition well_formed_curve (curve : list (list Q)) : Prop :=
  (2 <= List.length curve)%nat
  /\ strictly_increasing (curve_times curve)
  /\ starts_at_zero_thrust curve
  /\ ends_at_zero_thrust curve.

(** The largest thrust of a curve (0 for the empty curve). *)
Definition peak_thrust (curve : list (list Q)) : Q :=
  fold_left (fun best p => if Qltb best (point_thrust p) then point_thrust p else best)
            curve 0.

(** The one power the atmosphere endpoint takes: the temperature ratio
    of the altitude (of the tropopause, from 11 km up) to the ISA
    exponent [g M / (R L)]. *)
Definition isa_base (altitude : Q) : Q :=
  if Qltb altitude 11000 then (288.15 - 0.0065 * altitude) / 288.15
  else (288.15 - 0.0065 * 11000) / 288.15.

Definition isa_exponent : Q := 9.81 * 0.029 / (8.314 * 0.0065).

(** The two centres of pressure that [calculate_stability] averages. *)
Definition nose_cp_of (rocket : RocketConfig.t) : Q :=
  match RocketConfig.nose rocket with
  | Some nose => NoseConfig.length nose
  | None => 0.1
  end * 0.466.

Definition fin_cp_of (rocket : RocketConfig.t) : Q :=
  match RocketConfig.fins rocket with
  | Some fins => Qabs (FinConfig.position fins) + FinConfig.root_chord fins * 0.4
  | None => 0.2
  end.

(** The fin count is not negative (a finless rocket qualifies). *)
Definition fin_count_not_negative (rocket : RocketConfig.t) : Prop :=
  forall fins, RocketConfig.fins rocket = Some fins -> (0 <= FinConfig.n fins)%Z.

(** What the endpoint does with the fins stays in the float range: the
    square of the span over the body diameter, and the [int] [4 * n]
    once it becomes a float (a finless rocket qualifies). *)
Definition fins_in_float_range (rocket : RocketConfig.t) : Prop :=
  forall fins, RocketConfig.fins rocket = Some fins ->
    in_float_range ((FinConfig.span fins / (2 * RocketConfig.radius rocket)) ^ 2)
    /\ in_float_range (inject_Z (4 * FinConfig.n fins)).

(** The same rocket with its centre of mass moved. *)
Definition with_center_of_mass (cg : Q) (r : RocketConfig.t) : RocketConfig.t := {|
  RocketConfig.mass := RocketConfig.mass r;
  RocketConfig.radius := RocketConfig.radius r;
  RocketConfig.inertia_i := RocketConfig.inertia_i r;
  RocketConfig.inertia_z := RocketConfig.inertia_z r;
  RocketConfig.center_of_mass := cg;
  RocketConfig.power_off_drag := RocketConfig.power_off_drag r;
  RocketConfig.power_on_drag := RocketConfig.power_on_drag r;
  RocketConfig.nose := RocketConfig.nose r;
  RocketConfig.fins := RocketConfig.fins r;
  RocketConfig.motor := RocketConfig.motor r;
  RocketConfig.parachutes := RocketConfig.parachutes r |}.

(** A sample of the vertical-only mock flight: on the launch axis,
    pointing up, with the altitude clamped at the ground and Mach
    number and dynamic pressure computed from the vertical speed. *)
Definition vertical_sample (p : TrajectoryPoint.t) : Prop :=
  TrajectoryPoint.x p = 0 /\ TrajectoryPoint.y p = 0
  /\ TrajectoryPoint.vx p = 0 /\ TrajectoryPoint.vy p = 0
  /\ TrajectoryPoint.ax p = 0 /\ TrajectoryPoint.ay p = 0
  /\ TrajectoryPoint.pitch p = 90
  /\ TrajectoryPoint.yaw p = 0 /\ TrajectoryPoint.roll p = 0
  /\ TrajectoryPoint.angle_of_attack p = 0
  /\ 0 <= TrajectoryPoint.z p
  /\ TrajectoryPoint.mach p = TrajectoryPoint.vz p / 340
  /\ TrajectoryPoint.dynamic_pressure p = 0.5 * 1.225 * TrajectoryPoint.vz p ^ 2.

(** The mean mass of the burn in the mock estimate. *)
Definition mean_mass (request : SimulationRequest.t) : Q :=
  ClosedForm.liftoff_mass request
  - MotorConfig.propellant_mass (RocketConfig.motor (SimulationRequest.rocket request)) / 2.

(** Two requests agree on everything the mock estimate reads: rocket
    mass, the motor's thrust, burn time and masses, and the output
    rate. *)
Definition same_mock_inputs (r1 r2 : SimulationRequest.t) : Prop :=
  let m1 := RocketConfig.motor (SimulationRequest.rocket r1) in
  let m2 := RocketConfig.motor (SimulationRequest.rocket r2) in
  RocketConfig.mass (SimulationRequest.rocket r1) = RocketConfig.mass (SimulationRequest.rocket r2)
  /\ MotorConfig.avg_thrust m1 = MotorConfig.avg_thrust m2
  /\ MotorConfig.burn_time m1 = MotorConfig.burn_time m2
  /\ MotorConfig.propellant_mass m1 = MotorConfig.propellant_mass m2
  /\ MotorConfig.dry_mass m1 = MotorConfig.dry_mass m2
  /\ SimulationRequest.output_sampling_rate r1 = SimulationRequest.output_sampling_rate r2.

(** The same request with another wind speed, rail inclination and
    output rate. *)
Definition launch_in_wind (wind inclination rate : Q) (s : SimulationRequest.t)
  : SimulationRequest.t := {|
  SimulationRequest.environment :=
    EnvironmentConfig.set_wind_speed wind (SimulationRequest.environment s);
  SimulationRequest.rocket := SimulationRequest.rocket s;
  SimulationRequest.flight := {|
    FlightConfig.rail_length := FlightConfig.rail_length (SimulationRequest.flight s);
    FlightConfig.inclination := inclination;
    FlightConfig.heading := FlightConfig.heading (SimulationRequest.flight s);
    FlightConfig.max_time := FlightConfig.max_time (SimulationRequest.flight s);
    FlightConfig.max_time_step := FlightConfig.max_time_step (SimulationRequest.flight s);
    FlightConfig.terminate_on_apogee :=
      FlightConfig.terminate_on_apogee (SimulationRequest.flight s) |};
  SimulationRequest.output_sampling_rate := rate |}.

(** The same motor declared of type [k]. *)
Definition motor_of_type (k : MotorType) (m : MotorConfig.t) : MotorConfig.t := {|
  MotorConfig.motor_type := k;
  MotorConfig.thrust_source := MotorConfig.thrust_source m;
  MotorConfig.burn_time := MotorConfig.burn_time m;
  MotorConfig.total_impulse := MotorConfig.total_impulse m;
  MotorConfig.avg_thrust := MotorConfig.avg_thrust m;
  MotorConfig.propellant_mass := MotorConfig.propellant_mass m;
  MotorConfig.dry_mass := MotorConfig.dry_mass m;
  MotorConfig.nozzle_radius := MotorConfig.nozzle_radius m;
  MotorConfig.throat_radius := MotorConfig.throat_radius m;
  MotorConfig.grain_outer_radius := MotorConfig.grain_outer_radius m;
  MotorConfig.grain_initial_inner_radius := MotorConfig.grain_initial_inner_radius m;
  MotorConfig.grain_initial_height := MotorConfig.grain_initial_height m;
  MotorConfig.grain_number := MotorConfig.grain_number m;
  MotorConfig.grain_separation := MotorConfig.grain_separation m;
  MotorConfig.grain_density := MotorConfig.grain_density m;
  MotorConfig.thrust_curve := MotorConfig.thrust_curve m |}.

(** The same request with its motor declared of type [k]. *)
Definition with_motor_type (k : MotorType) (s : SimulationRequest.t) : SimulationRequest.t :=
  let r := SimulationRequest.rocket s in
  SimulationRequest.set_rocket {|
    RocketConfig.mass := RocketConfig.mass r;
    RocketConfig.radius := RocketConfig.radius r;
    RocketConfig.inertia_i := RocketConfig.inertia_i r;
    RocketConfig.inertia_z := RocketConfig.inertia_z r;
    RocketConfig.center_of_mass := RocketConfig.center_of_mass r;
    RocketConfig.power_off_drag := RocketConfig.power_off_drag r;
    RocketConfig.power_on_drag := RocketConfig.power_on_drag r;
    RocketConfig.nose := RocketConfig.nose r;
    RocketConfig.fins := RocketConfig.fins r;
    RocketConfig.motor := motor_of_type k (RocketConfig.motor r);
    RocketConfig.parachutes := RocketConfig.parachutes r |} s.

(** The same request under a wind of [speed] m/s from [direction]
    degrees. *)
Definition with_wind (speed direction : Q) (s : SimulationRequest.t) : SimulationRequest.t :=
  SimulationRequest.set_environment
    (EnvironmentConfig.set_wind_direction direction
       (EnvironmentConfig.set_wind_speed speed (SimulationRequest.environment s)))
    s.

(** The runs of a batch that the Monte Carlo loop keeps. *)
Definition successful_runs (trace : list SimulationResult.t) : list SimulationResult.t :=
  filter SimulationResult.success trace.

(** numpy accepts the scale of 50 m of the placeholder landing
    positions. *)
Definition placeholder_draws_succeed (np : Numpy.API) : Prop :=
  forall st, exists draw st', Numpy.random_normal np 0 50 st = Ok (draw, st').

(* ================================================================== *)
(** * Sample inputs and stand-ins for the external collaborators *)
(* ================================================================== *)

Module Samples.

(** [float(s)] restricted to strings of decimal digits; anything else is
    the [ValueError] Python raises. *)
Fixpoint digits_value (s : string) (acc : Z) : option Z :=
  match s with
  | EmptyString => Some acc
  | String c rest =>
      let code := Z.of_nat (Ascii.nat_of_ascii c) in
      if ((48 <=? code) && (code <=? 57))%Z
      then digits_value rest (acc * 10 + (code - 48))%Z
      else None
  end.

Definition float_of_str (s : string) : result Q :=
  match s with
  | EmptyString => Err (ValueError "could not convert string to float: ''")
  | _ =>
      match digits_value s 0 with
      | Some v => Ok (inject_Z v)
      | None => Err (ValueError ("could not convert string to float: '" ++ s ++ "'")%string)
      end
  end.

(** Newton iteration for the square root, from the guess 1. *)
Fixpoint newton_sqrt (steps : nat) (q guess : Q) : Q :=
  match steps with
  | O => guess
  | S k => newton_sqrt k q (Qred ((guess + q / guess) / 2))
  end.

(** A numpy whose generator state is a tape of standard-normal draws
    and whose elementary functions are low-order rational
    approximations. *)
Definition numpy : Numpy.API := {|
  Numpy.cos := fun a => 1 - a ^ 2 / 2 + a ^ 4 / 24;
  Numpy.sin := fun a => a - a ^ 3 / 6 + a ^ 5 / 120;
  Numpy.radians := fun d => d * (355 / 113) / 180;
  Numpy.sqrt := fun q => if Qle_bool q 0 then 0 else newton_sqrt 4 q 1;
  Numpy.rng := list Q;
  Numpy.random_normal := fun loc scale tape =>
    if Qltb scale 0 then Err (ValueError "scale < 0")
    else match tape with
         | draw :: rest => Ok (loc + scale * draw, rest)
         | [] => Ok (loc, [])
         end |}.

(** A flight that lasts two seconds and reaches 100 m. *)
Definition flight : RocketPy.Flight := {|
  RocketPy.t_final := Ok 2;
  RocketPy.get_solution := fun _ => Ok tt;
  RocketPy.x := fun _ => Ok 0;
  RocketPy.y := fun _ => Ok 0;
  RocketPy.z := fun t => Ok (100 * t * (2 - t));
  RocketPy.vx := fun _ => Ok 0;
  RocketPy.vy := fun _ => Ok 0;
  RocketPy.vz := fun t => Ok (200 * (1 - t));
  RocketPy.ax := None;
  RocketPy.ay := None;
  RocketPy.az := Some (fun _ => Ok (-200));
  RocketPy.attitude_angle := None;
  RocketPy.mach_number := fun _ => Ok 0.3;
  RocketPy.dynamic_pressure := fun _ => Ok 0;
  RocketPy.angle_of_attack := fun _ => Ok 0;
  RocketPy.out_of_rail_time := Ok 0.1;
  RocketPy.out_of_rail_velocity := Ok 20;
  RocketPy.apogee_time := Ok 1;
  RocketPy.apogee := Ok 100;
  RocketPy.max_speed := Ok 200;
  RocketPy.max_speed_time := Some (Ok 0);
  RocketPy.max_acceleration := None;
  RocketPy.max_mach_number := None;
  RocketPy.impact_time := Some (Ok 2);
  RocketPy.impact_velocity := Some (Ok (-200));
  RocketPy.x_impact := Some (Ok 3);
  RocketPy.y_impact := Some (Ok 4);
  RocketPy.out_of_rail_static_margin := None |}.

(** An engine whose constructors accept everything; [integrates]
    tells whether the [Flight] constructor succeeds. *)
Definition engine (integrates : bool) : RocketPy.API := {|
  RocketPy.Environment := unit;
  RocketPy.SolidMotor := Q;
  RocketPy.Rocket := unit;
  RocketPy.new_Environment := fun _ _ _ => Ok tt;
  RocketPy.set_atmospheric_model := fun env _ _ _ => Ok env;
  RocketPy.new_SolidMotor := fun args => Ok (RocketPy.burn_time args);
  RocketPy.motor_burn_time := fun motor => Ok motor;
  RocketPy.new_Rocket := fun _ => Ok tt;
  RocketPy.add_motor := fun rocket _ _ => Ok rocket;
  RocketPy.add_nose := fun rocket _ _ _ => Ok rocket;
  RocketPy.add_trapezoidal_fins := fun rocket _ => Ok rocket;
  RocketPy.add_parachute := fun rocket _ => Ok rocket;
  RocketPy.static_margin := fun _ _ => Ok 2.2;
  RocketPy.center_of_mass := fun _ _ => Ok 0.3;
  RocketPy.new_Flight := fun _ _ _ =>
    if integrates then Ok flight
    else Err (LibraryError "integration did not converge") |}.

Definition rocket : RocketConfig.t := RocketConfig.default MotorConfig.default.

(** The request [{"rocket": {"motor": {}}}]: every field at its default. *)
Definition request : SimulationRequest.t := SimulationRequest.default rocket.

Definition with_rate (rate : Q) (s : SimulationRequest.t) : SimulationRequest.t := {|
  SimulationRequest.environment := SimulationRequest.environment s;
  SimulationRequest.rocket := SimulationRequest.rocket s;
  SimulationRequest.flight := SimulationRequest.flight s;
  SimulationRequest.output_sampling_rate := rate |}.

Definition with_burn_time (bt : Q) (m : MotorConfig.t) : MotorConfig.t := {|
  MotorConfig.motor_type := MotorConfig.motor_type m;
  MotorConfig.thrust_source := MotorConfig.thrust_source m;
  MotorConfig.burn_time := bt;
  MotorConfig.total_impulse := MotorConfig.total_impulse m;
  MotorConfig.avg_thrust := MotorConfig.avg_thrust m;
  MotorConfig.propellant_mass := MotorConfig.propellant_mass m;
  MotorConfig.dry_mass := MotorConfig.dry_mass m;
  MotorConfig.nozzle_radius := MotorConfig.nozzle_radius m;
  MotorConfig.throat_radius := MotorConfig.throat_radius m;
  MotorConfig.grain_outer_radius := MotorConfig.grain_outer_radius m;
  MotorConfig.grain_initial_inner_radius := MotorConfig.grain_initial_inner_radius m;
  MotorConfig.grain_initial_height := MotorConfig.grain_initial_height m;
  MotorConfig.grain_number := MotorConfig.grain_number m;
  MotorConfig.grain_separation := MotorConfig.grain_separation m;
  MotorConfig.grain_density := MotorConfig.grain_density m;
  MotorConfig.thrust_curve := MotorConfig.thrust_curve m |}.

(** A rocket of 1 m diameter with four fins three metres aft and a
    nose of zero length: its centre of pressure is exactly 2 m, so the
    margin is [2 - center_of_mass] calibers. *)
Definition wide_rocket (center_of_mass : Q) : RocketConfig.t := {|
  RocketConfig.mass := 0.5; RocketConfig.radius := 0.5;
  RocketConfig.inertia_i := 0.01; RocketConfig.inertia_z := 0.001;
  RocketConfig.center_of_mass := center_of_mass;
  RocketConfig.power_off_drag := None; RocketConfig.power_on_drag := None;
  RocketConfig.nose := Some {| NoseConfig.length := 0; NoseConfig.kind := OGIVE;
                               NoseConfig.base_radius := None;
                               NoseConfig.rocket_radius := None |};
  RocketConfig.fins := Some {| FinConfig.n := 4%Z; FinConfig.root_chord := 0;
                               FinConfig.tip_chord := 0; FinConfig.span := 0.5;
                               FinConfig.sweep_length := None; FinConfig.sweep_angle := None;
                               FinConfig.cant_angle := 0; FinConfig.position := -3 |};
  RocketConfig.motor := MotorConfig.default;
  RocketConfig.parachutes := None |}.

(** A dispersion batch over the default request. *)
Definition batch (num_simulations : Z) (thrust_std : Q) : MonteCarloRequest.t := {|
  MonteCarloRequest.base_simulation := request;
  MonteCarloRequest.num_simulations := num_simulations;
  MonteCarloRequest.wind_speed_std := 2;
  MonteCarloRequest.wind_direction_std := 15;
  MonteCarloRequest.mass_std := 0.01;
  MonteCarloRequest.thrust_std := thrust_std |}.

(** A tape of draws for the generator of [numpy]. *)
Definition tape : list Q := [0.5; -1; 0.25; 1.5; -0.5; 0; 2; -0.25; 1].

(** A parachute that opens "soon". *)
Definition vague_chute : ParachuteConfig.t := {|
  ParachuteConfig.name := "Main"; ParachuteConfig.cd_s := 1.0;
  ParachuteConfig.trigger := "soon"; ParachuteConfig.sampling_rate := 100;
  ParachuteConfig.lag := 1.5; ParachuteConfig.noise := [0; 8.3; 0.5] |}.

(** A configuration that is invalid in each of the four ways: a thrust
    curve of a single point, a body radius of zero, a fin set of zero
    fins and a parachute trigger that is no number.  Sampled at 1 Hz. *)
Definition invalid_request : SimulationRequest.t := {|
  SimulationRequest.environment := EnvironmentConfig.default;
  SimulationRequest.rocket := {|
    RocketConfig.mass := 0.5; RocketConfig.radius := 0;
    RocketConfig.inertia_i := 0.01; RocketConfig.inertia_z := 0.001;
    RocketConfig.center_of_mass := 0.3;
    RocketConfig.power_off_drag := None; RocketConfig.power_on_drag := None;
    RocketConfig.nose := None;
    RocketConfig.fins := Some {|
      FinConfig.n := 0%Z; FinConfig.root_chord := 0.08; FinConfig.tip_chord := 0.03;
      FinConfig.span := 0.06; FinConfig.sweep_length := None;
      FinConfig.sweep_angle := None; FinConfig.cant_angle := 0;
      FinConfig.position := -0.1 |};
    RocketConfig.motor := {|
      MotorConfig.motor_type := SOLID; MotorConfig.thrust_source := None;
      MotorConfig.burn_time := 1.5; MotorConfig.total_impulse := 100;
      MotorConfig.avg_thrust := 50; MotorConfig.propellant_mass := 0.05;
      MotorConfig.dry_mass := 0.03; MotorConfig.nozzle_radius := 0.015;
      MotorConfig.throat_radius := 0.005; MotorConfig.grain_outer_radius := 0.02;
      MotorConfig.grain_initial_inner_radius := 0.008;
      MotorConfig.grain_initial_height := 0.05; MotorConfig.grain_number := 1%Z;
      MotorConfig.grain_separation := 0.002; MotorConfig.grain_density := 1700;
      MotorConfig.thrust_curve := Some [[0; 50]] |};
    RocketConfig.parachutes := Some [vague_chute] |};
  SimulationRequest.flight := FlightConfig.default;
  SimulationRequest.output_sampling_rate := 1 |}.

End Samples.

(** [str.upper] and [str.lower] on the letters of ASCII; other
    characters are left as they are. *)
Module AsciiCase.

Definition upper_char (c : Ascii.ascii) : Ascii.ascii :=
  let code := Ascii.nat_of_ascii c in
  if ((97 <=? code) && (code <=? 122))%nat then Ascii.ascii_of_nat (code - 32) else c.

Definition lower_char (c : Ascii.ascii) : Ascii.ascii :=
  let code := Ascii.nat_of_ascii c in
  if ((65 <=? code) && (code <=? 90))%nat then Ascii.ascii_of_nat (code + 32) else c.

Fixpoint map_chars (f : Ascii.ascii -> Ascii.ascii) (s : string) : string :=
  match s with
  | EmptyString => EmptyString
  | String c rest => String (f c) (map_chars f rest)
  end.

Definition upper : string -> string := map_chars upper_char.
Definition lower : string -> string := map_chars lower_char.

End AsciiCase.

(** Stand-ins for [**] and [np.exp] to run the atmosphere endpoint on
    concrete altitudes: the power with the exponent rounded down to an
    integer, and the first-order exponential. *)
Module AtmosphereSamples.

Definition float_pow (x y : Q) : result Q := Ok (Qred (x ^ Qfloor y)).
Definition np_exp (x : Q) : Q := 1 + x.

End AtmosphereSamples.

(** The working sample engine, except that its rockets have no
    static margin to offer. *)
Definition engine_without_margin : RocketPy.API := {|
  RocketPy.Environment := unit;
  RocketPy.SolidMotor := Q;
  RocketPy.Rocket := unit;
  RocketPy.new_Environment := fun _ _ _ => Ok tt;
  RocketPy.set_atmospheric_model := fun env _ _ _ => Ok env;
  RocketPy.new_SolidMotor := fun args => Ok (RocketPy.burn_time args);
  RocketPy.motor_burn_time := fun motor => Ok motor;
  RocketPy.new_Rocket := fun _ => Ok tt;
  RocketPy.add_motor := fun rocket _ _ => Ok rocket;
  RocketPy.add_nose := fun rocket _ _ _ => Ok rocket;
  RocketPy.add_trapezoidal_fins := fun rocket _ => Ok rocket;
  RocketPy.add_parachute := fun rocket _ => Ok rocket;
  RocketPy.static_margin := fun _ _ => Err (LibraryError "no static margin");
  RocketPy.center_of_mass := fun _ _ => Ok 0.3;
  RocketPy.new_Flight := fun _ _ _ => Ok Samples.flight |}.

(** The default request with a burn time of 1e200 s. *)
Definition endless_burn : SimulationRequest.t :=
  SimulationRequest.default
    (RocketConfig.default (Samples.with_burn_time (10 ^ 200) MotorConfig.default)).

(** The default rocket with the default fin set and a body radius of
    1e-200 m. *)
Definition needle_rocket : RocketConfig.t := {|
  RocketConfig.mass := 0.5; RocketConfig.radius := 1 / 10 ^ 200;
  RocketConfig.inertia_i := 0.01; RocketConfig.inertia_z := 0.001;
  RocketConfig.center_of_mass := 0.3;
  RocketConfig.power_off_drag := None; RocketConfig.power_on_drag := None;
  RocketConfig.nose := None; RocketConfig.fins := Some FinConfig.default;
  RocketConfig.motor := MotorConfig.default;
  RocketConfig.parachutes := None |}.

(** A dispersion batch over the default request sampled at 1 Hz. *)
Definition coarse_batch (num_simulations : Z) : MonteCarloRequest.t := {|
  MonteCarloRequest.base_simulation := Samples.with_rate 1 Samples.request;
  MonteCarloRequest.num_simulations := num_simulations;
  MonteCarloRequest.wind_speed_std := 2;
  MonteCarloRequest.wind_direction_std := 15;
  MonteCarloRequest.mass_std := 0.01;
  MonteCarloRequest.thrust_std := 0.05 |}.

(** A batch over the invalid sample request, with deviations numpy
    would refuse. *)
Definition careless_batch (num_simulations : Z) : MonteCarloRequest.t := {|
  MonteCarloRequest.base_simulation := Samples.invalid_request;
  MonteCarloRequest.num_simulations := num_simulations;
  MonteCarloRequest.wind_speed_std := -1;
  MonteCarloRequest.wind_direction_std := -1;
  MonteCarloRequest.mass_std := -1;
  MonteCarloRequest.thrust_std := -1 |}.

(* ================================================================== *)
(** * Basic facts about the runtime *)
(* ================================================================== *)

Lemma bind_Returns {A B : Type} (c : outcome A) (k : A -> outcome B) (b : B) :
  Py.bind c k = Returns b -> exists a, c = Returns a /\ k a = Returns b.
Proof.
  destruct c as [a | e |]; simpl; intros H; try discriminate.
  exists a; split; [reflexivity | exact H].
Qed.

Lemma Qltb_true (x y : Q) : Qltb x y = true <-> x < y.
Proof.
  unfold Qltb. rewrite negb_true_iff.
  split; intros H.
  - apply Qnot_le_lt. intros Hle. apply Qle_bool_iff in Hle. congruence.
  - destruct (Qle_bool y x) eqn:E; [| reflexivity].
    apply Qle_bool_iff in E. apply Qle_not_lt in E. contradiction.
Qed.

Lemma Qltb_false (x y : Q) : Qltb x y = false <-> y <= x.
Proof.
  unfold Qltb. rewrite negb_false_iff. apply Qle_bool_iff.
Qed.

Lemma div_Returns (a b q : Q) :
  Py.div a b = Returns q -> ~ b == 0 /\ q = a / b.
Proof.
  unfold Py.div. destruct (Qeq_bool b 0) eqn:E; intros H; try discriminate.
  split; [| congruence].
  intros Hb. apply Qeq_bool_iff in Hb. congruence.
Qed.

Lemma div_nonzero (a b : Q) : ~ b == 0 -> Py.div a b = Returns (a / b).
Proof.
  intros Hb. unfold Py.div.
  destruct (Qeq_bool b 0) eqn:E; [| reflexivity].
  apply Qeq_bool_iff in E. contradiction.
Qed.

Lemma div_zero (a b : Q) :
  b == 0 -> Py.div a b = Raises (ZeroDivisionError "float division by zero").
Proof.
  intros Hb. unfold Py.div. apply Qeq_bool_iff in Hb. rewrite Hb. reflexivity.
Qed.

(** A power that returns is the exact power. *)
Lemma pow_Returns (x : Q) (n : positive) (v : Q) :
  Py.pow x n = Returns v -> v = x ^ Zpos n.
Proof.
  unfold Py.pow. destruct (_ && _); [discriminate |].
  intros H. injection H as <-. reflexivity.
Qed.

Lemma pow_in_range (x : Q) (n : positive) :
  Qabs (x ^ Zpos n) < Py.float_overflow -> Py.pow x n = Returns (x ^ Zpos n).
Proof.
  intros H. unfold Py.pow.
  destruct (Qle_bool Py.float_overflow (Qabs (x ^ Zpos n))) eqn:E.
  - apply Qle_bool_iff in E. apply Qle_not_lt in E. contradiction.
  - rewrite andb_false_r. reflexivity.
Qed.

Lemma pow_out_of_range (x : Q) (n : positive) :
  Qabs x < Py.float_overflow ->
  Py.float_overflow <= Qabs (x ^ Zpos n) ->
  Py.pow x n = Raises (OverflowError "(34, 'Numerical result out of range')").
Proof.
  intros Hx H. unfold Py.pow.
  apply Qltb_true in Hx. apply Qle_bool_iff in H. rewrite Hx, H. reflexivity.
Qed.


Lemma float_of_int_Returns (z : Z) (v : Q) :
  Py.float_of_int z = Returns v
  <-> v = inject_Z z /\ Qabs (inject_Z z) < Py.float_overflow.
Proof.
  unfold Py.float_of_int.
  destruct (Qle_bool Py.float_overflow (Qabs (inject_Z z))) eqn:E; split.
  - discriminate.
  - intros [_ Hlt]. apply Qle_bool_iff in E. apply Qle_not_lt in E. contradiction.
  - intros H. injection H as <-. split; [reflexivity |].
    apply Qnot_le_lt. intros Hle. apply Qle_bool_iff in Hle. congruence.
  - intros [-> _]. reflexivity.
Qed.

Lemma append_empty_r (s : string) : (s ++ "")%string = s.
Proof.
  induction s as [| c s IH]; simpl; [reflexivity | rewrite IH; reflexivity].
Qed.

Lemma terminates_lift {A : Type} (r : result A) : terminates (Py.lift r).
Proof. destruct r; discriminate. Qed.

Lemma terminates_Returns {A : Type} (a : A) : terminates (Returns a).
Proof. discriminate. Qed.

Lemma terminates_Raises {A : Type} (e : Py.exception) : terminates (@Raises A e).
Proof. discriminate. Qed.

Lemma terminates_bind {A B : Type} (c : outcome A) (k : A -> outcome B) :
  terminates c -> (forall a, terminates (k a)) -> terminates (Py.bind c k).
Proof.
  intros Hc Hk. destruct c as [a | e |]; simpl.
  - apply Hk.
  - discriminate.
  - contradiction.
Qed.

Lemma terminates_getattr_or {A : Type} (attr : option (result A)) (default : A) :
  terminates (Py.getattr_or attr default).
Proof.
  destruct attr as [r |]; simpl; [apply terminates_lift | discriminate].
Qed.

Lemma terminates_div (a b : Q) : terminates (Py.div a b).
Proof. unfold Py.div. destruct (Qeq_bool b 0); discriminate. Qed.

Lemma terminates_pow (x : Q) (n : positive) : terminates (Py.pow x n).
Proof. unfold terminates, Py.pow. destruct (_ && _); discriminate. Qed.

Lemma terminates_float_of_int (z : Z) : terminates (Py.float_of_int z).
Proof. unfold terminates, Py.float_of_int. destruct (Qle_bool _ _); discriminate. Qed.

Lemma terminates_index {A : Type} (l : list A) (i : nat) : terminates (Py.index l i).
Proof. unfold Py.index. destruct (nth_error l i); discriminate. Qed.

Lemma terminates_try_except {A : Type} (body : outcome A) (handler : Py.exception -> outcome A) :
  terminates body -> (forall e, terminates (handler e)) -> terminates (Py.try_except body handler).
Proof.
  intros Hb Hh. destruct body as [a | e |]; simpl.
  - discriminate.
  - apply Hh.
  - contradiction.
Qed.

Create HintDb terminates.

#[local] Hint Resolve terminates_lift terminates_Returns terminates_Raises
  terminates_getattr_or terminates_div terminates_index : terminates.

(** Walk down a chain of binds, splitting on every test it meets. *)
Ltac terminates_chain :=
  repeat first
    [ progress auto with terminates
    | apply terminates_bind; [| intros ? ]
    | apply terminates_try_except; [| intros ? ]
    | match goal with
      | |- terminates (match ?x with _ => _ end) => destruct x
      | |- terminates (if ?b then _ else _) => destruct b
      end ].

(** Peel one [bind] off a hypothesis [H : ... = Returns _]. *)
Ltac bind_inv H x Hx :=
  apply bind_Returns in H; destruct H as [x [Hx H]].

(* ================================================================== *)
(** * The synthesized thrust curve *)
(* ================================================================== *)

(** Without a configured curve the motor gets the synthesized one. *)
Lemma thrust_source_of_synthesized (config : MotorConfig.t) :
  MotorConfig.thrust_curve config = None ->
  thrust_source_of config = synthesized_thrust_curve config.
Proof.
  intros H. unfold thrust_source_of. rewrite H. reflexivity.
Qed.

(** The synthesized curve starts and ends at zero thrust, whatever the
    burn time and the average thrust. *)
Lemma synthesized_curve_endpoints (config : MotorConfig.t) :
  starts_at_zero_thrust (synthesized_thrust_curve config)
  /\ ends_at_zero_thrust (synthesized_thrust_curve config).
Proof.
  split.
  - exists [0; 0]. split; reflexivity.
  - exists [MotorConfig.burn_time config; 0]. split; reflexivity.
Qed.

(** Its time points increase strictly as soon as the burn lasts more
    than 0.2 s, so that the fixed 0.02 s rise sits before one tenth of
    the burn time. *)
Lemma synthesized_curve_increasing_long_burn (config : MotorConfig.t) :
  0.2 < MotorConfig.burn_time config ->
  strictly_increasing (curve_times (synthesized_thrust_curve config)).
Proof.
  intros Hbt. unfold strictly_increasing, curve_times, synthesized_thrust_curve, point_time.
  simpl.
  repeat (constructor; [| repeat (constructor; try lra)]).
  constructor.
Qed.

(** C4 at the failing input: a motor that burns for 0.1 s.  The third
    time point (0.01 s) lies before the second (0.02 s), so the times
    of the synthesized curve are not strictly increasing although the
    burn time is positive and the average thrust non-negative. *)
Theorem synthesized_curve_short_burn_not_increasing :
  let config := Samples.with_burn_time 0.1 MotorConfig.default in
  0 < MotorConfig.burn_time config
  /\ 0 <= MotorConfig.avg_thrust config
  /\ MotorConfig.thrust_curve config = None
  /\ nth 1 (curve_times (thrust_source_of config)) 0 == 0.02
  /\ nth 2 (curve_times (thrust_source_of config)) 0 == 0.01
  /\ ~ strictly_increasing (curve_times (thrust_source_of config)).
Proof.
  cbv zeta.
  repeat split; try reflexivity; try (vm_compute; congruence).
  intros Hs. unfold strictly_increasing in Hs.
  apply StronglySorted_inv in Hs. destruct Hs as [Hs _].
  apply StronglySorted_inv in Hs. destruct Hs as [_ Hall].
  apply Forall_inv in Hall. vm_compute in Hall. discriminate.
Qed.

(* ================================================================== *)
(** * The stability endpoint *)
(* ================================================================== *)

(** Whenever the endpoint answers, the two derived fields are the two
    threshold tests on the margin it reports. *)
Lemma calculate_stability_fields (rocket : RocketConfig.t) (resp : StabilityResponse.t) :
  calculate_stability rocket = Returns resp ->
  StabilityResponse.stable resp = Qltb 1.0 (StabilityResponse.stability_margin resp)
  /\ StabilityResponse.recommendation resp =
       (if Qltb 1.5 (StabilityResponse.stability_margin resp) then "Stable"
        else if Qltb 1.0 (StabilityResponse.stability_margin resp) then "Marginally stable"
        else "Unstable - add weight to nose or move fins aft").
Proof.
  unfold calculate_stability. intros H.
  destruct (match RocketConfig.fins rocket with
            | Some fins =>
                (0.5 * (FinConfig.root_chord fins + FinConfig.tip_chord fins) * FinConfig.span fins,
                 Qabs (FinConfig.position fins) + FinConfig.root_chord fins * 0.4)
            | None => (0.01, 0.2)
            end) as [fin_area fin_cp].
  bind_inv H fin_cn Hcn. bind_inv H cp Hcp. bind_inv H margin Hm.
  injection H as <-. simpl. split; reflexivity.
Qed.

(** C5.  The recommendation follows the margin: above 1.5 it is
    "Stable"; above 1.0 and up to 1.5 inclusive it is "Marginally
    stable"; at 1.0 or below it is the "Unstable" advice. *)
Theorem stability_recommendation_thresholds
        (rocket : RocketConfig.t) (resp : StabilityResponse.t) :
  calculate_stability rocket = Returns resp ->
  (1.5 < StabilityResponse.stability_margin resp ->
   StabilityResponse.recommendation resp = "Stable")
  /\ (1.0 < StabilityResponse.stability_margin resp
      /\ StabilityResponse.stability_margin resp <= 1.5 ->
      StabilityResponse.recommendation resp = "Marginally stable")
  /\ (StabilityResponse.stability_margin resp <= 1.0 ->
      StabilityResponse.recommendation resp
      = "Unstable - add weight to nose or move fins aft").
Proof.
  intros H. apply calculate_stability_fields in H. destruct H as [_ Hrec].
  rewrite Hrec. clear Hrec.
  set (m := StabilityResponse.stability_margin resp).
  repeat split.
  - intros Hm. apply Qltb_true in Hm. rewrite Hm. reflexivity.
  - intros [Hlo Hhi]. apply Qltb_false in Hhi. apply Qltb_true in Hlo.
    rewrite Hhi, Hlo. reflexivity.
  - intros Hm.
    assert (Hhi : m <= 1.5) by lra.
    apply Qltb_false in Hhi. apply Qltb_false in Hm.
    rewrite Hhi, Hm. reflexivity.
Qed.

(** C5 at the two boundaries: a margin of exactly 1.5 is answered
    "Marginally stable", a margin of exactly 1.0 "Unstable". *)
Lemma stability_recommendation_thresholds_witness :
  (exists resp,
      calculate_stability (Samples.wide_rocket 0.5) = Returns resp
      /\ StabilityResponse.stability_margin resp == 1.5
      /\ StabilityResponse.recommendation resp = "Marginally stable")
  /\ (exists resp,
         calculate_stability (Samples.wide_rocket 1) = Returns resp
         /\ StabilityResponse.stability_margin resp == 1.0
         /\ StabilityResponse.recommendation resp
            = "Unstable - add weight to nose or move fins aft").
Proof.
  split.
  - eexists. split; [reflexivity |]. split; [reflexivity |].
    apply (stability_recommendation_thresholds (Samples.wide_rocket 0.5) _ eq_refl).
    split; vm_compute; congruence.
  - eexists. split; [reflexivity |]. split; [reflexivity |].
    apply (stability_recommendation_thresholds (Samples.wide_rocket 1) _ eq_refl).
    vm_compute; congruence.
Defined.

(** C9.  The [stable] flag is the test [margin > 1.0], not the
    "Stable" threshold: it is true exactly when the margin exceeds 1.0,
    and for a margin in (1.0, 1.5] the answer carries [stable = true]
    together with the recommendation "Marginally stable". *)
Theorem stable_flag_is_margin_above_one
        (rocket : RocketConfig.t) (resp : StabilityResponse.t) :
  calculate_stability rocket = Returns resp ->
  (StabilityResponse.stable resp = true <-> 1.0 < StabilityResponse.stability_margin resp)
  /\ (1.0 < StabilityResponse.stability_margin resp
      /\ StabilityResponse.stability_margin resp <= 1.5 ->
      StabilityResponse.stable resp = true
      /\ StabilityResponse.recommendation resp = "Marginally stable").
Proof.
  intros H. apply calculate_stability_fields in H. destruct H as [Hst Hrec].
  split.
  - rewrite Hst. apply Qltb_true.
  - intros [Hlo Hhi]. rewrite Hst, Hrec.
    apply Qltb_false in Hhi. apply Qltb_true in Hlo.
    rewrite Hhi, Hlo. split; reflexivity.
Qed.

(** C9 on a rocket whose margin is 1.25 calibers. *)
Lemma stable_flag_is_margin_above_one_witness :
  exists resp,
    calculate_stability (Samples.wide_rocket 0.75) = Returns resp
    /\ StabilityResponse.stability_margin resp == 1.25
    /\ StabilityResponse.stable resp = true
    /\ StabilityResponse.recommendation resp = "Marginally stable".
Proof.
  eexists. split; [reflexivity |]. split; [reflexivity |].
  apply (stable_flag_is_margin_above_one (Samples.wide_rocket 0.75) _ eq_refl).
  split; vm_compute; congruence.
Defined.

(* ================================================================== *)
(** * [run_simulation] with RocketPy installed *)
(* ================================================================== *)

Section EngineBoundary.

Variable float_of_str : string -> result Q.
Variable np : Numpy.API.
Variable rp : RocketPy.API.

(** Nothing in the [try] branch loops: its pieces are calls into
    RocketPy and numpy, the resampling over a finite grid and the walk
    over the configured parachutes. *)
Lemma add_parachutes_terminates (chutes : list ParachuteConfig.t) (rocket : RocketPy.Rocket rp) :
  terminates (add_parachutes float_of_str rp rocket chutes).
Proof.
  revert rocket. induction chutes as [| chute rest IH]; intros rocket; simpl.
  - discriminate.
  - terminates_chain; apply IH.
Qed.

Lemma build_flight_terminates (request : SimulationRequest.t) :
  terminates (build_flight float_of_str np rp request).
Proof.
  unfold build_flight, create_rocketpy_motor, create_rocketpy_rocket.
  terminates_chain; apply add_parachutes_terminates.
Qed.

Lemma sample_point_terminates (flight : RocketPy.Flight) (t : Q) :
  terminates (sample_point flight t).
Proof.
  unfold sample_point. terminates_chain.
Qed.

Lemma sample_trajectory_terminates (flight : RocketPy.Flight) (times : list Q) :
  terminates (sample_trajectory flight times).
Proof.
  induction times as [| t rest IH]; simpl.
  - discriminate.
  - pose proof (sample_point_terminates flight t) as Hp.
    destruct (sample_point flight t) as [p | e |].
    + terminates_chain.
    + discriminate.
    + contradiction.
Qed.

Lemma extract_result_terminates (request : SimulationRequest.t)
      (motor : RocketPy.SolidMotor rp) (rocket : RocketPy.Rocket rp) (flight : RocketPy.Flight) :
  terminates (extract_result rp request motor rocket flight).
Proof.
  unfold extract_result.
  terminates_chain; apply sample_trajectory_terminates.
Qed.

(** The shape of the value built by the [except] handler. *)
Lemma failed_result_shape (e : Py.exception) :
  SimulationResult.success (failed_result e) = false
  /\ contains (SimulationResult.message (failed_result e)) (Py.str e)
  /\ numeric_fields_zero (failed_result e)
  /\ SimulationResult.landing_position (failed_result e) = [0; 0]
  /\ SimulationResult.trajectory (failed_result e) = []
  /\ SimulationResult.events (failed_result e) = [].
Proof.
  split; [reflexivity |]. split.
  - exists "Simulation failed: ", "". simpl.
    rewrite append_empty_r. reflexivity.
  - repeat split.
Qed.

(** Whatever is raised inside the [try] block comes back as the failed
    result of that exception. *)
Lemma run_rocketpy_simulation_Raises (request : SimulationRequest.t) (e : Py.exception) :
  ('(motor, rocket, flight) <- build_flight float_of_str np rp request ;;
   extract_result rp request motor rocket flight) = Raises e ->
  run_rocketpy_simulation float_of_str np rp request = Returns (failed_result e).
Proof.
  intros H. unfold run_rocketpy_simulation. rewrite H. reflexivity.
Qed.

(** With the engine installed no exception leaves [run_simulation]. *)
Lemma run_simulation_engine_never_raises (fuel : nat) (request : SimulationRequest.t)
      (e : Py.exception) :
  run_simulation float_of_str np (Some rp) fuel request <> Raises e.
Proof.
  simpl. unfold run_rocketpy_simulation.
  destruct (Py.bind (build_flight float_of_str np rp request) _); simpl; discriminate.
Qed.

(** With the engine installed a result is successful or it is the
    failed result of some exception. *)
Lemma run_simulation_engine_result (fuel : nat) (request : SimulationRequest.t)
      (r : SimulationResult.t) :
  run_simulation float_of_str np (Some rp) fuel request = Returns r ->
  (exists motor rocket flight,
      build_flight float_of_str np rp request = Returns (motor, rocket, flight)
      /\ extract_result rp request motor rocket flight = Returns r)
  \/ (exists e, r = failed_result e).
Proof.
  simpl. unfold run_rocketpy_simulation.
  destruct (build_flight float_of_str np rp request) as [[[motor rocket] flight] | e |];
    simpl.
  - destruct (extract_result rp request motor rocket flight) as [r' | e |] eqn:E;
      simpl; intros H; try discriminate.
    + injection H as <-. left. exists motor, rocket, flight. split; [reflexivity | exact E].
    + injection H as <-. right. exists e. reflexivity.
  - intros H. injection H as <-. right. exists e. reflexivity.
  - discriminate.
Qed.

(** C1.  When the environment, the motor, the rocket or the [Flight]
    constructor raises [e], [run_simulation] returns (it does not
    raise) a result with [success = false], a message that contains
    the text of [e], every numeric field zero, landing position
    [[0, 0]] and empty trajectory and events. *)
Theorem engine_failure_is_a_failed_result
        (fuel : nat) (request : SimulationRequest.t) (e : Py.exception) :
  build_flight float_of_str np rp request = Raises e ->
  exists r,
    run_simulation float_of_str np (Some rp) fuel request = Returns r
    /\ SimulationResult.success r = false
    /\ contains (SimulationResult.message r) (Py.str e)
    /\ numeric_fields_zero r
    /\ SimulationResult.landing_position r = [0; 0]
    /\ SimulationResult.trajectory r = []
    /\ SimulationResult.events r = [].
Proof.
  intros H. exists (failed_result e). split.
  - simpl. apply run_rocketpy_simulation_Raises. rewrite H. reflexivity.
  - apply failed_result_shape.
Qed.

End EngineBoundary.

(** C1 on the default request, with an engine whose [Flight]
    constructor raises during integration. *)
Lemma engine_failure_is_a_failed_result_witness :
  exists r,
    run_simulation Samples.float_of_str Samples.numpy (Some (Samples.engine false))
                   0 Samples.request = Returns r
    /\ SimulationResult.success r = false
    /\ contains (SimulationResult.message r) "integration did not converge"
    /\ numeric_fields_zero r
    /\ SimulationResult.landing_position r = [0; 0]
    /\ SimulationResult.trajectory r = []
    /\ SimulationResult.events r = [].
Proof.
  apply (@engine_failure_is_a_failed_result Samples.float_of_str Samples.numpy
           (Samples.engine false) 0%nat Samples.request
           (LibraryError "integration did not converge")).
  reflexivity.
Defined.

(* ================================================================== *)
(** * The Monte Carlo endpoint *)
(* ================================================================== *)

Section MonteCarlo.

Variable float_of_str : string -> result Q.
Variable np : Numpy.API.

(** With the engine installed [run_simulation] always returns. *)
Lemma run_simulation_engine_returns (rp : RocketPy.API) (fuel : nat)
      (request : SimulationRequest.t) :
  exists r, run_simulation float_of_str np (Some rp) fuel request = Returns r.
Proof.
  simpl. unfold run_rocketpy_simulation.
  pose proof (build_flight_terminates float_of_str np rp request) as Hb.
  destruct (build_flight float_of_str np rp request) as [[[motor rocket] flight] | e |];
    simpl.
  - pose proof (extract_result_terminates rp request motor rocket flight) as He.
    destruct (extract_result rp request motor rocket flight) as [r | e |]; simpl.
    + exists r. reflexivity.
    + exists (failed_result e). reflexivity.
    + contradiction.
  - exists (failed_result e). reflexivity.
  - contradiction.
Qed.

Section Batch.

Variable rocketpy : option RocketPy.API.
Variable fuel : nat.

(** The loop keeps exactly the successful results of the trace, in
    order, and their landing positions. *)
Lemma monte_carlo_loop_filters_trace (request : MonteCarloRequest.t) (iters : list nat) :
  forall (st : Numpy.rng np) (results : list SimulationResult.t)
         (landing_positions : list (list Q)),
    monte_carlo_loop float_of_str np rocketpy fuel request iters st results landing_positions
    = ('(trace, st') <- monte_carlo_trace float_of_str np rocketpy fuel request iters st ;;
       let kept := filter SimulationResult.success trace in
       Returns (results ++ kept,
                landing_positions ++ map SimulationResult.landing_position kept, st')).
Proof.
  induction iters as [| i rest IH]; intros st results landing_positions; simpl.
  - rewrite !app_nil_r. reflexivity.
  - destruct (monte_carlo_iteration float_of_str np rocketpy fuel request st)
      as [[result st1] | e |]; simpl; try reflexivity.
    destruct (SimulationResult.success result) eqn:Hs; rewrite IH;
      destruct (monte_carlo_trace float_of_str np rocketpy fuel request rest st1)
        as [[tail st2] | e |]; simpl; try reflexivity; rewrite Hs; simpl.
    + rewrite <- !app_assoc. reflexivity.
    + reflexivity.
Qed.

Lemma monte_carlo_iteration_ignores_thrust_std (r1 r2 : MonteCarloRequest.t)
      (st : Numpy.rng np) :
  same_but_thrust_std r1 r2 ->
  monte_carlo_iteration float_of_str np rocketpy fuel r1 st
  = monte_carlo_iteration float_of_str np rocketpy fuel r2 st.
Proof.
  intros (Hb & _ & Hw & Hd & Hm). unfold monte_carlo_iteration.
  rewrite Hb, Hw, Hd, Hm. reflexivity.
Qed.

Lemma monte_carlo_loop_ignores_thrust_std (r1 r2 : MonteCarloRequest.t) (iters : list nat) :
  same_but_thrust_std r1 r2 ->
  forall st results landing_positions,
    monte_carlo_loop float_of_str np rocketpy fuel r1 iters st results landing_positions
    = monte_carlo_loop float_of_str np rocketpy fuel r2 iters st results landing_positions.
Proof.
  intros Hsame. induction iters as [| i rest IH]; intros st results landing_positions; simpl.
  - reflexivity.
  - rewrite (monte_carlo_iteration_ignores_thrust_std r1 r2 st Hsame).
    destruct (monte_carlo_iteration float_of_str np rocketpy fuel r2 st)
      as [[result st1] | e |]; simpl; try reflexivity.
    destruct (SimulationResult.success result); apply IH.
Qed.

(** C10.  [thrust_std] is never read: two requests that agree on every
    other field give, from the same generator state (hence with the
    same draws), the same outcome, answer and final generator state
    alike, whether RocketPy is installed or not. *)
Theorem thrust_std_has_no_effect (r1 r2 : MonteCarloRequest.t) (st : Numpy.rng np) :
  same_but_thrust_std r1 r2 ->
  monte_carlo float_of_str np rocketpy fuel r1 st
  = monte_carlo float_of_str np rocketpy fuel r2 st.
Proof.
  intros Hsame. unfold monte_carlo.
  rewrite (monte_carlo_loop_ignores_thrust_std r1 r2 _ Hsame).
  destruct Hsame as (_ & Hn & _). rewrite Hn. reflexivity.
Qed.

End Batch.

Section InstalledEngine.

Variable rp : RocketPy.API.
Variable fuel : nat.

Lemma monte_carlo_iteration_returns (request : MonteCarloRequest.t) :
  draws_succeed np request ->
  forall st, exists result st',
    monte_carlo_iteration float_of_str np (Some rp) fuel request st = Returns (result, st').
Proof.
  intros Hdraws st. unfold monte_carlo_iteration.
  destruct (Hdraws (MonteCarloRequest.wind_speed_std request)
                   ltac:(simpl; auto) st) as (d1 & st1 & E1).
  rewrite E1. simpl.
  destruct (Hdraws (MonteCarloRequest.wind_direction_std request)
                   ltac:(simpl; auto) st1) as (d2 & st2 & E2).
  rewrite E2. simpl.
  destruct (Hdraws (MonteCarloRequest.mass_std request)
                   ltac:(simpl; auto) st2) as (d3 & st3 & E3).
  rewrite E3. simpl.
  match goal with
  | |- context [run_rocketpy_simulation float_of_str np rp ?req] =>
      destruct (run_simulation_engine_returns rp fuel req) as [r Hr]
  end.
  simpl in Hr. rewrite Hr. simpl. exists r, st3. reflexivity.
Qed.

Lemma monte_carlo_trace_returns (request : MonteCarloRequest.t) (iters : list nat) :
  draws_succeed np request ->
  forall st, exists trace st',
    monte_carlo_trace float_of_str np (Some rp) fuel request iters st = Returns (trace, st')
    /\ List.length trace = List.length iters.
Proof.
  intros Hdraws. induction iters as [| i rest IH]; intros st.
  - exists [], st. split; reflexivity.
  - destruct (monte_carlo_iteration_returns request Hdraws st) as (r & st1 & E1).
    destruct (IH st1) as (tail & st2 & E2 & Hlen).
    exists (r :: tail), st2. split.
    + cbn [monte_carlo_trace]. rewrite E1. cbn [Py.bind]. rewrite E2. reflexivity.
    + simpl. rewrite Hlen. reflexivity.
Qed.

(** A batch that asks for no run at all reports no successful run,
    without a single draw. *)
Lemma monte_carlo_no_iteration (request : MonteCarloRequest.t) (st : Numpy.rng np) :
  (MonteCarloRequest.num_simulations request <= 0)%Z ->
  monte_carlo float_of_str np (Some rp) fuel request st = Returns (no_successful_run, st).
Proof.
  intros Hn. unfold monte_carlo, Py.range.
  replace (Z.to_nat (MonteCarloRequest.num_simulations request)) with 0%nat by lia.
  reflexivity.
Qed.

(** C7, with RocketPy installed and draws that numpy accepts.  Every
    one of the requested iterations runs and returns; the answer is the
    summary of the successful results alone, so a failed iteration is
    neither retried nor raised; and when no iteration succeeds the
    answer is the one with count 0, zero statistics and no landing
    position. *)
Theorem failed_runs_are_dropped (request : MonteCarloRequest.t) (st : Numpy.rng np) :
  draws_succeed np request ->
  exists trace st',
    monte_carlo_trace float_of_str np (Some rp) fuel request
      (Py.range (MonteCarloRequest.num_simulations request)) st = Returns (trace, st')
    /\ List.length trace = Z.to_nat (MonteCarloRequest.num_simulations request)
    /\ monte_carlo float_of_str np (Some rp) fuel request st
       = (answer <- monte_carlo_summary np
                      (filter SimulationResult.success trace)
                      (map SimulationResult.landing_position
                           (filter SimulationResult.success trace)) ;;
          Returns (answer, st'))
    /\ ((forall r, In r trace -> SimulationResult.success r = false) ->
        monte_carlo float_of_str np (Some rp) fuel request st
        = Returns (no_successful_run, st')).
Proof.
  intros Hdraws.
  destruct (monte_carlo_trace_returns request
              (Py.range (MonteCarloRequest.num_simulations request)) Hdraws st)
    as (trace & st' & Htrace & Hlen).
  assert (Hmc : monte_carlo float_of_str np (Some rp) fuel request st
                = (answer <- monte_carlo_summary np
                               (filter SimulationResult.success trace)
                               (map SimulationResult.landing_position
                                    (filter SimulationResult.success trace)) ;;
                   Returns (answer, st'))).
  { unfold monte_carlo. rewrite monte_carlo_loop_filters_trace, Htrace. reflexivity. }
  exists trace, st'. repeat split.
  - exact Htrace.
  - rewrite Hlen. unfold Py.range. apply length_seq.
  - exact Hmc.
  - intros Hfail. rewrite Hmc.
    assert (Hnone : filter SimulationResult.success trace = []).
    { clear - Hfail. induction trace as [| r rest IH]; simpl; [reflexivity |].
      rewrite (Hfail r (or_introl eq_refl)). apply IH.
      intros r' Hr'. apply Hfail. right. exact Hr'. }
    rewrite Hnone. reflexivity.
Qed.

End InstalledEngine.

End MonteCarlo.

(** The stand-in numpy accepts the deviations of the sample batches. *)
Lemma sample_draws_succeed (n : Z) (thrust_std : Q) :
  draws_succeed Samples.numpy (Samples.batch n thrust_std).
Proof.
  intros scale Hin st. simpl in Hin.
  destruct Hin as [<- | [<- | [<- | []]]]; destruct st as [| draw rest];
    eexists; eexists; reflexivity.
Qed.

(** C7 on a batch of two runs with an engine whose integration always
    fails: both iterations run, both fail, and the answer reports no
    successful run. *)
Lemma failed_runs_are_dropped_witness :
  exists trace st',
    monte_carlo_trace Samples.float_of_str Samples.numpy (Some (Samples.engine false)) 0
      (Samples.batch 2 0.05) (Py.range 2) Samples.tape = Returns (trace, st')
    /\ List.length trace = 2%nat
    /\ monte_carlo Samples.float_of_str Samples.numpy (Some (Samples.engine false)) 0
         (Samples.batch 2 0.05) Samples.tape = Returns (no_successful_run, st').
Proof.
  destruct (failed_runs_are_dropped Samples.float_of_str Samples.numpy
              (Samples.engine false) 0%nat (Samples.batch 2 0.05) Samples.tape
              (sample_draws_succeed 2 0.05))
    as (trace & st' & Htrace & Hlen & _ & Hnone).
  exists trace, st'. split; [exact Htrace |]. split; [exact Hlen |].
  apply Hnone. intros r Hr.
  vm_compute in Htrace. injection Htrace as <- <-.
  destruct Hr as [<- | [<- | []]]; reflexivity.
Defined.

(** C7 fails as stated: without RocketPy a batch of zero runs is
    answered with the fixed placeholder statistics, not with zeros. *)
Lemma mock_monte_carlo_zero_runs_not_zero :
  exists answer,
    monte_carlo Samples.float_of_str Samples.numpy None 0
                (Samples.batch 0 0.05) Samples.tape = Returns (answer, Samples.tape)
    /\ MonteCarloResult.num_simulations answer = 0%Z
    /\ MonteCarloResult.landing_positions answer = []
    /\ MonteCarloResult.apogee_mean answer = 500
    /\ MonteCarloResult.apogee_std answer = 25
    /\ MonteCarloResult.landing_dispersion_mean answer = 50
    /\ ~ MonteCarloResult.apogee_mean answer == 0.
Proof.
  eexists. split; [reflexivity |]. simpl. repeat split. discriminate.
Qed.

(** C10 on two batches of three runs, one with the default thrust
    deviation of 5 %, one with 90 %, on the same tape of draws. *)
Lemma thrust_std_has_no_effect_witness :
  monte_carlo Samples.float_of_str Samples.numpy (Some (Samples.engine true)) 0
              (Samples.batch 3 0.05) Samples.tape
  = monte_carlo Samples.float_of_str Samples.numpy (Some (Samples.engine true)) 0
                (Samples.batch 3 0.9) Samples.tape.
Proof.
  apply (@thrust_std_has_no_effect Samples.float_of_str Samples.numpy
           (Some (Samples.engine true)) 0%nat
           (Samples.batch 3 0.05) (Samples.batch 3 0.9) Samples.tape).
  repeat split.
Defined.

(* ================================================================== *)
(** * The mock integrator *)
(* ================================================================== *)

Lemma strictly_increasing_snoc (l : list Q) (t : Q) :
  strictly_increasing l -> Forall (fun x => x < t) l -> strictly_increasing (l ++ [t]).
Proof.
  unfold strictly_increasing. intros Hs. induction Hs as [| a l Hs IH Ha]; intros Hlt; simpl.
  - constructor; constructor.
  - apply Forall_cons_iff in Hlt. destruct Hlt as [Hat Hlt].
    constructor.
    + apply IH. exact Hlt.
    + apply Forall_app. split; [exact Ha |]. constructor; [exact Hat | constructor].
Qed.

Section MockLoop.

Variable request : SimulationRequest.t.
Variables mass thrust burn_time g dt apogee_time : Q.

(** A point appended by the loop carries the loop's current time. *)
Lemma mock_step_time (t : Q) (trajectory : list TrajectoryPoint.t) (p : TrajectoryPoint.t) :
  mock_step request mass thrust burn_time g dt t trajectory = Returns (Some p) ->
  TrajectoryPoint.time p = t.
Proof.
  unfold mock_step. intros H.
  bind_inv H a Ha. bind_inv H vz Hvz. destruct vz as [v z].
  destruct (Qltb z 0 && Qltb burn_time t); [discriminate |].
  bind_inv H v_squared Hsq. injection H as <-. reflexivity.
Qed.

(** With a positive time step the loop appends points at strictly
    increasing times. *)
Lemma mock_loop_increasing (fuel : nat) :
  0 < dt ->
  forall (t : Q) (trajectory : list TrajectoryPoint.t)
         (t' : Q) (trajectory' : list TrajectoryPoint.t),
    strictly_increasing (map TrajectoryPoint.time trajectory) ->
    Forall (fun x => x < t) (map TrajectoryPoint.time trajectory) ->
    mock_loop fuel request mass thrust burn_time g dt apogee_time t trajectory
    = Returns (t', trajectory') ->
    strictly_increasing (map TrajectoryPoint.time trajectory').
Proof.
  intros Hdt. induction fuel as [| fuel IH]; intros t trajectory t' trajectory' Hs Hlt H.
  - discriminate.
  - cbn [mock_loop] in H.
    destruct (Qltb t (apogee_time * 2.5)).
    + bind_inv H step Hstep. destruct step as [p |].
      * apply mock_step_time in Hstep.
        apply (IH (t + dt) (trajectory ++ [p]) t' trajectory'); [| | exact H].
        -- rewrite map_app. simpl. rewrite Hstep.
           apply strictly_increasing_snoc; assumption.
        -- rewrite map_app. apply Forall_app. split.
           ++ eapply Forall_impl; [| exact Hlt]. simpl. intros x Hx. lra.
           ++ simpl. constructor; [rewrite Hstep; lra | constructor].
      * injection H as <- <-. exact Hs.
    + injection H as <- <-. exact Hs.
Qed.

End MockLoop.

Lemma last_item_nonempty {A : Type} (l : list A) :
  l <> [] -> exists a, Py.last_item l = Returns a.
Proof.
  intros Hl. unfold Py.last_item.
  destruct (rev l) as [| a rest] eqn:E.
  - exfalso. apply Hl. rewrite <- (rev_involutive l), E. reflexivity.
  - exists a. reflexivity.
Qed.


Lemma last_item_snoc {A : Type} (l : list A) (a : A) : Py.last_item (l ++ [a]) = Returns a.
Proof.
  unfold Py.last_item. rewrite rev_app_distr. reflexivity.
Qed.

(** A square is in the float range when its base lies between the two
    signs of a bound whose square is. *)
Lemma square_in_range (v bound : Q) :
  - bound <= v -> v <= bound ->
  Qabs (bound ^ 2) < Py.float_overflow ->
  Qabs (v ^ 2) < Py.float_overflow.
Proof.
  intros Hlo Hhi Hb.
  assert (Ev : v ^ 2 == v * v) by (simpl; reflexivity).
  assert (Eb : bound ^ 2 == bound * bound) by (simpl; reflexivity).
  rewrite Eb in Hb. rewrite Ev.
  rewrite Qabs_pos in Hb by nra. rewrite Qabs_pos by nra.
  apply Qle_lt_trans with (bound * bound); [nra | exact Hb].
Qed.

Section MockTermination.

Variable request : SimulationRequest.t.
Variables mass thrust burn_time g dt apogee_time peak : Q.

(** The propellant mass of the request's motor. *)
Local Abbreviation propellant :=
  (MotorConfig.propellant_mass (RocketConfig.motor (SimulationRequest.rocket request))).

Hypothesis dt_positive : 0 < dt.
Hypothesis liftoff_mass_positive : 0 < mass.
Hypothesis propellant_not_negative : 0 <= propellant.
Hypothesis burnout_mass_positive : 0 < mass - propellant.
Hypothesis gravity_not_negative : 0 <= g.
Hypothesis peak_bounds_acceleration : Qabs thrust / (mass - propellant) + g <= peak.
Hypothesis speeds_in_float_range :
  Qabs ((peak * (apogee_time * 2.5)) ^ 2) < Py.float_overflow.

(** During the burn the instantaneous mass lies between the burnout
    mass and the liftoff mass, so the division by it is defined. *)
Lemma instantaneous_mass_bounds (t : Q) :
  0 <= t -> t < burn_time ->
  mass - propellant <= mass - propellant * t / burn_time.
Proof.
  intros Ht Hbt.
  assert (Hb : 0 < burn_time) by lra.
  assert (Hs0 : 0 <= t / burn_time) by (apply Qle_shift_div_l; lra).
  assert (Hs1 : t / burn_time < 1) by (apply Qlt_shift_div_r; lra).
  assert (E : propellant * t / burn_time == propellant * (t / burn_time))
    by (field; intros Hz; rewrite Hz in Hb; lra).
  rewrite E. nra.
Qed.

Lemma instantaneous_mass_positive (t : Q) :
  0 <= t -> t < burn_time -> 0 < mass - propellant * t / burn_time.
Proof.
  intros Ht Hbt. pose proof (instantaneous_mass_bounds t Ht Hbt). lra.
Qed.

Lemma peak_not_negative : 0 <= peak.
Proof.
  assert (H0 : 0 <= Qabs thrust / (mass - propellant)).
  { apply Qle_shift_div_l; [exact burnout_mass_positive |].
    rewrite Qmult_0_l. apply Qabs_nonneg. }
  lra.
Qed.

(** The acceleration of a pass is defined and no larger than [peak]. *)
Lemma mock_acceleration_bounded (t : Q) :
  0 <= t ->
  exists a,
    (if Qltb t burn_time
     then (burnt <- Py.div (propellant * t) burn_time ;;
           accel <- Py.div thrust (mass - burnt) ;;
           Returns (accel - g))
     else Returns (- g)) = Returns a
    /\ - peak <= a /\ a <= peak.
Proof.
  intros Ht.
  assert (H0 : 0 <= Qabs thrust / (mass - propellant)).
  { apply Qle_shift_div_l; [exact burnout_mass_positive |].
    rewrite Qmult_0_l. apply Qabs_nonneg. }
  destruct (Qltb t burn_time) eqn:Hlt.
  - apply Qltb_true in Hlt.
    rewrite div_nonzero by (intros Hz; rewrite Hz in Hlt; lra).
    cbn [Py.bind].
    pose proof (instantaneous_mass_bounds t Ht Hlt) as Hm.
    set (inst := mass - propellant * t / burn_time) in *.
    assert (Hinst : 0 < inst) by lra.
    rewrite div_nonzero by (intros Hz; rewrite Hz in Hinst; lra).
    cbn [Py.bind]. eexists. split; [reflexivity |].
    assert (Habs : - Qabs thrust <= thrust /\ thrust <= Qabs thrust)
      by (apply Qabs_Qle_condition; apply Qle_refl).
    set (top := Qabs thrust) in *.
    assert (Hq : thrust / inst * inst == thrust)
      by (field; intros Hz; rewrite Hz in Hinst; lra).
    assert (Hq0 : top / (mass - propellant) * (mass - propellant) == top)
      by (field; intros Hz; rewrite Hz in burnout_mass_positive; lra).
    set (q := thrust / inst) in *.
    set (q0 := top / (mass - propellant)) in *.
    assert (Hup : q <= q0).
    { destruct (Qlt_le_dec q0 q) as [Hgt | Hle]; [| exact Hle]. exfalso. nra. }
    assert (Hdown : - q0 <= q).
    { destruct (Qlt_le_dec q (- q0)) as [Hgt | Hle]; [| exact Hle]. exfalso. nra. }
    lra.
  - eexists. split; [reflexivity |]. lra.
Qed.

(** What the loop knows of its state at the head of a pass: at time 0
    nothing was appended that is read; later the last sample, the one
    the pass reads, is no faster than [peak] times its time. *)
Definition mock_loop_state (t : Q) (trajectory : list TrajectoryPoint.t) : Prop :=
  t == 0
  \/ exists prev,
       Py.last_item trajectory = Returns prev
       /\ - (peak * (t - dt)) <= TrajectoryPoint.vz prev
       /\ TrajectoryPoint.vz prev <= peak * (t - dt).

(** One pass of the loop body neither raises nor loops, and it hands
    the next pass a state of the same kind. *)
Lemma mock_step_returns (t : Q) (trajectory : list TrajectoryPoint.t) :
  0 <= t -> t < apogee_time * 2.5 -> mock_loop_state t trajectory ->
  exists step,
    mock_step request mass thrust burn_time g dt t trajectory = Returns step
    /\ forall p, step = Some p -> mock_loop_state (t + dt) (trajectory ++ [p]).
Proof.
  intros Ht Hhorizon Hstate. unfold mock_step.
  destruct (mock_acceleration_bounded t Ht) as (a & -> & Halo & Hahi). cbn [Py.bind].
  pose proof peak_not_negative as Hpeak.
  assert (Htail : forall v z,
             - (peak * t) <= v -> v <= peak * t ->
             exists step,
               (if Qltb z 0 && Qltb burn_time t
                then Returns None
                else (v_squared <- Py.pow v 2 ;;
                      Returns (Some {|
                        TrajectoryPoint.time := t;
                        TrajectoryPoint.x := 0; TrajectoryPoint.y := 0;
                        TrajectoryPoint.z := Py.max0 z;
                        TrajectoryPoint.vx := 0; TrajectoryPoint.vy := 0;
                        TrajectoryPoint.vz := v;
                        TrajectoryPoint.ax := 0; TrajectoryPoint.ay := 0;
                        TrajectoryPoint.az := a;
                        TrajectoryPoint.pitch := 90; TrajectoryPoint.yaw := 0;
                        TrajectoryPoint.roll := 0;
                        TrajectoryPoint.mach := v / 340;
                        TrajectoryPoint.dynamic_pressure := 0.5 * 1.225 * v_squared;
                        TrajectoryPoint.angle_of_attack := 0 |}))) = Returns step
               /\ forall p, step = Some p -> mock_loop_state (t + dt) (trajectory ++ [p])).
  { intros v z Hvlo Hvhi.
    destruct (Qltb z 0 && Qltb burn_time t).
    - eexists. split; [reflexivity |]. discriminate.
    - rewrite pow_in_range.
      + cbn [Py.bind]. eexists. split; [reflexivity |].
        intros p Hp. injection Hp as <-. right. eexists.
        split; [apply last_item_snoc |].
        cbn [TrajectoryPoint.vz]. split; nra.
      + apply square_in_range with (peak * (apogee_time * 2.5));
          [nra | nra | exact speeds_in_float_range]. }
  destruct (Qeq_bool t 0) eqn:Hz.
  - cbn [Py.bind]. apply Htail; nra.
  - destruct Hstate as [H0 | (prev & -> & Hlo & Hhi)].
    + apply Qeq_bool_iff in H0. congruence.
    + cbn [Py.bind]. apply Htail; nra.
Qed.


(** Whatever the step budget, the loop does not raise. *)
Lemma mock_loop_never_raises (fuel : nat) :
  forall (t : Q) (trajectory : list TrajectoryPoint.t) (e : Py.exception),
    0 <= t -> mock_loop_state t trajectory ->
    mock_loop fuel request mass thrust burn_time g dt apogee_time t trajectory <> Raises e.
Proof.
  induction fuel as [| fuel IH]; intros t trajectory e Ht Hstate; cbn [mock_loop].
  - discriminate.
  - destruct (Qltb t (apogee_time * 2.5)) eqn:Hlt; [| discriminate].
    apply Qltb_true in Hlt.
    destruct (mock_step_returns t trajectory Ht Hlt Hstate) as ([p |] & -> & Hnext);
      cbn [Py.bind].
    + apply IH; [lra |]. apply Hnext. reflexivity.
    + discriminate.
Qed.

End MockTermination.

(** What a returned mock result is made of: the two divisions were
    defined, the loop ended, and the fields are the closed-form values,
    the loop's trajectory and the four synthesized events. *)
Lemma create_mock_result_inv (fuel : nat) (request : SimulationRequest.t)
      (r : SimulationResult.t) :
  create_mock_result fuel request = Returns r ->
  let motor := RocketConfig.motor (SimulationRequest.rocket request) in
  let mass := ClosedForm.liftoff_mass request in
  let burn_time := MotorConfig.burn_time motor in
  let a_burn := MotorConfig.avg_thrust motor
                / (mass - MotorConfig.propellant_mass motor / 2) - 9.81 in
  let v_burnout := a_burn * burn_time in
  let coast_time := v_burnout / 9.81 in
  exists dt t,
    ~ mass - MotorConfig.propellant_mass motor / 2 == 0
    /\ Py.div 1.0 (SimulationRequest.output_sampling_rate request) = Returns dt
    /\ mock_loop fuel request mass (MotorConfig.avg_thrust motor) burn_time 9.81 dt
                 (burn_time + coast_time) 0 []
       = Returns (t, SimulationResult.trajectory r)
    /\ SimulationResult.success r = true
    /\ SimulationResult.message r = "Mock simulation (RocketPy not installed)"
    /\ SimulationResult.apogee r
       = 0.5 * a_burn * burn_time ^ 2 + (v_burnout * coast_time - 0.5 * 9.81 * coast_time ^ 2)
    /\ SimulationResult.apogee_time r = burn_time + coast_time
    /\ nth_error (SimulationResult.events r) 0 = Some liftoff_event.
Proof.
  unfold create_mock_result, ClosedForm.liftoff_mass. intros H. cbv zeta.
  bind_inv H accel Haccel. apply div_Returns in Haccel. destruct Haccel as [Hmass ->].
  bind_inv H bt2 Hbt2. apply pow_Returns in Hbt2. subst bt2.
  bind_inv H ct2 Hct2. apply pow_Returns in Hct2. subst ct2.
  bind_inv H dt Hdt. bind_inv H loop Hloop. destruct loop as [t trajectory].
  bind_inv H landing_vz Hvz. injection H as <-.
  exists dt, t. cbn.
  repeat split; try reflexivity; assumption.
Qed.


(** The accelerations of the loop stay below the peak acceleration of
    the request. *)
Lemma peak_acceleration_bounds (request : SimulationRequest.t) :
  let motor := RocketConfig.motor (SimulationRequest.rocket request) in
  Qabs (MotorConfig.avg_thrust motor)
  / (RocketConfig.mass (SimulationRequest.rocket request)
     + MotorConfig.propellant_mass motor + MotorConfig.dry_mass motor
     - MotorConfig.propellant_mass motor)
  + 9.81 <= peak_acceleration request.
Proof.
  cbv zeta. unfold peak_acceleration.
  match goal with
  | |- _ / ?m + _ <= _ / ?m0 + _ => assert (E : m == m0) by ring; rewrite E
  end.
  apply Qle_refl.
Qed.

(** For a request with positive rocket mass and output rate,
    non-negative motor masses and squares in the float range, no step
    budget makes the mock path raise: it returns, or the budget was
    too small. *)
Lemma mock_result_never_raises (fuel : nat) (request : SimulationRequest.t)
      (e : Py.exception) :
  physical_request request ->
  squares_in_float_range request ->
  create_mock_result fuel request <> Raises e.
Proof.
  intros (Hrm & Hprop & Hdry & Hrate) (Hbt2 & Hct2 & Hv2).
  pose proof (peak_acceleration_bounds request) as Hpeak. cbv zeta in Hpeak.
  set (motor := RocketConfig.motor (SimulationRequest.rocket request)) in *.
  set (mass := RocketConfig.mass (SimulationRequest.rocket request)
               + MotorConfig.propellant_mass motor + MotorConfig.dry_mass motor).
  set (dt := 1.0 / SimulationRequest.output_sampling_rate request).
  assert (Hdt : 0 < dt) by (apply Qlt_shift_div_l; lra).
  assert (Hmass : 0 < mass) by (unfold mass; lra).
  assert (Hburnt : 0 < mass - MotorConfig.propellant_mass motor) by (unfold mass; lra).
  assert (Havg : ~ mass - MotorConfig.propellant_mass motor / 2 == 0)
    by (intros Hz;
        assert (E : MotorConfig.propellant_mass motor / 2
                    == MotorConfig.propellant_mass motor * 0.5) by field;
        rewrite E in Hz; lra).
  assert (Hrate' : ~ SimulationRequest.output_sampling_rate request == 0)
    by (intros Hz; rewrite Hz in Hrate; lra).
  unfold create_mock_result. fold motor. fold mass.
  rewrite (div_nonzero _ _ Havg). cbn [Py.bind].
  rewrite pow_in_range by exact Hbt2. cbn [Py.bind].
  rewrite pow_in_range by exact Hct2. cbn [Py.bind].
  rewrite (div_nonzero _ _ Hrate'). cbn [Py.bind]. fold dt.
  match goal with
  | |- context [mock_loop fuel request mass ?thrust ?bt ?g dt ?at_ 0 []] =>
      pose proof (mock_loop_never_raises request mass thrust bt g dt at_
                    (peak_acceleration request)
                    Hdt Hprop Hburnt ltac:(lra) Hpeak Hv2
                    fuel 0 [] e ltac:(lra) ltac:(left; reflexivity))
        as Hloop;
      destruct (mock_loop fuel request mass thrust bt g dt at_ 0 [])
        as [[t trajectory] | e' |]
  end; cbn [Py.bind].
  - destruct trajectory as [| p rest]; cbn [Py.bind]; [discriminate |].
    destruct (last_item_nonempty (p :: rest)) as [q ->]; [discriminate |].
    cbn [Py.bind]. discriminate.
  - intros H. injection H as ->. apply Hloop. reflexivity.
  - discriminate.
Qed.




(** The other way out of the fallback path: with a burn time of 1e200 s
    the first square, [burn_time ** 2], is out of the float range and
    the path raises [OverflowError], although the masses and the rate
    are as the fallback expects them. *)
Lemma mock_result_raises_on_huge_burn_time :
  physical_request endless_burn
  /\ ~ squares_in_float_range endless_burn
  /\ create_mock_result 1 endless_burn
     = Raises (OverflowError "(34, 'Numerical result out of range')").
Proof.
  split; [| split].
  - unfold physical_request. simpl. repeat split; lra.
  - intros (Hbt2 & _). unfold in_float_range in Hbt2. vm_compute in Hbt2. discriminate.
  - vm_compute. reflexivity.
Qed.


(* ================================================================== *)
(** * Order of the trajectory and the first event *)
(* ================================================================== *)

(** Peel every leading [bind] off [H : ... = Returns _]. *)
Ltac bind_inv_all H :=
  repeat (let x := fresh "x" in
          let Hx := fresh "Hx" in
          apply bind_Returns in H; destruct H as [x [Hx H]]).

Lemma strictly_increasing_prefix (l1 l2 : list Q) :
  strictly_increasing (l1 ++ l2) -> strictly_increasing l1.
Proof.
  unfold strictly_increasing. induction l1 as [| a l1 IH]; simpl; intros H.
  - constructor.
  - apply StronglySorted_inv in H. destruct H as [Hs Ha].
    constructor; [apply IH; exact Hs |].
    apply Forall_app in Ha. apply Ha.
Qed.

(** The grid [np.arange(start, stop, step)] increases strictly when
    the step is positive. *)
Lemma arange_increasing (start stop step : Q) :
  0 < step -> strictly_increasing (Numpy.arange start stop step).
Proof.
  intros Hstep. unfold Numpy.arange, strictly_increasing.
  generalize (Z.to_nat (Qceiling ((stop - start) / step))) as n.
  generalize 0%nat as first.
  intros first n. revert first. induction n as [| n IH]; intros first; simpl.
  - constructor.
  - constructor; [apply IH |].
    apply Forall_forall. intros x Hx.
    apply in_map_iff in Hx. destruct Hx as (i & <- & Hi).
    apply in_seq in Hi.
    assert (Hlt : inject_Z (Z.of_nat first) < inject_Z (Z.of_nat i))
      by (rewrite <- Zlt_Qlt; lia).
    nra.
Qed.

(** A resampled point carries the grid time it was sampled at. *)
Lemma sample_point_time (flight : RocketPy.Flight) (t : Q) (p : TrajectoryPoint.t) :
  sample_point flight t = Returns p -> TrajectoryPoint.time p = t.
Proof.
  unfold sample_point. intros H. bind_inv_all H.
  injection H as <-. reflexivity.
Qed.

(** The resampled trajectory covers a prefix of the grid: sampling
    stops at the first grid time where an accessor raises. *)
Lemma sample_trajectory_prefix (flight : RocketPy.Flight) (times : list Q) :
  forall trajectory,
    sample_trajectory flight times = Returns trajectory ->
    exists rest, times = map TrajectoryPoint.time trajectory ++ rest.
Proof.
  induction times as [| t times IH]; simpl; intros trajectory H.
  - injection H as <-. exists []. reflexivity.
  - destruct (sample_point flight t) as [p | e |] eqn:Hp.
    + bind_inv H later Hlater. injection H as <-.
      destruct (IH later Hlater) as [rest ->].
      exists rest. simpl. rewrite (sample_point_time flight t p Hp). reflexivity.
    + injection H as <-. exists (t :: times). reflexivity.
    + discriminate.
Qed.

Section Ordering.

Variable float_of_str : string -> result Q.
Variable np : Numpy.API.

(** A successful extraction resamples on the grid of step
    [1 / output_sampling_rate] and lists [liftoff] first. *)
Lemma extract_result_inv (rp : RocketPy.API) (request : SimulationRequest.t)
      (motor : RocketPy.SolidMotor rp) (rocket : RocketPy.Rocket rp)
      (flight : RocketPy.Flight) (r : SimulationResult.t) :
  extract_result rp request motor rocket flight = Returns r ->
  exists dt t_final,
    Py.div 1.0 (SimulationRequest.output_sampling_rate request) = Returns dt
    /\ sample_trajectory flight (Numpy.arange 0 t_final dt)
       = Returns (SimulationResult.trajectory r)
    /\ SimulationResult.success r = true
    /\ nth_error (SimulationResult.events r) 0 = Some liftoff_event.
Proof.
  unfold extract_result. intros H.
  bind_inv H dt Hdt. bind_inv H t_final Htf. bind_inv H trajectory Htraj.
  bind_inv H rail_time Hrt. bind_inv H rail_velocity Hrv. bind_inv H burnout_time Hbt.
  bind_inv H apogee_time Hat. bind_inv H apogee Hap.
  bind_inv H events Hev. bind_inv H margins Hm. destruct margins as [s0 s1].
  bind_inv_all H. injection H as <-.
  exists dt, t_final. cbn.
  repeat split; try assumption.
  destruct (RocketPy.impact_time flight) as [read |].
  - bind_inv Hev impact_time Hit.
    destruct (Qeq_bool impact_time 0).
    + injection Hev as <-. reflexivity.
    + bind_inv_all Hev. injection Hev as <-. reflexivity.
  - injection Hev as <-. reflexivity.
Qed.

(** C8, for the results that report success.  With a positive output
    sampling rate, a result with [success = true] has strictly
    increasing trajectory times, and its first event is [liftoff] at
    time 0 and altitude 0, on the RocketPy path and on the mock path
    alike. *)
Theorem successful_run_is_ordered (rocketpy : option RocketPy.API) (fuel : nat)
        (request : SimulationRequest.t) (r : SimulationResult.t) :
  0 < SimulationRequest.output_sampling_rate request ->
  run_simulation float_of_str np rocketpy fuel request = Returns r ->
  SimulationResult.success r = true ->
  strictly_increasing (trajectory_times r)
  /\ nth_error (SimulationResult.events r) 0 = Some liftoff_event.
Proof.
  intros Hrate Hrun Hok. unfold trajectory_times.
  assert (Hstep : forall dt,
             Py.div 1.0 (SimulationRequest.output_sampling_rate request) = Returns dt ->
             0 < dt).
  { intros dt Hdt. apply div_Returns in Hdt. destruct Hdt as [_ ->].
    apply Qlt_shift_div_l; lra. }
  destruct rocketpy as [rp |].
  - apply run_simulation_engine_result in Hrun.
    destruct Hrun as [(motor & rocket & flight & _ & Hex) | [e ->]];
      [| discriminate].
    apply extract_result_inv in Hex.
    destruct Hex as (dt & t_final & Hdt & Htraj & _ & Hev).
    split; [| exact Hev].
    apply sample_trajectory_prefix in Htraj. destruct Htraj as [rest Hgrid].
    apply strictly_increasing_prefix with rest. rewrite <- Hgrid.
    apply arange_increasing. apply Hstep. exact Hdt.
  - simpl in Hrun. apply create_mock_result_inv in Hrun. cbv zeta in Hrun.
    destruct Hrun as (dt & t & _ & Hdt & Hloop & _ & _ & _ & _ & Hev).
    split; [| exact Hev].
    eapply mock_loop_increasing; [apply Hstep; exact Hdt | | | exact Hloop].
    + constructor.
    + constructor.
Qed.

End Ordering.

(** C8 on the default request resampled at 4 Hz from a two-second
    flight: eight samples, [liftoff] first. *)
Lemma successful_run_is_ordered_witness :
  exists r,
    run_simulation Samples.float_of_str Samples.numpy (Some (Samples.engine true)) 0
                   (Samples.with_rate 4 Samples.request) = Returns r
    /\ List.length (SimulationResult.trajectory r) = 8%nat
    /\ strictly_increasing (trajectory_times r)
    /\ nth_error (SimulationResult.events r) 0 = Some liftoff_event.
Proof.
  assert (E : exists r,
             run_simulation Samples.float_of_str Samples.numpy (Some (Samples.engine true)) 0
                            (Samples.with_rate 4 Samples.request) = Returns r
             /\ SimulationResult.success r = true
             /\ List.length (SimulationResult.trajectory r) = 8%nat)
    by (vm_compute; eexists; repeat split).
  destruct E as (r & Hrun & Hok & Hlen). exists r.
  split; [exact Hrun |]. split; [exact Hlen |].
  apply (successful_run_is_ordered Samples.float_of_str Samples.numpy
           (Some (Samples.engine true)) 0%nat (Samples.with_rate 4 Samples.request) r);
    [simpl; lra | exact Hrun | exact Hok].
Defined.

(** C8 fails as stated: a failed run returns no event at all, so its
    events have no first element.  It happens when the engine raises
    (here during integration) and when the request is at fault (here
    an output sampling rate of 0, with an engine that works). *)
Lemma failed_run_has_no_liftoff_event :
  (exists r,
      run_simulation Samples.float_of_str Samples.numpy (Some (Samples.engine false)) 0
                     Samples.request = Returns r
      /\ SimulationResult.events r = []
      /\ nth_error (SimulationResult.events r) 0 <> Some liftoff_event)
  /\ (exists r,
         run_simulation Samples.float_of_str Samples.numpy (Some (Samples.engine true)) 0
                        (Samples.with_rate 0 Samples.request) = Returns r
         /\ SimulationResult.events r = []
         /\ nth_error (SimulationResult.events r) 0 <> Some liftoff_event).
Proof.
  split; eexists; (split; [reflexivity |]); split; [reflexivity | discriminate
                                                  | reflexivity | discriminate].
Qed.

(* ================================================================== *)
(** * What becomes of an invalid configuration *)
(* ================================================================== *)

Section Validation.

Variable float_of_str : string -> result Q.
Variable np : Numpy.API.
Variable rp : RocketPy.API.

(** The parachute loop gets through only if every trigger is "apogee"
    or parses. *)
Lemma add_parachutes_Returns (chutes : list ParachuteConfig.t) :
  forall rocket rocket',
    add_parachutes float_of_str rp rocket chutes = Returns rocket' ->
    forall chute, In chute chutes -> ~ unparseable_trigger float_of_str chute.
Proof.
  induction chutes as [| c rest IH]; intros rocket rocket' H chute Hin.
  - destruct Hin.
  - cbn [add_parachutes] in H.
    bind_inv H trigger Htrigger. bind_inv H rocket1 Hadd.
    destruct Hin as [<- | Hin].
    + intros [Hne [e He]].
      destruct (String.eqb (ParachuteConfig.trigger c) "apogee") eqn:Heq.
      * apply String.eqb_eq in Heq. contradiction.
      * rewrite He in Htrigger. discriminate.
    + exact (IH rocket1 rocket' H chute Hin).
Qed.

Lemma build_flight_Returns (request : SimulationRequest.t) motor rocket flight :
  build_flight float_of_str np rp request = Returns (motor, rocket, flight) ->
  forall chutes chute,
    RocketConfig.parachutes (SimulationRequest.rocket request) = Some chutes ->
    In chute chutes -> ~ unparseable_trigger float_of_str chute.
Proof.
  unfold build_flight. intros H chutes chute Hchutes Hin.
  bind_inv H env Henv. bind_inv H env' Hatm. bind_inv H motor0 Hmotor.
  bind_inv H rocket0 Hrocket.
  unfold create_rocketpy_rocket in Hrocket.
  bind_inv Hrocket r1 H1. bind_inv Hrocket r2 H2. bind_inv Hrocket r3 H3.
  bind_inv Hrocket r4 H4.
  rewrite Hchutes in Hrocket.
  destruct chutes as [| c rest]; [destruct Hin |].
  exact (add_parachutes_Returns (c :: rest) r4 rocket0 Hrocket chute Hin).
Qed.

(** C3, as far as the code goes.  With RocketPy installed, a request
    with a parachute whose trigger is neither "apogee" nor a number is
    never flown: [run_simulation] returns (it does not raise) the failed
    result of the exception that stopped the construction, with
    [success = false], every numeric field zero and no trajectory. *)
Theorem unparseable_trigger_is_a_failed_result
        (fuel : nat) (request : SimulationRequest.t)
        (chutes : list ParachuteConfig.t) (chute : ParachuteConfig.t) :
  RocketConfig.parachutes (SimulationRequest.rocket request) = Some chutes ->
  In chute chutes ->
  unparseable_trigger float_of_str chute ->
  exists e,
    build_flight float_of_str np rp request = Raises e
    /\ run_simulation float_of_str np (Some rp) fuel request = Returns (failed_result e)
    /\ SimulationResult.success (failed_result e) = false
    /\ numeric_fields_zero (failed_result e)
    /\ SimulationResult.trajectory (failed_result e) = []
    /\ SimulationResult.events (failed_result e) = [].
Proof.
  intros Hchutes Hin Hbad.
  pose proof (build_flight_terminates float_of_str np rp request) as Hterm.
  destruct (build_flight float_of_str np rp request) as [[[motor rocket] flight] | e |] eqn:Hb.
  - exfalso.
    exact (build_flight_Returns request motor rocket flight Hb chutes chute Hchutes Hin Hbad).
  - exists e. split; [reflexivity |]. split.
    + simpl. apply run_rocketpy_simulation_Raises. rewrite Hb. reflexivity.
    + pose proof (failed_result_shape e) as (Hs & _ & Hz & _ & Ht & He).
      repeat split; assumption.
  - contradiction.
Qed.

End Validation.

(** C3 on the invalid sample request, with an engine that accepts
    whatever it is given: the parse of "soon" stops the construction. *)
Lemma unparseable_trigger_is_a_failed_result_witness :
  exists e,
    build_flight Samples.float_of_str Samples.numpy (Samples.engine true)
                 Samples.invalid_request = Raises e
    /\ run_simulation Samples.float_of_str Samples.numpy (Some (Samples.engine true)) 0
                      Samples.invalid_request = Returns (failed_result e)
    /\ SimulationResult.success (failed_result e) = false
    /\ numeric_fields_zero (failed_result e)
    /\ SimulationResult.trajectory (failed_result e) = []
    /\ SimulationResult.events (failed_result e) = [].
Proof.
  apply (unparseable_trigger_is_a_failed_result Samples.float_of_str Samples.numpy
           (Samples.engine true) 0%nat Samples.invalid_request
           [Samples.vague_chute] Samples.vague_chute).
  - reflexivity.
  - left. reflexivity.
  - split; [discriminate |]. eexists. reflexivity.
Defined.

(** C3 fails as stated: no configuration is rejected.  Without
    RocketPy the invalid sample request (one-point thrust curve, zero
    radius, zero fins, trigger "soon") is simulated and reported as a
    success; with RocketPy the same request comes back as a result
    with [success = false], not as an error raised to the caller. *)
Lemma invalid_configuration_is_simulated :
  (exists r,
      run_simulation Samples.float_of_str Samples.numpy None 40
                     Samples.invalid_request = Returns r
      /\ SimulationResult.success r = true
      /\ SimulationResult.trajectory r <> [])
  /\ (exists r,
         run_simulation Samples.float_of_str Samples.numpy (Some (Samples.engine true)) 40
                        Samples.invalid_request = Returns r
         /\ SimulationResult.success r = false)
  /\ ~ (exists fuel rocketpy e,
           run_simulation Samples.float_of_str Samples.numpy rocketpy fuel
                          Samples.invalid_request = Raises e).
Proof.
  split; [| split].
  - vm_compute. eexists. split; [reflexivity |]. split; [reflexivity | discriminate].
  - vm_compute. eexists. split; reflexivity.
  - intros (fuel & rocketpy & e & H).
    destruct rocketpy as [rp |].
    + exact (run_simulation_engine_never_raises _ _ _ _ _ _ H).
    + apply (mock_result_never_raises fuel Samples.invalid_request e); [| | exact H].
      * unfold physical_request. simpl. repeat split; lra.
      * unfold squares_in_float_range, in_float_range.
        repeat split; vm_compute; reflexivity.
Qed.

(* ================================================================== *)
(** * The motor catalog endpoints *)
(* ================================================================== *)

Lemma database_get_Some (items : list (string * MotorData.t)) (motor_id : string)
      (data : MotorData.t) :
  database_get items motor_id = Some data -> In (motor_id, data) items.
Proof.
  induction items as [| [key d] rest IH]; simpl; intros H; [discriminate |].
  destruct (String.eqb key motor_id) eqn:E.
  - apply String.eqb_eq in E. injection H as <-. left. rewrite E. reflexivity.
  - right. apply IH. exact H.
Qed.

Lemma database_get_None (items : list (string * MotorData.t)) (motor_id : string) :
  database_get items motor_id = None <-> ~ In motor_id (map fst items).
Proof.
  induction items as [| [key d] rest IH]; simpl.
  - split; [intros _ [] | reflexivity].
  - destruct (String.eqb key motor_id) eqn:E.
    + apply String.eqb_eq in E. split; [discriminate |].
      intros H. exfalso. apply H. left. exact E.
    + apply String.eqb_neq in E. rewrite IH. split.
      * intros H [Hk | Hin]; [contradiction | exact (H Hin)].
      * intros H Hin. apply H. right. exact Hin.
Qed.

(** Every key of the catalog is the [id] stored under it. *)
Lemma database_keys_are_ids :
  Forall (fun item => MotorData.id (snd item) = fst item) MOTOR_DATABASE.
Proof.
  repeat constructor.
Qed.

(** X1.  [get_motor] answers 404 with the detail "Motor <id> not found"
    exactly for the identifiers that are no key of the catalog; for a
    key it answers the motor whose [id] is that key, which is one of
    the motors the unfiltered listing returns. *)
Theorem get_motor_hit_or_404 (upper lower : string -> string) (motor_id : string) :
  (In motor_id (map fst MOTOR_DATABASE) ->
   exists m, get_motor motor_id = Http200 m
             /\ MotorInfo.id m = motor_id
             /\ In m (list_motors upper lower None None))
  /\ (~ In motor_id (map fst MOTOR_DATABASE) ->
      get_motor motor_id
      = HTTPException 404 ("Motor " ++ motor_id ++ " not found")%string).
Proof.
  unfold get_motor. split.
  - intros Hin.
    destruct (database_get MOTOR_DATABASE motor_id) as [data |] eqn:E.
    + apply database_get_Some in E.
      exists (motor_info data). split; [reflexivity |]. split.
      * pose proof database_keys_are_ids as Hids.
        rewrite Forall_forall in Hids. exact (Hids _ E).
      * unfold list_motors. clear Hin.
        induction MOTOR_DATABASE as [| [key d] rest IH]; [destruct E |].
        simpl. destruct E as [E | E].
        -- injection E as _ ->. left. reflexivity.
        -- right. apply IH. exact E.
    + apply database_get_None in E. contradiction.
  - intros Hnot. apply database_get_None in Hnot. rewrite Hnot. reflexivity.
Qed.

Section Listing.

Variable upper : string -> string.
Variable lower : string -> string.

Lemma truthy_true (q : string) : truthy (Some q) = true <-> q <> "".
Proof.
  destruct q; simpl; split; intros H; try reflexivity; try discriminate.
  exfalso. apply H. reflexivity.
Qed.

Lemma class_mismatch_false (impulse_class : option string) (data : MotorData.t) :
  class_mismatch upper impulse_class data = false <->
  (forall q, impulse_class = Some q -> q <> "" -> MotorData.impulse_class data = upper q).
Proof.
  unfold class_mismatch. destruct impulse_class as [q |].
  - destruct (truthy (Some q)) eqn:Ht; simpl.
    + apply truthy_true in Ht. rewrite negb_false_iff, String.eqb_eq. split.
      * intros H q' [= <-] _. exact H.
      * intros H. apply H; [reflexivity | exact Ht].
    + split; [| reflexivity]. intros _ q' [= <-] Hq.
      apply truthy_true in Hq. congruence.
  - split; [| reflexivity]. intros _ q' [=].
Qed.

Lemma manufacturer_mismatch_false (manufacturer : option string) (data : MotorData.t) :
  manufacturer_mismatch lower manufacturer data = false <->
  (forall q, manufacturer = Some q -> q <> "" ->
             lower (MotorData.manufacturer data) = lower q).
Proof.
  unfold manufacturer_mismatch. destruct manufacturer as [q |].
  - destruct (truthy (Some q)) eqn:Ht; simpl.
    + apply truthy_true in Ht. rewrite negb_false_iff, String.eqb_eq. split.
      * intros H q' [= <-] _. exact H.
      * intros H. apply H; [reflexivity | exact Ht].
    + split; [| reflexivity]. intros _ q' [= <-] Hq.
      apply truthy_true in Hq. congruence.
  - split; [| reflexivity]. intros _ q' [=].
Qed.

Lemma list_motors_from_In (items : list (string * MotorData.t))
      (impulse_class manufacturer : option string) (m : MotorInfo.t) :
  In m (list_motors_from upper lower items impulse_class manufacturer) <->
  exists key data,
    In (key, data) items /\ m = motor_info data
    /\ passes_filters upper lower impulse_class manufacturer data.
Proof.
  unfold passes_filters.
  induction items as [| [key d] rest IH]; simpl.
  - split; [intros [] | intros (k & data & [] & _)].
  - destruct (class_mismatch upper impulse_class d) eqn:Ec;
      [| destruct (manufacturer_mismatch lower manufacturer d) eqn:Em].
    + rewrite IH. split.
      * intros (k & data & Hin & Hm & Hp). exists k, data. auto.
      * intros (k & data & [Hin | Hin] & Hm & Hc & Hf).
        -- injection Hin as -> ->. apply class_mismatch_false in Hc. congruence.
        -- exists k, data. auto.
    + rewrite IH. split.
      * intros (k & data & Hin & Hm & Hp). exists k, data. auto.
      * intros (k & data & [Hin | Hin] & Hm & Hc & Hf).
        -- injection Hin as -> ->. apply manufacturer_mismatch_false in Hf. congruence.
        -- exists k, data. auto.
    + simpl. rewrite IH. split.
      * intros [<- | (k & data & Hin & Hm & Hp)].
        -- exists key, d. split; [left; reflexivity |]. split; [reflexivity |].
           split; [apply class_mismatch_false | apply manufacturer_mismatch_false];
             assumption.
        -- exists k, data. auto.
      * intros (k & data & [Hin | Hin] & Hm & Hp).
        -- injection Hin as -> ->. left. symmetry. exact Hm.
        -- right. exists k, data. auto.
Qed.

(** X2.  The listing is sound and complete for its filters: a motor is
    returned exactly when it is the record of a catalog entry whose
    impulse class is the upper-cased class filter and whose
    manufacturer equals the manufacturer filter once both are
    lower-cased, where a filter that is absent or the empty string
    excludes nothing. *)
Theorem list_motors_sound_and_complete
        (impulse_class manufacturer : option string) (m : MotorInfo.t) :
  In m (list_motors upper lower impulse_class manufacturer) <->
  exists key data,
    In (key, data) MOTOR_DATABASE /\ m = motor_info data
    /\ passes_filters upper lower impulse_class manufacturer data.
Proof.
  apply list_motors_from_In.
Qed.

Lemma list_motors_from_filter (items : list (string * MotorData.t))
      (impulse_class manufacturer : option string) :
  list_motors_from upper lower items impulse_class manufacturer
  = map motor_info
        (filter (fun data => negb (class_mismatch upper impulse_class data)
                             && negb (manufacturer_mismatch lower manufacturer data))
                (map snd items)).
Proof.
  induction items as [| [key d] rest IH]; simpl; [reflexivity |].
  destruct (class_mismatch upper impulse_class d); simpl; [exact IH |].
  destruct (manufacturer_mismatch lower manufacturer d); simpl; [exact IH |].
  rewrite IH. reflexivity.
Qed.

(** X3.  The two filters compose and keep the catalog order: listing
    with both filters gives the motors of the class-only listing whose
    manufacturer passes the manufacturer filter, in the same order; and
    with no filter, or with empty strings for filters, the listing is
    the whole catalog in its order. *)
Theorem list_motors_filters_compose (impulse_class manufacturer : option string) :
  list_motors upper lower impulse_class manufacturer
  = filter (fun m =>
              negb (match manufacturer with
                    | Some q => truthy manufacturer
                                && negb (String.eqb (lower (MotorInfo.manufacturer m))
                                                    (lower q))
                    | None => false
                    end))
           (list_motors upper lower impulse_class None)
  /\ list_motors upper lower None None = map motor_info (map snd MOTOR_DATABASE)
  /\ list_motors upper lower (Some "") (Some "") = list_motors upper lower None None.
Proof.
  unfold list_motors. split; [| split].
  - induction MOTOR_DATABASE as [| [key d] rest IH]; simpl; [reflexivity |].
    destruct (class_mismatch upper impulse_class d); [exact IH |].
    cbn [manufacturer_mismatch]. simpl.
    fold (manufacturer_mismatch lower manufacturer d).
    destruct (manufacturer_mismatch lower manufacturer d); simpl; [exact IH |].
    rewrite IH. reflexivity.
  - rewrite list_motors_from_filter. simpl. reflexivity.
  - rewrite !list_motors_from_filter. reflexivity.
Qed.

End Listing.

Lemma increasingb_sound (l : list Q) : increasingb l = true -> strictly_increasing l.
Proof.
  unfold strictly_increasing. induction l as [| a rest IH]; intros H.
  - constructor.
  - destruct rest as [| b rest'].
    + constructor; constructor.
    + cbn [increasingb] in H. apply andb_true_iff in H. destruct H as [Hab Hrest].
      apply Qltb_true in Hab. specialize (IH Hrest).
      constructor; [exact IH |].
      apply StronglySorted_inv in IH. destruct IH as [_ Hall].
      constructor; [exact Hab |].
      eapply Forall_impl; [| exact Hall]. simpl. intros x Hx.
      apply Qlt_trans with b; assumption.
Qed.

(** The catalog data: each curve is well-formed, ends at the burn time
    of its motor and peaks at its [max_thrust]. *)
Lemma database_curves_well_formed :
  Forall (fun item =>
            let data := snd item in
            (2 <=? List.length (MotorData.thrust_curve data))%nat = true
            /\ increasingb (curve_times (MotorData.thrust_curve data)) = true
            /\ starts_at_zero_thrust (MotorData.thrust_curve data)
            /\ ends_at_zero_thrust (MotorData.thrust_curve data)
            /\ peak_thrust (MotorData.thrust_curve data) == MotorData.max_thrust data
            /\ (exists p, Py.last_item (MotorData.thrust_curve data) = Returns p
                          /\ point_time p == MotorData.burn_time data))
         MOTOR_DATABASE.
Proof.
  repeat (constructor;
          [cbv zeta; split; [reflexivity |]; split; [reflexivity |];
           split; [eexists; split; reflexivity |];
           split; [eexists; split; reflexivity |];
           split; [reflexivity | eexists; split; reflexivity] |]).
  constructor.
Qed.

(** X4.  Every motor [get_motor] serves has a well-formed thrust curve
    (at least two points, strictly increasing times, zero thrust at
    both ends) that peaks at the motor's [max_thrust] and ends at its
    burn time. *)
Theorem get_motor_curve_well_formed (motor_id : string) (m : MotorInfo.t) :
  get_motor motor_id = Http200 m ->
  well_formed_curve (MotorInfo.thrust_curve m)
  /\ peak_thrust (MotorInfo.thrust_curve m) == MotorInfo.max_thrust m
  /\ exists p, Py.last_item (MotorInfo.thrust_curve m) = Returns p
               /\ point_time p == MotorInfo.burn_time m.
Proof.
  unfold get_motor. intros H.
  destruct (database_get MOTOR_DATABASE motor_id) as [data |] eqn:E; [| discriminate].
  injection H as <-. apply database_get_Some in E.
  pose proof database_curves_well_formed as Hall. rewrite Forall_forall in Hall.
  specialize (Hall _ E). cbv zeta in Hall. simpl snd in Hall.
  destruct Hall as (Hlen & Hinc & Hstart & Hend & Hpeak & Hlast).
  split; [| split; [exact Hpeak | exact Hlast]].
  split; [apply Nat.leb_le; exact Hlen |].
  split; [apply increasingb_sound; exact Hinc |].
  split; assumption.
Qed.

(** X4 on the Aerotech F50. *)
Lemma get_motor_curve_well_formed_witness :
  exists m,
    get_motor "Aerotech_F50" = Http200 m
    /\ MotorInfo.burn_time m == 1.5
    /\ well_formed_curve (MotorInfo.thrust_curve m)
    /\ peak_thrust (MotorInfo.thrust_curve m) == 78.
Proof.
  eexists. split; [reflexivity |]. split; [reflexivity |].
  destruct (get_motor_curve_well_formed "Aerotech_F50" _ eq_refl) as (Hwf & Hpeak & _).
  split; [exact Hwf | exact Hpeak].
Defined.

(* ================================================================== *)
(** * The atmosphere endpoint *)
(* ================================================================== *)

Section AtmosphereFacts.

Variable float_pow : Q -> Q -> result Q.
Variable np_exp : Q -> Q.
Variable np : Numpy.API.

(** What an answer of the endpoint is made of. *)
Lemma get_atmosphere_inv (altitude latitude longitude : Q) (r : AtmosphereResponse.t) :
  get_atmosphere float_pow np_exp np altitude latitude longitude = Returns r ->
  exists ratio,
    Py.div 6371000 (6371000 + altitude) = Returns ratio
    /\ AtmosphereResponse.altitude r = altitude
    /\ AtmosphereResponse.temperature r
       = (if Qltb altitude 11000 then 288.15 - 0.0065 * altitude else 216.65)
    /\ AtmosphereResponse.temperature_celsius r = AtmosphereResponse.temperature r - 273.15
    /\ Py.div (AtmosphereResponse.pressure r) (287.05 * AtmosphereResponse.temperature r)
       = Returns (AtmosphereResponse.density r)
    /\ AtmosphereResponse.gravity r = 9.81 * ratio ^ 2.
Proof.
  unfold get_atmosphere. cbv zeta. intros H.
  bind_inv H tp Htp. destruct tp as [T P].
  bind_inv H rho Hrho. bind_inv H ratio Hratio. injection H as <-.
  exists ratio. cbn.
  assert (HT : T = (if Qltb altitude 11000 then 288.15 - 0.0065 * altitude else 216.65)).
  { destruct (Qltb altitude 11000); bind_inv Htp p Hp; injection Htp as <- _; reflexivity. }
  repeat split; try assumption.
Qed.

(** X5.  The temperature the endpoint answers follows the ISA profile
    and never falls below 216.65 K: below 11 km it exceeds that floor
    by 0.0065 K for every metre left to 11 km (so the two branches meet
    at 11 km), from 11 km up it is the floor; the Celsius value is the
    same temperature less 273.15. *)
Theorem atmosphere_temperature_profile
        (altitude latitude longitude : Q) (r : AtmosphereResponse.t) :
  get_atmosphere float_pow np_exp np altitude latitude longitude = Returns r ->
  216.65 <= AtmosphereResponse.temperature r
  /\ (altitude < 11000 ->
      AtmosphereResponse.temperature r - 216.65 == 0.0065 * (11000 - altitude))
  /\ (11000 <= altitude -> AtmosphereResponse.temperature r == 216.65)
  /\ AtmosphereResponse.temperature_celsius r == AtmosphereResponse.temperature r - 273.15.
Proof.
  intros H. apply get_atmosphere_inv in H.
  destruct H as (ratio & _ & _ & HT & HC & _).
  rewrite HC, HT. clear HC HT.
  destruct (Qltb altitude 11000) eqn:E.
  - apply Qltb_true in E. repeat split; try lra.
  - apply Qltb_false in E. repeat split; try lra.
Qed.

(** X6.  Gravity.  The endpoint answers only for altitudes other than
    -6371000 m, and the gravity it answers is never negative and at
    most 9.81 at and above sea level.  While the square of the
    distance to the Earth's centre is in the float range, the gravity
    is positive and follows the inverse-square law with sea-level
    value 9.81 and Earth radius 6371000 m.  (Farther out the float
    square of the ratio underflows to 0.0, which exact rationals do
    not show.) *)
Theorem atmosphere_gravity_law
        (altitude latitude longitude : Q) (r : AtmosphereResponse.t) :
  get_atmosphere float_pow np_exp np altitude latitude longitude = Returns r ->
  ~ altitude == -6371000
  /\ 0 <= AtmosphereResponse.gravity r
  /\ (0 <= altitude -> AtmosphereResponse.gravity r <= 9.81)
  /\ (in_float_range ((6371000 + altitude) ^ 2) ->
      0 < AtmosphereResponse.gravity r
      /\ AtmosphereResponse.gravity r * (6371000 + altitude) ^ 2 == 9.81 * 6371000 ^ 2).
Proof.
  intros H. apply get_atmosphere_inv in H.
  destruct H as (ratio & Hratio & _ & _ & _ & _ & Hg).
  apply div_Returns in Hratio. destruct Hratio as [Hnz ->].
  rewrite Hg. clear Hg.
  assert (Hne : ~ altitude == -6371000) by (intros Hz; apply Hnz; rewrite Hz; reflexivity).
  set (ratio := 6371000 / (6371000 + altitude)).
  assert (Hr : ratio * (6371000 + altitude) == 6371000) by (unfold ratio; field; exact Hnz).
  assert (Hsq : ratio ^ 2 == ratio * ratio) by (simpl; reflexivity).
  assert (Hpositive : 0 < 9.81 * (ratio * ratio)).
  { destruct (Q_dec ratio 0) as [[Hneg | Hpos] | Hzero].
    - nra.
    - nra.
    - rewrite Hzero in Hr. exfalso. revert Hr. clear. intros Hr.
      assert (H0 : 0 * (6371000 + altitude) == 0) by ring.
      rewrite H0 in Hr. discriminate. }
  split; [exact Hne |]. split; [| split].
  - rewrite Hsq. lra.
  - intros Halt. rewrite Hsq.
    assert (Hpos : 0 < ratio) by (unfold ratio; apply Qlt_shift_div_l; lra).
    assert (Hle : ratio <= 1) by (unfold ratio; apply Qle_shift_div_r; lra).
    nra.
  - intros _. split.
    + rewrite Hsq. exact Hpositive.
    + rewrite Hsq. simpl.
      assert (E : 9.81 * (ratio * ratio) * ((6371000 + altitude) * (6371000 + altitude))
                  == 9.81 * ((ratio * (6371000 + altitude)) * (ratio * (6371000 + altitude))))
        by ring.
      rewrite E, Hr. reflexivity.
Qed.

(** X7.  Provided the one power it takes returns, the endpoint fails
    at a single altitude: at -6371000 m it raises [ZeroDivisionError]
    (the gravity term), and at every other altitude it answers, the
    division by the temperature being defined always, with a density
    that satisfies [density * 287.05 * temperature = pressure]. *)
Theorem atmosphere_answers_but_at_earth_centre
        (altitude latitude longitude : Q) (power : Q) :
  float_pow (isa_base altitude) isa_exponent = Ok power ->
  (altitude == -6371000 ->
   get_atmosphere float_pow np_exp np altitude latitude longitude
   = Raises (ZeroDivisionError "float division by zero"))
  /\ (~ altitude == -6371000 ->
      exists r,
        get_atmosphere float_pow np_exp np altitude latitude longitude = Returns r
        /\ AtmosphereResponse.density r * (287.05 * AtmosphereResponse.temperature r)
           == AtmosphereResponse.pressure r).
Proof.
  intros Hpow. unfold get_atmosphere, isa_base, isa_exponent in *. cbv zeta.
  destruct (Qltb altitude 11000) eqn:E.
  - apply Qltb_true in E. rewrite Hpow. cbn [Py.lift Py.bind].
    assert (HT : ~ 287.05 * (288.15 - 0.0065 * altitude) == 0) by (intros Hz; lra).
    rewrite (div_nonzero _ _ HT). cbn [Py.bind]. split.
    + intros Hz. rewrite div_zero by (rewrite Hz; reflexivity). reflexivity.
    + intros Hne.
      assert (Hd : ~ 6371000 + altitude == 0) by (intros Hz; apply Hne; lra).
      rewrite (div_nonzero _ _ Hd). cbn [Py.bind].
      eexists. split; [reflexivity |]. cbn. field. intros Hz. lra.
  - rewrite Hpow. cbn [Py.lift Py.bind].
    assert (HT : ~ 287.05 * 216.65 == 0) by discriminate.
    rewrite (div_nonzero _ _ HT). cbn [Py.bind]. split.
    + intros Hz. rewrite div_zero by (rewrite Hz; reflexivity). reflexivity.
    + intros Hne.
      assert (Hd : ~ 6371000 + altitude == 0) by (intros Hz; apply Hne; lra).
      rewrite (div_nonzero _ _ Hd). cbn [Py.bind].
      eexists. split; [reflexivity |]. cbn. field.
Qed.

End AtmosphereFacts.

(** X5 at 5 km: 255.65 K, which is -17.5 degrees Celsius. *)
Lemma atmosphere_temperature_profile_witness :
  exists r,
    get_atmosphere AtmosphereSamples.float_pow AtmosphereSamples.np_exp Samples.numpy
                   5000 0 0 = Returns r
    /\ AtmosphereResponse.temperature r == 255.65
    /\ AtmosphereResponse.temperature_celsius r == -17.5
    /\ 216.65 <= AtmosphereResponse.temperature r.
Proof.
  assert (E : exists r,
             get_atmosphere AtmosphereSamples.float_pow AtmosphereSamples.np_exp
                            Samples.numpy 5000 0 0 = Returns r
             /\ AtmosphereResponse.temperature r == 255.65
             /\ AtmosphereResponse.temperature_celsius r == -17.5)
    by (vm_compute; eexists; repeat split).
  destruct E as (r & Hr & Ht & Hc). exists r.
  split; [exact Hr |]. split; [exact Ht |]. split; [exact Hc |].
  apply (atmosphere_temperature_profile AtmosphereSamples.float_pow
           AtmosphereSamples.np_exp Samples.numpy 5000 0 0 r Hr).
Defined.

(** X6 at sea level: gravity is 9.81. *)
Lemma atmosphere_gravity_law_witness :
  exists r,
    get_atmosphere AtmosphereSamples.float_pow AtmosphereSamples.np_exp Samples.numpy
                   0 0 0 = Returns r
    /\ AtmosphereResponse.gravity r == 9.81
    /\ 0 < AtmosphereResponse.gravity r.
Proof.
  assert (E : exists r,
             get_atmosphere AtmosphereSamples.float_pow AtmosphereSamples.np_exp
                            Samples.numpy 0 0 0 = Returns r
             /\ AtmosphereResponse.gravity r == 9.81)
    by (vm_compute; eexists; repeat split).
  destruct E as (r & Hr & Hg). exists r.
  split; [exact Hr |]. split; [exact Hg |].
  apply (atmosphere_gravity_law AtmosphereSamples.float_pow
           AtmosphereSamples.np_exp Samples.numpy 0 0 0 r Hr).
  unfold in_float_range. vm_compute. reflexivity.
Defined.

(** X7 at the one altitude where the endpoint fails, and at 20 km. *)
Lemma atmosphere_answers_but_at_earth_centre_witness :
  get_atmosphere AtmosphereSamples.float_pow AtmosphereSamples.np_exp Samples.numpy
                 (-6371000) 0 0
  = Raises (ZeroDivisionError "float division by zero")
  /\ exists r,
       get_atmosphere AtmosphereSamples.float_pow AtmosphereSamples.np_exp Samples.numpy
                      20000 0 0 = Returns r.
Proof.
  split.
  - apply (atmosphere_answers_but_at_earth_centre AtmosphereSamples.float_pow
             AtmosphereSamples.np_exp Samples.numpy (-6371000) 0 0 _ eq_refl).
    reflexivity.
  - destruct (atmosphere_answers_but_at_earth_centre AtmosphereSamples.float_pow
                AtmosphereSamples.np_exp Samples.numpy 20000 0 0 _ eq_refl)
      as [_ H].
    destruct H as (r & Hr & _); [discriminate |].
    exists r. exact Hr.
Defined.

(* ================================================================== *)
(** * More on the stability endpoint *)
(* ================================================================== *)

(** The normal-force slope of the fins is not negative when the fin
    count is not. *)
Lemma fin_cn_not_negative (rocket : RocketConfig.t) (fin_cn : Q) :
  fin_count_not_negative rocket ->
  match RocketConfig.fins rocket with
  | Some fins =>
      ratio <- Py.div (FinConfig.span fins) (2 * RocketConfig.radius rocket) ;;
      ratio_squared <- Py.pow ratio 2 ;;
      four_n <- Py.float_of_int (4 * FinConfig.n fins) ;;
      Returns (four_n * ratio_squared)
  | None => Returns 4
  end = Returns fin_cn ->
  0 <= fin_cn.
Proof.
  intros Hn H. destruct (RocketConfig.fins rocket) as [fins |] eqn:Ef.
  - bind_inv H ratio Hratio.
    bind_inv H ratio_squared Hsq. apply pow_Returns in Hsq. subst ratio_squared.
    bind_inv H four_n Hfour. apply float_of_int_Returns in Hfour.
    destruct Hfour as [-> _].
    assert (E : fin_cn = inject_Z (4 * FinConfig.n fins) * ratio ^ 2) by congruence.
    rewrite E. clear E H.
    assert (Hcount : 0 <= inject_Z (4 * FinConfig.n fins)).
    { change 0 with (inject_Z 0). rewrite <- Zle_Qle.
      pose proof (Hn fins Ef). lia. }
    assert (Hsq : ratio ^ 2 == ratio * ratio) by (simpl; reflexivity).
    rewrite Hsq. nra.
  - injection H as <-. lra.
Qed.

(** What an answer of the endpoint is made of. *)
Lemma calculate_stability_inv (rocket : RocketConfig.t) (resp : StabilityResponse.t) :
  calculate_stability rocket = Returns resp ->
  exists fin_cn,
    match RocketConfig.fins rocket with
    | Some fins =>
        ratio <- Py.div (FinConfig.span fins) (2 * RocketConfig.radius rocket) ;;
        ratio_squared <- Py.pow ratio 2 ;;
        four_n <- Py.float_of_int (4 * FinConfig.n fins) ;;
        Returns (four_n * ratio_squared)
    | None => Returns 4
    end = Returns fin_cn
    /\ Py.div (2 * nose_cp_of rocket + fin_cn * fin_cp_of rocket) (2 + fin_cn)
       = Returns (StabilityResponse.cp_position resp)
    /\ StabilityResponse.cg_position resp = RocketConfig.center_of_mass rocket
    /\ Py.div (StabilityResponse.cp_position resp - RocketConfig.center_of_mass rocket)
              (2 * RocketConfig.radius rocket)
       = Returns (StabilityResponse.stability_margin resp).
Proof.
  unfold calculate_stability, nose_cp_of, fin_cp_of. intros H.
  destruct (RocketConfig.fins rocket) as [fins |];
    bind_inv H fin_cn Hcn; bind_inv H cp Hcp; bind_inv H margin Hm;
    injection H as <-; exists fin_cn; cbn;
    (split; [exact Hcn |]); (split; [exact Hcp |]); (split; [reflexivity | exact Hm]).
Qed.

(** X8.  The endpoint divides by the body diameter and squares the
    span over it: for a radius of 0 it raises [ZeroDivisionError]; for
    any other radius it answers when the fin count is not negative and
    the fin terms are in the float range, echoing the configured centre
    of mass as [cg_position] and reporting a margin that is the
    CP-to-CG distance in body diameters; and it raises [OverflowError]
    when the square of a representable span-to-diameter ratio is out
    of range, or when that square is in range and [4 * n] is not. *)
Theorem stability_answers_unless_zero_radius (rocket : RocketConfig.t) :
  (RocketConfig.radius rocket == 0 ->
   calculate_stability rocket = Raises (ZeroDivisionError "float division by zero"))
  /\ (~ RocketConfig.radius rocket == 0 ->
      fin_count_not_negative rocket -> fins_in_float_range rocket ->
      exists resp,
        calculate_stability rocket = Returns resp
        /\ StabilityResponse.cg_position resp = RocketConfig.center_of_mass rocket
        /\ StabilityResponse.stability_margin resp * (2 * RocketConfig.radius rocket)
           == StabilityResponse.cp_position resp - StabilityResponse.cg_position resp)
  /\ (forall fins,
        ~ RocketConfig.radius rocket == 0 ->
        RocketConfig.fins rocket = Some fins ->
        let ratio := FinConfig.span fins / (2 * RocketConfig.radius rocket) in
        (in_float_range ratio -> ~ in_float_range (ratio ^ 2) ->
         calculate_stability rocket
         = Raises (OverflowError "(34, 'Numerical result out of range')"))
        /\ (in_float_range (ratio ^ 2) ->
            ~ in_float_range (inject_Z (4 * FinConfig.n fins)) ->
            calculate_stability rocket
            = Raises (OverflowError "int too large to convert to float"))).
Proof.
  split; [| split].
  - intros Hz. unfold calculate_stability.
    assert (Hd : 2 * RocketConfig.radius rocket == 0) by (rewrite Hz; reflexivity).
    destruct (RocketConfig.fins rocket) as [fins |].
    + rewrite (div_zero _ _ Hd). reflexivity.
    + cbn [Py.bind].
      rewrite div_nonzero by discriminate. cbn [Py.bind].
      rewrite (div_zero _ _ Hd). reflexivity.
  - intros Hr Hn Hrange.
    assert (Hd : ~ 2 * RocketConfig.radius rocket == 0) by (intros Hz; apply Hr; lra).
    unfold calculate_stability.
    assert (Hcn : exists fin_cn,
               match RocketConfig.fins rocket with
               | Some fins =>
                   ratio <- Py.div (FinConfig.span fins) (2 * RocketConfig.radius rocket) ;;
                   ratio_squared <- Py.pow ratio 2 ;;
                   four_n <- Py.float_of_int (4 * FinConfig.n fins) ;;
                   Returns (four_n * ratio_squared)
               | None => Returns 4
               end = Returns fin_cn).
    { destruct (RocketConfig.fins rocket) as [fins |] eqn:Ef.
      - destruct (Hrange fins Ef) as [Hsq Hfour].
        rewrite (div_nonzero _ _ Hd). cbn [Py.bind].
        rewrite (pow_in_range _ _ Hsq). cbn [Py.bind].
        assert (Hconv : Py.float_of_int (4 * FinConfig.n fins)
                        = Returns (inject_Z (4 * FinConfig.n fins)))
          by (apply float_of_int_Returns; split; [reflexivity | exact Hfour]).
        rewrite Hconv. eexists. reflexivity.
      - eexists. reflexivity. }
    destruct Hcn as [fin_cn Hcn].
    pose proof (fin_cn_not_negative rocket fin_cn Hn Hcn) as Hpos.
    destruct (RocketConfig.fins rocket) as [fins |];
      rewrite Hcn; cbn [Py.bind];
      (rewrite div_nonzero by (intros Hz; lra)); cbn [Py.bind];
      rewrite (div_nonzero _ _ Hd); cbn [Py.bind];
      eexists; (split; [reflexivity |]); (split; [reflexivity |]); cbn;
      field; (split; [intros Hz; lra | exact Hr]).
  - intros fins Hr Ef. cbv zeta.
    assert (Hd : ~ 2 * RocketConfig.radius rocket == 0) by (intros Hz; apply Hr; lra).
    unfold calculate_stability. rewrite Ef.
    rewrite (div_nonzero _ _ Hd). cbn [Py.bind]. split.
    + intros Hratio Hsq.
      rewrite pow_out_of_range; [reflexivity | exact Hratio |].
      apply Qnot_lt_le. exact Hsq.
    + intros Hsq Hfour.
      rewrite (pow_in_range _ _ Hsq). cbn [Py.bind].
      unfold Py.float_of_int.
      assert (Hconv : Qle_bool Py.float_overflow (Qabs (inject_Z (4 * FinConfig.n fins)))
                      = true)
        by (apply Qle_bool_iff; apply Qnot_lt_le; exact Hfour).
      rewrite Hconv. reflexivity.
Qed.

(** X8 on the default fins around a body of radius 1e-200 m: the
    ratio 3e198 is a float, its square is not. *)
Lemma stability_answers_unless_zero_radius_witness :
  calculate_stability needle_rocket
  = Raises (OverflowError "(34, 'Numerical result out of range')").
Proof.
  destruct (stability_answers_unless_zero_radius needle_rocket) as (_ & _ & Hover).
  apply (Hover FinConfig.default).
  - discriminate.
  - reflexivity.
  - unfold in_float_range. vm_compute. reflexivity.
  - unfold in_float_range. vm_compute. discriminate.
Defined.

(** X9.  The centre of pressure the endpoint reports is a weighted
    average with non-negative weights: it lies between the nose's
    centre of pressure and the fins', whichever of the two is further
    aft. *)
Theorem stability_cp_between_nose_and_fins
        (rocket : RocketConfig.t) (resp : StabilityResponse.t) :
  calculate_stability rocket = Returns resp ->
  fin_count_not_negative rocket ->
  (nose_cp_of rocket <= fin_cp_of rocket ->
   nose_cp_of rocket <= StabilityResponse.cp_position resp
   /\ StabilityResponse.cp_position resp <= fin_cp_of rocket)
  /\ (fin_cp_of rocket <= nose_cp_of rocket ->
      fin_cp_of rocket <= StabilityResponse.cp_position resp
      /\ StabilityResponse.cp_position resp <= nose_cp_of rocket).
Proof.
  intros H Hn. apply calculate_stability_inv in H.
  destruct H as (fin_cn & Hcn & Hcp & _ & _).
  pose proof (fin_cn_not_negative rocket fin_cn Hn Hcn) as Hpos.
  apply div_Returns in Hcp. destruct Hcp as [Hnz Hcp].
  set (a := nose_cp_of rocket) in *. set (b := fin_cp_of rocket) in *.
  assert (E : StabilityResponse.cp_position resp * (2 + fin_cn) == 2 * a + fin_cn * b)
    by (rewrite Hcp; field; exact Hnz).
  set (cp := StabilityResponse.cp_position resp) in *. clearbody cp a b.
  split; intros Hab; split; nra.
Qed.

(** X10.  Moving the centre of mass towards the nose never lowers the
    margin: for a positive radius, the same rocket with a smaller
    [center_of_mass] gets the same centre of pressure and a margin at
    least as large. *)
Theorem stability_margin_grows_as_cg_moves_forward
        (rocket : RocketConfig.t) (cg : Q) (resp resp' : StabilityResponse.t) :
  0 < RocketConfig.radius rocket ->
  cg <= RocketConfig.center_of_mass rocket ->
  calculate_stability rocket = Returns resp ->
  calculate_stability (with_center_of_mass cg rocket) = Returns resp' ->
  StabilityResponse.cp_position resp' = StabilityResponse.cp_position resp
  /\ StabilityResponse.stability_margin resp <= StabilityResponse.stability_margin resp'.
Proof.
  intros Hr Hcg H H'.
  apply calculate_stability_inv in H. apply calculate_stability_inv in H'.
  destruct H as (fin_cn & Hcn & Hcp & _ & Hm).
  destruct H' as (fin_cn' & Hcn' & Hcp' & _ & Hm').
  change (RocketConfig.fins (with_center_of_mass cg rocket))
    with (RocketConfig.fins rocket) in Hcn'.
  change (RocketConfig.radius (with_center_of_mass cg rocket))
    with (RocketConfig.radius rocket) in Hcn', Hm'.
  change (nose_cp_of (with_center_of_mass cg rocket)) with (nose_cp_of rocket) in Hcp'.
  change (fin_cp_of (with_center_of_mass cg rocket)) with (fin_cp_of rocket) in Hcp'.
  change (RocketConfig.center_of_mass (with_center_of_mass cg rocket)) with cg in Hm'.
  rewrite Hcn in Hcn'. injection Hcn' as <-.
  rewrite Hcp in Hcp'. injection Hcp' as Hsame.
  split; [symmetry; exact Hsame |].
  rewrite <- Hsame in Hm'.
  apply div_Returns in Hm. apply div_Returns in Hm'.
  destruct Hm as [Hd ->]. destruct Hm' as [_ ->].
  apply Qle_shift_div_l; [lra |].
  assert (E : (StabilityResponse.cp_position resp - RocketConfig.center_of_mass rocket)
              / (2 * RocketConfig.radius rocket) * (2 * RocketConfig.radius rocket)
              == StabilityResponse.cp_position resp - RocketConfig.center_of_mass rocket)
    by (field; intros Hz; lra).
  rewrite E. lra.
Qed.

(** X11.  The flag and the advice never contradict each other: [stable]
    is false exactly when the recommendation is the "Unstable" one, and
    the recommendation "Stable" comes with [stable = true] only. *)
Theorem stable_flag_agrees_with_recommendation
        (rocket : RocketConfig.t) (resp : StabilityResponse.t) :
  calculate_stability rocket = Returns resp ->
  (StabilityResponse.stable resp = false
   <-> StabilityResponse.recommendation resp
       = "Unstable - add weight to nose or move fins aft")
  /\ (StabilityResponse.recommendation resp = "Stable" ->
      StabilityResponse.stable resp = true).
Proof.
  intros H. apply calculate_stability_fields in H. destruct H as [Hst Hrec].
  rewrite Hst, Hrec. clear Hst Hrec.
  destruct (Qltb 1.5 (StabilityResponse.stability_margin resp)) eqn:Ehi;
    destruct (Qltb 1.0 (StabilityResponse.stability_margin resp)) eqn:Elo;
    try (split; [split |]; intros; try reflexivity; discriminate).
  apply Qltb_true in Ehi. apply Qltb_false in Elo. lra.
Qed.

(** X9 on the wide sample rocket: nose CP 0 m, fin CP 3 m, reported
    CP 2 m. *)
Lemma stability_cp_between_nose_and_fins_witness :
  exists resp,
    calculate_stability (Samples.wide_rocket 0.5) = Returns resp
    /\ StabilityResponse.cp_position resp == 2
    /\ nose_cp_of (Samples.wide_rocket 0.5) <= StabilityResponse.cp_position resp
    /\ StabilityResponse.cp_position resp <= fin_cp_of (Samples.wide_rocket 0.5).
Proof.
  eexists. split; [reflexivity |]. split; [reflexivity |].
  apply (stability_cp_between_nose_and_fins (Samples.wide_rocket 0.5) _ eq_refl).
  - intros fins [= <-]. simpl. lia.
  - vm_compute. discriminate.
Defined.

(** X10 on the wide sample rocket: moving the centre of mass from
    1 m to 0.5 m raises the margin from 1.0 to 1.5 calibers. *)
Lemma stability_margin_grows_as_cg_moves_forward_witness :
  exists resp resp',
    calculate_stability (Samples.wide_rocket 1) = Returns resp
    /\ calculate_stability (with_center_of_mass 0.5 (Samples.wide_rocket 1)) = Returns resp'
    /\ StabilityResponse.stability_margin resp == 1
    /\ StabilityResponse.stability_margin resp' == 1.5
    /\ StabilityResponse.cp_position resp' = StabilityResponse.cp_position resp
    /\ StabilityResponse.stability_margin resp <= StabilityResponse.stability_margin resp'.
Proof.
  eexists. eexists. split; [reflexivity |]. split; [reflexivity |].
  split; [reflexivity |]. split; [reflexivity |].
  apply (stability_margin_grows_as_cg_moves_forward (Samples.wide_rocket 1) 0.5 _ _);
    [vm_compute; reflexivity | vm_compute; discriminate | reflexivity | reflexivity].
Defined.

(** X11 on the default rocket, whose margin is negative. *)
Lemma stable_flag_agrees_with_recommendation_witness :
  exists resp,
    calculate_stability Samples.rocket = Returns resp
    /\ StabilityResponse.stability_margin resp < 0
    /\ (StabilityResponse.stable resp = false
        <-> StabilityResponse.recommendation resp
            = "Unstable - add weight to nose or move fins aft")
    /\ StabilityResponse.stable resp = false.
Proof.
  eexists. split; [reflexivity |]. split; [vm_compute; reflexivity |].
  split; [| reflexivity].
  apply (stable_flag_agrees_with_recommendation Samples.rocket _ eq_refl).
Defined.

(* ================================================================== *)
(** * More on the mock integrator *)
(* ================================================================== *)

Section MockInvariants.

Variable request : SimulationRequest.t.
Variables mass thrust burn_time g dt apogee_time : Q.

(** A property that holds when the loop starts and that every pass
    which appends a point preserves holds when the loop ends. *)
Lemma mock_loop_invariant (P : Q -> list TrajectoryPoint.t -> Prop) :
  (forall t trajectory p,
      P t trajectory ->
      t < apogee_time * 2.5 ->
      mock_step request mass thrust burn_time g dt t trajectory = Returns (Some p) ->
      P (t + dt) (trajectory ++ [p])) ->
  forall fuel t trajectory t' trajectory',
    P t trajectory ->
    mock_loop fuel request mass thrust burn_time g dt apogee_time t trajectory
    = Returns (t', trajectory') ->
    P t' trajectory'.
Proof.
  intros Hstep. induction fuel as [| fuel IH]; intros t trajectory t' trajectory' HP H.
  - discriminate.
  - cbn [mock_loop] in H.
    destruct (Qltb t (apogee_time * 2.5)) eqn:Hlt.
    + apply Qltb_true in Hlt. bind_inv H step Hs. destruct step as [p |].
      * exact (IH _ _ _ _ (Hstep _ _ _ HP Hlt Hs) H).
      * injection H as <- <-. exact HP.
    + injection H as <- <-. exact HP.
Qed.

(** The point a pass appends, field by field. *)
Lemma mock_step_point (t : Q) (trajectory : list TrajectoryPoint.t) (p : TrajectoryPoint.t) :
  mock_step request mass thrust burn_time g dt t trajectory = Returns (Some p) ->
  TrajectoryPoint.time p = t
  /\ vertical_sample p
  /\ (burn_time <= t -> TrajectoryPoint.az p = - g)
  /\ (t < burn_time ->
      ~ burn_time == 0
      /\ TrajectoryPoint.az p
         = thrust / (mass - MotorConfig.propellant_mass
                              (RocketConfig.motor (SimulationRequest.rocket request))
                            * t / burn_time) - g)
  /\ (Qeq_bool t 0 = true -> TrajectoryPoint.vz p = 0 /\ TrajectoryPoint.z p = 0)
  /\ (Qeq_bool t 0 = false ->
      exists prev,
        Py.last_item trajectory = Returns prev
        /\ TrajectoryPoint.vz p = TrajectoryPoint.vz prev + TrajectoryPoint.az p * dt
        /\ TrajectoryPoint.z p
           = Py.max0 (TrajectoryPoint.z prev + TrajectoryPoint.vz p * dt)).
Proof.
  unfold mock_step. intros H.
  bind_inv H a Ha. bind_inv H vz Hvz. destruct vz as [v z].
  destruct (Qltb z 0 && Qltb burn_time t); [discriminate |].
  bind_inv H v_squared Hsq. apply pow_Returns in Hsq. subst v_squared.
  injection H as <-. cbn.
  split; [reflexivity |]. split.
  { unfold vertical_sample. cbn. repeat split.
    unfold Py.max0. destruct (Qltb 0 z) eqn:E; [apply Qltb_true in E |]; lra. }
  split.
  { intros Hb. apply Qltb_false in Hb. rewrite Hb in Ha. injection Ha as <-. reflexivity. }
  split.
  { intros Hb. apply Qltb_true in Hb. rewrite Hb in Ha.
    bind_inv Ha burnt Hburnt. bind_inv Ha accel Haccel. injection Ha as <-.
    apply div_Returns in Hburnt. destruct Hburnt as [Hnz ->].
    apply div_Returns in Haccel. destruct Haccel as [_ ->].
    split; [exact Hnz | reflexivity]. }
  split.
  - intros Hz. rewrite Hz in Hvz. injection Hvz as <- <-. split; reflexivity.
  - intros Hz. rewrite Hz in Hvz. bind_inv Hvz prev Hprev.
    injection Hvz as <- <-. exists prev. repeat split. exact Hprev.
Qed.

End MockInvariants.

Lemma nth_error_snoc_cases {A : Type} (l : list A) (a b : A) (i : nat) :
  nth_error (l ++ [a]) i = Some b ->
  ((i < List.length l)%nat /\ nth_error l i = Some b) \/ (i = List.length l /\ b = a).
Proof.
  intros H. destruct (Nat.lt_ge_cases i (List.length l)) as [Hlt | Hge].
  - left. split; [exact Hlt |]. rewrite nth_error_app1 in H by exact Hlt. exact H.
  - right. rewrite nth_error_app2 in H by exact Hge.
    destruct (i - List.length l)%nat as [| k] eqn:E.
    + simpl in H. injection H as <-. split; [lia | reflexivity].
    + simpl in H. destruct k; discriminate.
Qed.

(** A returned mock result, with the loop it ran and its events. *)
Lemma create_mock_result_shape (fuel : nat) (request : SimulationRequest.t)
      (r : SimulationResult.t) :
  create_mock_result fuel request = Returns r ->
  let motor := RocketConfig.motor (SimulationRequest.rocket request) in
  exists t landing_vz,
    ~ mean_mass request == 0
    /\ ~ SimulationRequest.output_sampling_rate request == 0
    /\ mock_loop fuel request (ClosedForm.liftoff_mass request) (MotorConfig.avg_thrust motor)
                 (MotorConfig.burn_time motor) 9.81
                 (1.0 / SimulationRequest.output_sampling_rate request)
                 (SimulationResult.apogee_time r) 0 []
       = Returns (t, SimulationResult.trajectory r)
    /\ SimulationResult.flight_time r = t
    /\ match SimulationResult.trajectory r with
       | [] => Returns 0
       | _ :: _ => (p <- Py.last_item (SimulationResult.trajectory r) ;;
                    Returns (TrajectoryPoint.vz p))
       end = Returns landing_vz
    /\ SimulationResult.landing_velocity r = Qabs landing_vz
    /\ SimulationResult.events r = [
         liftoff_event;
         {| FlightEvent.name := "burnout"; FlightEvent.time := MotorConfig.burn_time motor;
            FlightEvent.altitude := None; FlightEvent.velocity := None |};
         {| FlightEvent.name := "apogee"; FlightEvent.time := SimulationResult.apogee_time r;
            FlightEvent.altitude := Some (SimulationResult.apogee r);
            FlightEvent.velocity := None |};
         {| FlightEvent.name := "landing"; FlightEvent.time := t;
            FlightEvent.altitude := None; FlightEvent.velocity := Some landing_vz |} ].
Proof.
  unfold create_mock_result, mean_mass, ClosedForm.liftoff_mass. intros H. cbv zeta.
  bind_inv H accel Haccel. apply div_Returns in Haccel. destruct Haccel as [Hmass ->].
  bind_inv H bt2 Hbt2. apply pow_Returns in Hbt2. subst bt2.
  bind_inv H ct2 Hct2. apply pow_Returns in Hct2. subst ct2.
  bind_inv H dt Hdt. apply div_Returns in Hdt. destruct Hdt as [Hrate ->].
  bind_inv H loop Hloop. destruct loop as [t trajectory].
  bind_inv H landing_vz Hvz. injection H as <-.
  exists t, landing_vz. cbn.
  repeat split; try reflexivity; assumption.
Qed.

Section MockResults.

Variable fuel : nat.
Variable request : SimulationRequest.t.
Variable r : SimulationResult.t.
Hypothesis returned : create_mock_result fuel request = Returns r.

(** X12.  The mock trajectory lies on the uniform grid of the output
    rate and inside the safety horizon: the i-th sample is at time
    [i / rate], every sample time is below 2.5 times the apogee time,
    and the reported flight time is the number of samples divided by
    the rate. *)
Theorem mock_samples_on_grid :
  (forall i p,
      nth_error (SimulationResult.trajectory r) i = Some p ->
      TrajectoryPoint.time p
      == inject_Z (Z.of_nat i) / SimulationRequest.output_sampling_rate request
      /\ TrajectoryPoint.time p < SimulationResult.apogee_time r * 2.5)
  /\ SimulationResult.flight_time r
     == inject_Z (Z.of_nat (List.length (SimulationResult.trajectory r)))
        / SimulationRequest.output_sampling_rate request.
Proof.
  pose proof (create_mock_result_shape fuel request r returned) as H. cbv zeta in H.
  destruct H as (t & landing_vz & _ & Hrate & Hloop & Hft & _).
  set (dt := 1.0 / SimulationRequest.output_sampling_rate request) in *.
  assert (Hgrid : forall k : nat,
             inject_Z (Z.of_nat k) * dt
             == inject_Z (Z.of_nat k) / SimulationRequest.output_sampling_rate request)
    by (intros k; unfold dt; field; exact Hrate).
  assert (Hinv : t == inject_Z (Z.of_nat (List.length (SimulationResult.trajectory r))) * dt
                 /\ forall i p,
                      nth_error (SimulationResult.trajectory r) i = Some p ->
                      TrajectoryPoint.time p == inject_Z (Z.of_nat i) * dt
                      /\ TrajectoryPoint.time p < SimulationResult.apogee_time r * 2.5).
  { eapply (mock_loop_invariant _ _ _ _ _ _ _
              (fun t trajectory =>
                 t == inject_Z (Z.of_nat (List.length trajectory)) * dt
                 /\ forall i p, nth_error trajectory i = Some p ->
                                TrajectoryPoint.time p == inject_Z (Z.of_nat i) * dt
                                /\ TrajectoryPoint.time p
                                   < SimulationResult.apogee_time r * 2.5));
      [| | exact Hloop].
    - intros t0 trajectory p [Ht Hall] Hlt Hstep.
      apply mock_step_time in Hstep. split.
      + rewrite length_app, Nat.add_1_r, Nat2Z.inj_succ. unfold Z.succ.
        rewrite inject_Z_plus. change (inject_Z 1) with 1. rewrite Ht. ring.
      + intros i q Hq. apply nth_error_snoc_cases in Hq.
        destruct Hq as [[_ Hq] | [-> ->]].
        * exact (Hall i q Hq).
        * rewrite Hstep. split; [exact Ht | exact Hlt].
    - split; [simpl; ring | intros [| i] p Hp; discriminate]. }
  destruct Hinv as [Ht Hall].
  split.
  - intros i p Hp. destruct (Hall i p Hp) as [Hi Hh].
    split; [rewrite Hi; apply Hgrid | exact Hh].
  - rewrite Hft, Ht. apply Hgrid.
Qed.

(** X13.  Every mock sample is a vertical-flight sample: it sits on the
    launch axis with pitch 90 and no horizontal speed or acceleration,
    its altitude is never negative, its Mach number is the vertical
    speed over 340 and its dynamic pressure [0.5 * 1.225 * vz ^ 2]. *)
Theorem mock_samples_are_vertical :
  Forall vertical_sample (SimulationResult.trajectory r).
Proof.
  pose proof (create_mock_result_shape fuel request r returned) as H. cbv zeta in H.
  destruct H as (t & landing_vz & _ & _ & Hloop & _).
  eapply (mock_loop_invariant _ _ _ _ _ _ _
            (fun _ trajectory => Forall vertical_sample trajectory));
    [| | exact Hloop].
  - intros t0 trajectory p Hall _ Hstep.
    apply mock_step_point in Hstep. destruct Hstep as (_ & Hv & _).
    apply Forall_app. split; [exact Hall |]. constructor; [exact Hv | constructor].
  - constructor.
Qed.

(** X14.  The vertical acceleration of a mock sample follows the burn:
    from the burn time on it is exactly [-9.81]; before, it is the
    thrust over the liftoff mass less the propellant burnt so far
    (linearly in time), minus 9.81. *)
Theorem mock_acceleration_law (p : TrajectoryPoint.t) :
  In p (SimulationResult.trajectory r) ->
  let motor := RocketConfig.motor (SimulationRequest.rocket request) in
  (MotorConfig.burn_time motor <= TrajectoryPoint.time p -> TrajectoryPoint.az p = - 9.81)
  /\ (TrajectoryPoint.time p < MotorConfig.burn_time motor ->
      TrajectoryPoint.az p
      = MotorConfig.avg_thrust motor
        / (ClosedForm.liftoff_mass request
           - MotorConfig.propellant_mass motor * TrajectoryPoint.time p
             / MotorConfig.burn_time motor)
        - 9.81).
Proof.
  intros Hin. cbv zeta.
  pose proof (create_mock_result_shape fuel request r returned) as H. cbv zeta in H.
  destruct H as (t & landing_vz & _ & _ & Hloop & _).
  revert p Hin. apply Forall_forall.
  eapply (mock_loop_invariant _ _ _ _ _ _ _
            (fun _ trajectory => Forall _ trajectory));
    [| | exact Hloop].
  - intros t0 trajectory p Hall _ Hstep.
    apply mock_step_point in Hstep. destruct Hstep as (Htime & _ & Hafter & Hburn & _).
    apply Forall_app. split; [exact Hall |]. constructor; [| constructor].
    rewrite Htime. split; [exact Hafter |]. intros Hlt. apply Hburn. exact Hlt.
  - constructor.
Qed.

Lemma last_item_nth {A : Type} (l : list A) (a : A) :
  Py.last_item l = Returns a -> nth_error l (List.length l - 1) = Some a.
Proof.
  destruct l as [| x l'] using rev_ind.
  - discriminate.
  - rewrite last_item_snoc. intros [= <-].
    rewrite length_app, Nat.add_1_r. simpl. rewrite Nat.sub_0_r.
    rewrite nth_error_app2 by lia. rewrite Nat.sub_diag. reflexivity.
Qed.

(** X15.  The mock integration is the explicit scheme on the previous
    sample: the first sample is at rest on the ground at time 0, and
    each later sample has [vz = previous vz + az * dt] and
    [z = max(0, previous z + vz * dt)] with [dt = 1 / rate]. *)
Theorem mock_integration_step :
  let dt := 1.0 / SimulationRequest.output_sampling_rate request in
  (forall p, nth_error (SimulationResult.trajectory r) 0 = Some p ->
             TrajectoryPoint.time p == 0
             /\ TrajectoryPoint.vz p = 0 /\ TrajectoryPoint.z p = 0)
  /\ (forall i p q,
         nth_error (SimulationResult.trajectory r) i = Some p ->
         nth_error (SimulationResult.trajectory r) (S i) = Some q ->
         TrajectoryPoint.vz q = TrajectoryPoint.vz p + TrajectoryPoint.az q * dt
         /\ TrajectoryPoint.z q
            = Py.max0 (TrajectoryPoint.z p + TrajectoryPoint.vz q * dt)).
Proof.
  cbv zeta.
  pose proof (create_mock_result_shape fuel request r returned) as H. cbv zeta in H.
  destruct H as (t & landing_vz & _ & Hrate & Hloop & _).
  set (dt := 1.0 / SimulationRequest.output_sampling_rate request) in *.
  assert (Hdt : ~ dt == 0).
  { intros Hz.
    assert (E : dt * SimulationRequest.output_sampling_rate request == 1)
      by (unfold dt; field; exact Hrate).
    rewrite Hz in E. revert E. clear.
    intros E. assert (H0 : 0 * SimulationRequest.output_sampling_rate request == 0) by ring.
    rewrite H0 in E. discriminate. }
  assert (Hinv :
            t == inject_Z (Z.of_nat (List.length (SimulationResult.trajectory r))) * dt
            /\ (forall p, nth_error (SimulationResult.trajectory r) 0 = Some p ->
                          TrajectoryPoint.time p == 0
                          /\ TrajectoryPoint.vz p = 0 /\ TrajectoryPoint.z p = 0)
            /\ (forall i p q,
                   nth_error (SimulationResult.trajectory r) i = Some p ->
                   nth_error (SimulationResult.trajectory r) (S i) = Some q ->
                   TrajectoryPoint.vz q = TrajectoryPoint.vz p + TrajectoryPoint.az q * dt
                   /\ TrajectoryPoint.z q
                      = Py.max0 (TrajectoryPoint.z p + TrajectoryPoint.vz q * dt))).
  { eapply (mock_loop_invariant _ _ _ _ _ _ _
              (fun t trajectory =>
                 t == inject_Z (Z.of_nat (List.length trajectory)) * dt
                 /\ (forall p, nth_error trajectory 0 = Some p ->
                               TrajectoryPoint.time p == 0
                               /\ TrajectoryPoint.vz p = 0 /\ TrajectoryPoint.z p = 0)
                 /\ (forall i p q,
                        nth_error trajectory i = Some p ->
                        nth_error trajectory (S i) = Some q ->
                        TrajectoryPoint.vz q
                        = TrajectoryPoint.vz p + TrajectoryPoint.az q * dt
                        /\ TrajectoryPoint.z q
                           = Py.max0 (TrajectoryPoint.z p + TrajectoryPoint.vz q * dt))));
      [| | exact Hloop].
    - intros t0 trajectory p (Ht & Hfirst & Hnext) _ Hstep.
      apply mock_step_point in Hstep.
      destruct Hstep as (Htime & _ & _ & _ & Hzero & Hprev).
      split; [| split].
      + rewrite length_app, Nat.add_1_r, Nat2Z.inj_succ. unfold Z.succ.
        rewrite inject_Z_plus. change (inject_Z 1) with 1. rewrite Ht. ring.
      + intros p0 Hp0. apply nth_error_snoc_cases in Hp0.
        destruct Hp0 as [[_ Hp0] | [Hlen ->]]; [exact (Hfirst p0 Hp0) |].
        rewrite <- Hlen in Ht. simpl in Ht.
        assert (Ht0 : t0 == 0) by (rewrite Ht; ring).
        destruct (Hzero ltac:(apply Qeq_bool_iff; exact Ht0)) as [Hv Hz].
        rewrite Htime. repeat split; assumption.
      + intros i a b Ha Hb. apply nth_error_snoc_cases in Hb.
        destruct Hb as [[Hlt Hb] | [Hlen ->]].
        * rewrite nth_error_app1 in Ha by lia. exact (Hnext i a b Ha Hb).
        * rewrite nth_error_app1 in Ha by lia.
          assert (Hne : Qeq_bool t0 0 = false).
          { destruct (Qeq_bool t0 0) eqn:E; [| reflexivity].
            apply Qeq_bool_iff in E. rewrite Ht, <- Hlen in E.
            assert (Hk : 1 <= inject_Z (Z.of_nat (S i)))
              by (change 1 with (inject_Z 1); rewrite <- Zle_Qle; lia).
            exfalso. destruct (Q_dec dt 0) as [[Hneg | Hpos] | Hz0];
              [nra | nra | contradiction]. }
          destruct (Hprev Hne) as (prev & Hlast & Hv & Hz).
          apply last_item_nth in Hlast. rewrite <- Hlen in Hlast.
          simpl in Hlast. rewrite Nat.sub_0_r in Hlast.
          rewrite Ha in Hlast. injection Hlast as ->.
          split; assumption.
    - split; [simpl; ring |]. split.
      + intros p Hp. discriminate.
      + intros i p q Hp. destruct i; discriminate. }
  destruct Hinv as (_ & Hfirst & Hnext). split; assumption.
Qed.

(** X16.  The four events of a mock result agree with its summary:
    liftoff, burnout at the burn time, apogee at the reported apogee
    time and altitude, landing at the reported flight time with the
    vertical speed of the last sample (0 without samples); and
    [landing_velocity] is the absolute value of that speed. *)
Theorem mock_events_agree_with_summary :
  exists v,
    SimulationResult.events r = [
      liftoff_event;
      {| FlightEvent.name := "burnout";
         FlightEvent.time :=
           MotorConfig.burn_time (RocketConfig.motor (SimulationRequest.rocket request));
         FlightEvent.altitude := None; FlightEvent.velocity := None |};
      {| FlightEvent.name := "apogee"; FlightEvent.time := SimulationResult.apogee_time r;
         FlightEvent.altitude := Some (SimulationResult.apogee r);
         FlightEvent.velocity := None |};
      {| FlightEvent.name := "landing"; FlightEvent.time := SimulationResult.flight_time r;
         FlightEvent.altitude := None; FlightEvent.velocity := Some v |} ]
    /\ SimulationResult.landing_velocity r = Qabs v
    /\ 0 <= SimulationResult.landing_velocity r
    /\ (SimulationResult.trajectory r = [] -> v = 0)
    /\ (forall p, Py.last_item (SimulationResult.trajectory r) = Returns p ->
                  v = TrajectoryPoint.vz p).
Proof.
  pose proof (create_mock_result_shape fuel request r returned) as H. cbv zeta in H.
  destruct H as (t & v & _ & _ & _ & Hft & Hv & Hlv & Hev).
  exists v. rewrite Hft. split; [exact Hev |]. split; [exact Hlv |].
  split; [rewrite Hlv; apply Qabs_nonneg |]. split.
  - intros Hnil. rewrite Hnil in Hv. injection Hv as <-. reflexivity.
  - intros p Hp. destruct (SimulationResult.trajectory r) as [| p0 rest].
    + discriminate.
    + rewrite Hp in Hv. injection Hv as <-. reflexivity.
Qed.

End MockResults.

(** The default request at 1 Hz: the mock flight has 18 samples. *)
Lemma sample_mock_run :
  exists r,
    create_mock_result 40 (Samples.with_rate 1 Samples.request) = Returns r
    /\ List.length (SimulationResult.trajectory r) = 18%nat.
Proof.
  vm_compute. eexists. split; reflexivity.
Qed.

(** X12 on that run: 18 samples at 0 s, 1 s, ..., 17 s and a flight
    time of 18 s. *)
Lemma mock_samples_on_grid_witness :
  exists r,
    create_mock_result 40 (Samples.with_rate 1 Samples.request) = Returns r
    /\ List.length (SimulationResult.trajectory r) = 18%nat
    /\ SimulationResult.flight_time r == 18
    /\ forall i p,
         nth_error (SimulationResult.trajectory r) i = Some p ->
         TrajectoryPoint.time p == inject_Z (Z.of_nat i)
         /\ TrajectoryPoint.time p < SimulationResult.apogee_time r * 2.5.
Proof.
  destruct sample_mock_run as (r & Hr & Hlen). exists r.
  destruct (mock_samples_on_grid 40 (Samples.with_rate 1 Samples.request) r Hr)
    as [Hgrid Hft].
  split; [exact Hr |]. split; [exact Hlen |]. split.
  - rewrite Hft, Hlen. reflexivity.
  - intros i p Hp. destruct (Hgrid i p Hp) as [Ht Hh]. split; [| exact Hh].
    rewrite Ht. simpl SimulationRequest.output_sampling_rate. field.
Defined.

(** X13 on that run. *)
Lemma mock_samples_are_vertical_witness :
  exists r,
    create_mock_result 40 (Samples.with_rate 1 Samples.request) = Returns r
    /\ SimulationResult.trajectory r <> []
    /\ Forall vertical_sample (SimulationResult.trajectory r).
Proof.
  destruct sample_mock_run as (r & Hr & Hlen). exists r.
  split; [exact Hr |]. split.
  - intros Hnil. rewrite Hnil in Hlen. discriminate.
  - exact (mock_samples_are_vertical 40 (Samples.with_rate 1 Samples.request) r Hr).
Defined.

(** X14 on that run: the sample at 2 s, after the burn of 1.5 s. *)
Lemma mock_acceleration_law_witness :
  exists r p,
    create_mock_result 40 (Samples.with_rate 1 Samples.request) = Returns r
    /\ nth_error (SimulationResult.trajectory r) 2 = Some p
    /\ TrajectoryPoint.time p == 2
    /\ TrajectoryPoint.az p = - 9.81.
Proof.
  assert (E : exists r p,
             create_mock_result 40 (Samples.with_rate 1 Samples.request) = Returns r
             /\ nth_error (SimulationResult.trajectory r) 2 = Some p
             /\ TrajectoryPoint.time p == 2)
    by (vm_compute; eexists; eexists; repeat split).
  destruct E as (r & p & Hr & Hp & Ht). exists r, p.
  split; [exact Hr |]. split; [exact Hp |]. split; [exact Ht |].
  apply (mock_acceleration_law 40 (Samples.with_rate 1 Samples.request) r Hr p).
  - eapply nth_error_In. exact Hp.
  - rewrite Ht. vm_compute. discriminate.
Defined.

(** X15 on that run: the first sample is at rest on the ground. *)
Lemma mock_integration_step_witness :
  exists r p,
    create_mock_result 40 (Samples.with_rate 1 Samples.request) = Returns r
    /\ nth_error (SimulationResult.trajectory r) 0 = Some p
    /\ TrajectoryPoint.time p == 0
    /\ TrajectoryPoint.vz p = 0 /\ TrajectoryPoint.z p = 0.
Proof.
  assert (E : exists r p,
             create_mock_result 40 (Samples.with_rate 1 Samples.request) = Returns r
             /\ nth_error (SimulationResult.trajectory r) 0 = Some p)
    by (vm_compute; eexists; eexists; repeat split).
  destruct E as (r & p & Hr & Hp). exists r, p.
  split; [exact Hr |]. split; [exact Hp |].
  destruct (mock_integration_step 40 (Samples.with_rate 1 Samples.request) r Hr)
    as [Hfirst _].
  exact (Hfirst p Hp).
Defined.

(** X16 on that run: the landing event is at 18 s. *)
Lemma mock_events_agree_with_summary_witness :
  exists r v,
    create_mock_result 40 (Samples.with_rate 1 Samples.request) = Returns r
    /\ SimulationResult.flight_time r == 18
    /\ nth_error (SimulationResult.events r) 3
       = Some {| FlightEvent.name := "landing";
                 FlightEvent.time := SimulationResult.flight_time r;
                 FlightEvent.altitude := None; FlightEvent.velocity := Some v |}
    /\ SimulationResult.landing_velocity r = Qabs v.
Proof.
  assert (E : exists r,
             create_mock_result 40 (Samples.with_rate 1 Samples.request) = Returns r
             /\ SimulationResult.flight_time r == 18)
    by (vm_compute; eexists; repeat split).
  destruct E as (r & Hr & Hft).
  destruct (mock_events_agree_with_summary 40 (Samples.with_rate 1 Samples.request) r Hr)
    as (v & Hev & Hlv & _).
  exists r, v. split; [exact Hr |]. split; [exact Hft |].
  split; [rewrite Hev; reflexivity | exact Hlv].
Defined.

Lemma mock_loop_same_inputs (r1 r2 : SimulationRequest.t)
      (mass thrust burn_time g dt apogee_time : Q) (fuel : nat) :
  MotorConfig.propellant_mass (RocketConfig.motor (SimulationRequest.rocket r1))
  = MotorConfig.propellant_mass (RocketConfig.motor (SimulationRequest.rocket r2)) ->
  forall t trajectory,
    mock_loop fuel r1 mass thrust burn_time g dt apogee_time t trajectory
    = mock_loop fuel r2 mass thrust burn_time g dt apogee_time t trajectory.
Proof.
  intros Hprop. induction fuel as [| fuel IH]; intros t trajectory; cbn [mock_loop].
  - reflexivity.
  - destruct (Qltb t (apogee_time * 2.5)); [| reflexivity].
    assert (Hstep : mock_step r1 mass thrust burn_time g dt t trajectory
                    = mock_step r2 mass thrust burn_time g dt t trajectory)
      by (unfold mock_step; rewrite Hprop; reflexivity).
    rewrite Hstep.
    destruct (mock_step r2 mass thrust burn_time g dt t trajectory) as [[p |] | e |];
      cbn [Py.bind]; try reflexivity.
    apply IH.
Qed.

(** X17.  The mock estimate reads six numbers only: the rocket mass,
    the motor's average thrust, burn time, propellant mass and dry
    mass, and the output rate.  Requests that agree on them get the
    same outcome, whatever their environment (wind included), flight
    parameters, nose, fins and parachutes. *)
Theorem mock_result_reads_six_inputs (fuel : nat) (r1 r2 : SimulationRequest.t) :
  same_mock_inputs r1 r2 ->
  create_mock_result fuel r1 = create_mock_result fuel r2.
Proof.
  unfold same_mock_inputs. cbv zeta. intros (Hm & Ht & Hb & Hp & Hd & Hr).
  unfold create_mock_result.
  rewrite Hm, Ht, Hb, Hp, Hd, Hr.
  destruct (Py.div _ _) as [accel | e |]; cbn [Py.bind]; try reflexivity.
  destruct (Py.div _ _) as [dt | e |]; cbn [Py.bind]; try reflexivity.
  rewrite (mock_loop_same_inputs r1 r2 _ _ _ _ _ _ fuel Hp).
  reflexivity.
Qed.

(** X17 on the default request: a wind of 30 m/s and a rail at 45
    degrees change nothing. *)
Lemma mock_result_reads_six_inputs_witness :
  create_mock_result 40 (launch_in_wind 30 45 1 Samples.request)
  = create_mock_result 40 (Samples.with_rate 1 Samples.request).
Proof.
  apply (mock_result_reads_six_inputs 40 (launch_in_wind 30 45 1 Samples.request)
           (Samples.with_rate 1 Samples.request)).
  repeat split.
Defined.



(** X19.  The apogee of the mock estimate has the sign of the thrust
    surplus: for a positive thrust and a positive mean mass, the
    reported apogee is not negative when the thrust is at least the
    mean weight [mean_mass * 9.81], and not positive when the thrust
    is at most that weight; and the apogee time is
    [burn_time * avg_thrust / (mean_mass * 9.81)]. *)
Theorem mock_apogee_sign_follows_thrust
        (fuel : nat) (request : SimulationRequest.t) (r : SimulationResult.t) :
  create_mock_result fuel request = Returns r ->
  let motor := RocketConfig.motor (SimulationRequest.rocket request) in
  0 < MotorConfig.avg_thrust motor ->
  0 < mean_mass request ->
  (mean_mass request * 9.81 <= MotorConfig.avg_thrust motor -> 0 <= SimulationResult.apogee r)
  /\ (MotorConfig.avg_thrust motor <= mean_mass request * 9.81 ->
      SimulationResult.apogee r <= 0)
  /\ SimulationResult.apogee_time r
     == MotorConfig.burn_time motor * MotorConfig.avg_thrust motor
        / (mean_mass request * 9.81).
Proof.
  intros H. cbv zeta. intros Hthrust Hmass.
  apply create_mock_result_inv in H. cbv zeta in H.
  destruct H as (dt & t & _ & _ & _ & _ & _ & Hap & Hat & _).
  rewrite Hap, Hat. clear Hap Hat.
  fold (mean_mass request).
  set (thrust := MotorConfig.avg_thrust (RocketConfig.motor (SimulationRequest.rocket request)))
    in *.
  set (bt := MotorConfig.burn_time (RocketConfig.motor (SimulationRequest.rocket request)))
    in *.
  set (mm := mean_mass request) in *. clearbody thrust bt mm.
  assert (Hmm : ~ mm == 0) by (intros Hz; rewrite Hz in Hmass; lra).
  set (q := thrust / mm).
  assert (Hq : q * mm == thrust) by (unfold q; field; exact Hmm).
  assert (Hqpos : 0 < q) by (unfold q; apply Qlt_shift_div_l; lra).
  assert (Hsq : 0 <= bt * bt) by nra.
  assert (Hap : 0.5 * (q - 9.81) * bt ^ 2
                + ((q - 9.81) * bt * ((q - 9.81) * bt / 9.81)
                   - 0.5 * 9.81 * ((q - 9.81) * bt / 9.81) ^ 2)
                == (q - 9.81) * (q * (bt * bt)) / 19.62)
    by field.
  split; [| split].
  - rewrite Hap. clear Hap. intros Hw.
    assert (Hpos : 0 <= q * (bt * bt)) by nra.
    set (k := q * (bt * bt)) in *. clearbody k.
    apply Qle_shift_div_l; [lra |]. nra.
  - rewrite Hap. clear Hap. intros Hw.
    assert (Hpos : 0 <= q * (bt * bt)) by nra.
    set (k := q * (bt * bt)) in *. clearbody k.
    apply Qle_shift_div_r; [lra |]. nra.
  - unfold q. field. exact Hmm.
Qed.

(** X19 on the default request: 50 N against a mean weight of about
    5.4 N, and an apogee that is not negative (about 829 m). *)
Lemma mock_apogee_sign_follows_thrust_witness :
  exists r,
    create_mock_result 40 (Samples.with_rate 1 Samples.request) = Returns r
    /\ mean_mass (Samples.with_rate 1 Samples.request) * 9.81 <= 50
    /\ 0 <= SimulationResult.apogee r.
Proof.
  destruct sample_mock_run as (r & Hr & _). exists r.
  split; [exact Hr |].
  assert (Hw : mean_mass (Samples.with_rate 1 Samples.request) * 9.81 <= 50)
    by (vm_compute; discriminate).
  split; [exact Hw |].
  apply (mock_apogee_sign_follows_thrust 40
           (Samples.with_rate 1 Samples.request) r Hr);
    [vm_compute; reflexivity | vm_compute; reflexivity | exact Hw].
Defined.

(* ================================================================== *)
(** * More on the RocketPy path *)
(* ================================================================== *)

(** The points of [np.arange(0, stop, step)] for a positive step: the
    i-th is [i * step], and all lie below [stop]. *)
Lemma arange_nth (stop step : Q) (i : nat) (x : Q) :
  0 < step ->
  nth_error (Numpy.arange 0 stop step) i = Some x ->
  x == inject_Z (Z.of_nat i) * step /\ x < stop.
Proof.
  intros Hstep H. unfold Numpy.arange in H.
  rewrite nth_error_map in H.
  destruct (nth_error (seq 0 (Z.to_nat (Qceiling ((stop - 0) / step)))) i) as [k |] eqn:Hk;
    [| discriminate].
  simpl in H. injection H as <-.
  pose proof (nth_error_Some (seq 0 (Z.to_nat (Qceiling ((stop - 0) / step)))) i) as Hlen.
  rewrite Hk in Hlen. rewrite length_seq in Hlen.
  assert (Hi : (i < Z.to_nat (Qceiling ((stop - 0) / step)))%nat)
    by (apply Hlen; discriminate).
  apply nth_error_nth with (d := 0%nat) in Hk. rewrite seq_nth in Hk by exact Hi.
  simpl in Hk. subst k. split; [ring |].
  assert (Hc : inject_Z (Z.of_nat i) <= inject_Z (Qceiling ((stop - 0) / step) - 1))
    by (rewrite <- Zle_Qle; lia).
  pose proof (Qceiling_lt ((stop - 0) / step)) as Hlt.
  assert (Hx : inject_Z (Z.of_nat i) < (stop - 0) / step) by lra.
  assert (E : (stop - 0) / step * step == stop)
    by (field; intros Hz; rewrite Hz in Hstep; lra).
  assert (Hm : inject_Z (Z.of_nat i) * step < (stop - 0) / step * step)
    by (apply Qmult_lt_compat_r; assumption).
  rewrite E in Hm. lra.
Qed.

(** The resampling loop in full: it keeps the samples of the grid
    times before the first one at which an accessor raises. *)
Lemma sample_trajectory_spec (flight : RocketPy.Flight) (times : list Q) :
  exists trajectory,
    sample_trajectory flight times = Returns trajectory
    /\ (List.length trajectory <= List.length times)%nat
    /\ (forall i p, nth_error trajectory i = Some p ->
                    exists t, nth_error times i = Some t
                              /\ sample_point flight t = Returns p)
    /\ ((List.length trajectory < List.length times)%nat ->
        exists t e, nth_error times (List.length trajectory) = Some t
                    /\ sample_point flight t = Raises e).
Proof.
  induction times as [| t times IH]; simpl.
  - exists []. split; [reflexivity |]. split; [simpl; lia |]. split.
    + intros [| i] p Hp; discriminate.
    + simpl. lia.
  - pose proof (sample_point_terminates flight t) as Hterm.
    destruct (sample_point flight t) as [p | e |] eqn:Hp.
    + destruct IH as (rest & -> & Hlen & Hall & Hstop).
      exists (p :: rest). split; [reflexivity |]. split; [simpl; lia |]. split.
      * intros [| i] q Hq; simpl in Hq.
        -- injection Hq as <-. exists t. split; [reflexivity | exact Hp].
        -- exact (Hall i q Hq).
      * simpl. intros Hlt. apply Hstop. lia.
    + exists []. split; [reflexivity |]. split; [simpl; lia |]. split.
      * intros [| i] q Hq; discriminate.
      * intros _. exists t, e. split; [reflexivity | exact Hp].
    + contradiction.
Qed.

(** X20.  Resampling never fails a run: over any grid the loop returns
    a trajectory, which holds the samples of the grid times, in order,
    up to the first time at which an accessor of the flight raises;
    the samples collected before are kept and the rest of the grid is
    dropped. *)
Theorem resampling_stops_at_first_failure (flight : RocketPy.Flight) (times : list Q) :
  exists trajectory,
    sample_trajectory flight times = Returns trajectory
    /\ (forall i p, nth_error trajectory i = Some p ->
                    exists t, nth_error times i = Some t
                              /\ TrajectoryPoint.time p = t
                              /\ sample_point flight t = Returns p)
    /\ (List.length trajectory = List.length times
        \/ exists t e, nth_error times (List.length trajectory) = Some t
                       /\ sample_point flight t = Raises e).
Proof.
  destruct (sample_trajectory_spec flight times) as (trajectory & Hrun & Hlen & Hall & Hstop).
  exists trajectory. split; [exact Hrun |]. split.
  - intros i p Hp. destruct (Hall i p Hp) as (t & Ht & Hs).
    exists t. split; [exact Ht |]. split; [| exact Hs].
    exact (sample_point_time flight t p Hs).
  - destruct (Nat.eq_dec (List.length trajectory) (List.length times)) as [E | E].
    + left. exact E.
    + right. apply Hstop. lia.
Qed.

Section EngineResults.

Variable float_of_str : string -> result Q.
Variable np : Numpy.API.
Variable rp : RocketPy.API.

(** A returned extraction, field by field. *)
Lemma extract_result_shape (request : SimulationRequest.t)
      (motor : RocketPy.SolidMotor rp) (rocket : RocketPy.Rocket rp)
      (flight : RocketPy.Flight) (r : SimulationResult.t) :
  extract_result rp request motor rocket flight = Returns r ->
  exists t_final rail_time rail_velocity burnout_time landing margins,
    ~ SimulationRequest.output_sampling_rate request == 0
    /\ RocketPy.t_final flight = Ok t_final
    /\ sample_trajectory flight
         (Numpy.arange 0 t_final (1.0 / SimulationRequest.output_sampling_rate request))
       = Returns (SimulationResult.trajectory r)
    /\ SimulationResult.flight_time r = t_final
    /\ SimulationResult.events r = [
         liftoff_event;
         {| FlightEvent.name := "rail_departure"; FlightEvent.time := rail_time;
            FlightEvent.altitude := None; FlightEvent.velocity := Some rail_velocity |};
         {| FlightEvent.name := "burnout"; FlightEvent.time := burnout_time;
            FlightEvent.altitude := None; FlightEvent.velocity := None |};
         {| FlightEvent.name := "apogee"; FlightEvent.time := SimulationResult.apogee_time r;
            FlightEvent.altitude := Some (SimulationResult.apogee r);
            FlightEvent.velocity := None |} ] ++ landing
    /\ match RocketPy.impact_time flight with
       | Some read =>
           exists impact_time,
             read = Ok impact_time
             /\ (if Qeq_bool impact_time 0 then landing = []
                 else exists impact_velocity,
                     Py.getattr_or (RocketPy.impact_velocity flight) 0
                     = Returns impact_velocity
                     /\ landing = [ {| FlightEvent.name := "landing";
                                       FlightEvent.time := impact_time;
                                       FlightEvent.altitude := None;
                                       FlightEvent.velocity := Some impact_velocity |} ])
       | None => landing = []
       end
    /\ Py.try_except
         (s0 <- RocketPy.static_margin rp rocket 0 ;;
          bt <- RocketPy.motor_burn_time rp motor ;;
          s1 <- RocketPy.static_margin rp rocket bt ;;
          Returns (s0, s1))
         (fun _ => Returns (2.0, 2.0)) = Returns margins
    /\ SimulationResult.stability_margin_initial r = fst margins
    /\ SimulationResult.stability_margin_burnout r = snd margins
    /\ Py.getattr_or (RocketPy.out_of_rail_static_margin flight) (fst margins)
       = Returns (SimulationResult.out_of_rail_stability r)
    /\ List.length (SimulationResult.landing_position r) = 2%nat
    /\ SimulationResult.success r = true
    /\ SimulationResult.message r = "Simulation completed successfully".
Proof.
  unfold extract_result. intros H.
  bind_inv H dt Hdt. apply div_Returns in Hdt. destruct Hdt as [Hrate ->].
  bind_inv H t_final Htf. bind_inv H trajectory Htraj.
  bind_inv H rail_time Hrt. bind_inv H rail_velocity Hrv. bind_inv H burnout_time Hbt.
  bind_inv H apogee_time Hat. bind_inv H apogee Hap.
  bind_inv H events Hev. bind_inv H margins Hm. destruct margins as [s0 s1].
  bind_inv H r_apogee Hap2. bind_inv H r_apogee_time Hat2.
  bind_inv H r_max_velocity Hmv. bind_inv H r_max_velocity_time Hmvt.
  bind_inv H r_max_acceleration Hma. bind_inv H r_max_mach Hmm.
  bind_inv H r_flight_time Hft. bind_inv H r_landing_velocity Hlv.
  bind_inv H r_x_impact Hx. bind_inv H r_y_impact Hy.
  bind_inv H r_orv Horv. bind_inv H r_ors Hors. bind_inv H r_cg Hcg.
  injection H as <-.
  rewrite Hap in Hap2. injection Hap2 as <-.
  rewrite Hat in Hat2. injection Hat2 as <-.
  rewrite Htf in Hft. injection Hft as <-.
  destruct (RocketPy.t_final flight) as [tf | e] eqn:Etf; [| discriminate].
  injection Htf as ->.
  assert (Hlanding : exists landing,
             events = [
               liftoff_event;
               {| FlightEvent.name := "rail_departure"; FlightEvent.time := rail_time;
                  FlightEvent.altitude := None; FlightEvent.velocity := Some rail_velocity |};
               {| FlightEvent.name := "burnout"; FlightEvent.time := burnout_time;
                  FlightEvent.altitude := None; FlightEvent.velocity := None |};
               {| FlightEvent.name := "apogee"; FlightEvent.time := apogee_time;
                  FlightEvent.altitude := Some apogee; FlightEvent.velocity := None |} ]
               ++ landing
             /\ match RocketPy.impact_time flight with
                | Some read =>
                    exists impact_time,
                      read = Ok impact_time
                      /\ (if Qeq_bool impact_time 0 then landing = []
                          else exists impact_velocity,
                              Py.getattr_or (RocketPy.impact_velocity flight) 0
                              = Returns impact_velocity
                              /\ landing = [ {| FlightEvent.name := "landing";
                                                FlightEvent.time := impact_time;
                                                FlightEvent.altitude := None;
                                                FlightEvent.velocity :=
                                                  Some impact_velocity |} ])
                | None => landing = []
                end).
  { destruct (RocketPy.impact_time flight) as [read |].
    - bind_inv Hev impact_time Hit.
      destruct read as [it | e]; [| discriminate]. injection Hit as ->.
      destruct (Qeq_bool impact_time 0) eqn:Ez.
      + injection Hev as <-. exists []. split; [reflexivity |].
        exists impact_time. split; [reflexivity |]. rewrite Ez. reflexivity.
      + bind_inv Hev it2 Hit2. injection Hit2 as <-.
        bind_inv Hev impact_velocity Hiv. injection Hev as <-.
        eexists. split; [reflexivity |].
        exists impact_time. split; [reflexivity |]. rewrite Ez.
        exists impact_velocity. split; [exact Hiv | reflexivity].
    - injection Hev as <-. exists []. split; reflexivity. }
  destruct Hlanding as (landing & -> & Hl).
  exists t_final, rail_time, rail_velocity, burnout_time, landing, (s0, s1). cbn.
  repeat split; try assumption; reflexivity.
Qed.

(** X21.  On the RocketPy path a successful result is resampled at the
    requested rate: for a positive rate the i-th sample is at time
    [i / rate], and every sample time lies in [0, flight_time). *)
Theorem engine_samples_on_grid (fuel : nat) (request : SimulationRequest.t)
        (r : SimulationResult.t) :
  0 < SimulationRequest.output_sampling_rate request ->
  run_simulation float_of_str np (Some rp) fuel request = Returns r ->
  SimulationResult.success r = true ->
  forall i p,
    nth_error (SimulationResult.trajectory r) i = Some p ->
    TrajectoryPoint.time p
    == inject_Z (Z.of_nat i) / SimulationRequest.output_sampling_rate request
    /\ 0 <= TrajectoryPoint.time p
    /\ TrajectoryPoint.time p < SimulationResult.flight_time r.
Proof.
  intros Hrate Hrun Hok i p Hp.
  apply run_simulation_engine_result in Hrun.
  destruct Hrun as [(motor & rocket & flight & _ & Hex) | [e ->]]; [| discriminate].
  apply extract_result_shape in Hex.
  destruct Hex as (t_final & rt & rv & bt & landing & margins & _ & _ & Htraj & Hft & _).
  rewrite Hft.
  set (dt := 1.0 / SimulationRequest.output_sampling_rate request) in *.
  assert (Hdt : 0 < dt) by (apply Qlt_shift_div_l; lra).
  destruct (sample_trajectory_spec flight (Numpy.arange 0 t_final dt))
    as (trajectory & Hrun & _ & Hall & _).
  rewrite Hrun in Htraj. injection Htraj as ->.
  destruct (Hall i p Hp) as (t & Ht & Hs).
  apply sample_point_time in Hs. rewrite Hs.
  destruct (arange_nth t_final dt i t Hdt Ht) as [Hgrid Hlt].
  assert (Hk : 0 <= inject_Z (Z.of_nat i))
    by (change 0 with (inject_Z 0); rewrite <- Zle_Qle; lia).
  split; [| split].
  - rewrite Hgrid. unfold dt. field. intros Hz. rewrite Hz in Hrate. lra.
  - rewrite Hgrid. nra.
  - exact Hlt.
Qed.

(** X22.  A successful RocketPy result lists liftoff, rail departure,
    burnout and apogee, in this order, the apogee event carrying the
    apogee time and altitude of the summary; a fifth event, landing,
    follows exactly when the flight has an impact time other than 0. *)
Theorem engine_events_in_order (request : SimulationRequest.t)
        (motor : RocketPy.SolidMotor rp) (rocket : RocketPy.Rocket rp)
        (flight : RocketPy.Flight) (r : SimulationResult.t) :
  extract_result rp request motor rocket flight = Returns r ->
  nth_error (SimulationResult.events r) 3
  = Some {| FlightEvent.name := "apogee"; FlightEvent.time := SimulationResult.apogee_time r;
            FlightEvent.altitude := Some (SimulationResult.apogee r);
            FlightEvent.velocity := None |}
  /\ ((exists impact_time,
          RocketPy.impact_time flight = Some (Ok impact_time) /\ ~ impact_time == 0)
      -> map FlightEvent.name (SimulationResult.events r)
         = ["liftoff"; "rail_departure"; "burnout"; "apogee"; "landing"])
  /\ (~ (exists impact_time,
            RocketPy.impact_time flight = Some (Ok impact_time) /\ ~ impact_time == 0)
      -> map FlightEvent.name (SimulationResult.events r)
         = ["liftoff"; "rail_departure"; "burnout"; "apogee"]).
Proof.
  intros H. apply extract_result_shape in H.
  destruct H as (t_final & rt & rv & bt & landing & margins & _ & _ & _ & _ & Hev & Hl & _).
  rewrite Hev. split; [reflexivity |].
  destruct (RocketPy.impact_time flight) as [read |].
  - destruct Hl as (impact_time & -> & Hl).
    destruct (Qeq_bool impact_time 0) eqn:Ez.
    + subst landing. apply Qeq_bool_iff in Ez. split.
      * intros (it & [= <-] & Hnz). contradiction.
      * reflexivity.
    + destruct Hl as (iv & _ & ->). split.
      * reflexivity.
      * intros Hno. exfalso. apply Hno. exists impact_time.
        split; [reflexivity |]. intros Hz. apply Qeq_bool_iff in Hz. congruence.
  - subst landing. split.
    + intros (it & Hit & _). discriminate.
    + reflexivity.
Qed.

(** X23.  The stability margins fall back together: if either read of
    the static margin raises (at time 0 or at burnout), the result
    still succeeds and reports 2.0 for both margins, also for the one
    that was read; and [out_of_rail_stability] is then 2.0 as well
    unless the flight has its own rail-exit margin. *)
Theorem engine_margins_fall_back_together (request : SimulationRequest.t)
        (motor : RocketPy.SolidMotor rp) (rocket : RocketPy.Rocket rp)
        (flight : RocketPy.Flight) (r : SimulationResult.t) (e : Py.exception) :
  extract_result rp request motor rocket flight = Returns r ->
  (RocketPy.static_margin rp rocket 0 = Err e
   \/ exists bt, RocketPy.motor_burn_time rp motor = Ok bt
                 /\ RocketPy.static_margin rp rocket bt = Err e) ->
  SimulationResult.success r = true
  /\ SimulationResult.stability_margin_initial r = 2.0
  /\ SimulationResult.stability_margin_burnout r = 2.0
  /\ (RocketPy.out_of_rail_static_margin flight = None ->
      SimulationResult.out_of_rail_stability r = 2.0).
Proof.
  intros H Hfail. apply extract_result_shape in H.
  destruct H as (t_final & rt & rv & bt0 & landing & margins
                 & _ & _ & _ & _ & _ & _ & Hm & Hi & Hb & Hors & _ & Hok & _).
  assert (Hmargins : margins = (2.0, 2.0)).
  { destruct Hfail as [H0 | (bt & Hbt & H1)].
    - rewrite H0 in Hm. cbn in Hm. injection Hm as <-. reflexivity.
    - rewrite Hbt in Hm.
      destruct (RocketPy.static_margin rp rocket 0) as [s0 | e0];
        cbn in Hm; [rewrite H1 in Hm; cbn in Hm |];
        injection Hm as <-; reflexivity. }
  subst margins. simpl in Hi, Hb, Hors.
  split; [exact Hok |]. split; [exact Hi |]. split; [exact Hb |].
  intros Hnone. rewrite Hnone in Hors. simpl in Hors. injection Hors as <-. reflexivity.
Qed.

(** X24.  With RocketPy installed an output rate of 0 never raises:
    the division [1.0 / rate] sits inside the [try] block, so the
    caller gets a failed result, the one of [ZeroDivisionError] when
    the construction itself went through. *)
Theorem engine_zero_rate_is_a_failed_result (fuel : nat) (request : SimulationRequest.t) :
  SimulationRequest.output_sampling_rate request == 0 ->
  (exists e, run_simulation float_of_str np (Some rp) fuel request
             = Returns (failed_result e))
  /\ ((exists built, build_flight float_of_str np rp request = Returns built) ->
      run_simulation float_of_str np (Some rp) fuel request
      = Returns (failed_result (ZeroDivisionError "float division by zero"))).
Proof.
  intros Hrate. simpl. unfold run_rocketpy_simulation.
  pose proof (build_flight_terminates float_of_str np rp request) as Hterm.
  destruct (build_flight float_of_str np rp request) as [[[motor rocket] flight] | e |].
  - assert (Hex : extract_result rp request motor rocket flight
                  = Raises (ZeroDivisionError "float division by zero"))
      by (unfold extract_result; rewrite (div_zero _ _ Hrate); reflexivity).
    cbn [Py.bind]. rewrite Hex. cbn. split; [eexists; reflexivity |].
    intros _. reflexivity.
  - cbn. split; [exists e; reflexivity |]. intros [built Hb]. discriminate.
  - contradiction.
Qed.

End EngineResults.

(** X21 on the sample engine at 4 Hz: eight samples, the fourth at
    0.75 s, all before the flight time of 2 s. *)
Lemma engine_samples_on_grid_witness :
  exists r p,
    run_simulation Samples.float_of_str Samples.numpy (Some (Samples.engine true)) 0
                   (Samples.with_rate 4 Samples.request) = Returns r
    /\ nth_error (SimulationResult.trajectory r) 3 = Some p
    /\ TrajectoryPoint.time p == 0.75
    /\ TrajectoryPoint.time p < SimulationResult.flight_time r.
Proof.
  assert (E : exists r p,
             run_simulation Samples.float_of_str Samples.numpy (Some (Samples.engine true)) 0
                            (Samples.with_rate 4 Samples.request) = Returns r
             /\ SimulationResult.success r = true
             /\ nth_error (SimulationResult.trajectory r) 3 = Some p)
    by (vm_compute; eexists; eexists; repeat split).
  destruct E as (r & p & Hr & Hok & Hp). exists r, p.
  split; [exact Hr |]. split; [exact Hp |].
  destruct (engine_samples_on_grid Samples.float_of_str Samples.numpy (Samples.engine true)
              0%nat (Samples.with_rate 4 Samples.request) r
              ltac:(simpl; lra) Hr Hok 3%nat p Hp) as (Ht & _ & Hlt).
  split; [rewrite Ht; reflexivity | exact Hlt].
Defined.

(** X22 on the sample flight, which has an impact time of 2 s. *)
Lemma engine_events_in_order_witness :
  exists r,
    extract_result (Samples.engine true) (Samples.with_rate 4 Samples.request)
                   1.5 tt Samples.flight = Returns r
    /\ map FlightEvent.name (SimulationResult.events r)
       = ["liftoff"; "rail_departure"; "burnout"; "apogee"; "landing"].
Proof.
  assert (E : exists r,
             extract_result (Samples.engine true) (Samples.with_rate 4 Samples.request)
                            1.5 tt Samples.flight = Returns r)
    by (vm_compute; eexists; reflexivity).
  destruct E as (r & Hr). exists r. split; [exact Hr |].
  apply (engine_events_in_order (Samples.engine true) (Samples.with_rate 4 Samples.request)
           1.5 tt Samples.flight r Hr).
  exists 2. split; [reflexivity | discriminate].
Defined.

(** X23 on the engine without static margins: the run succeeds and
    reports 2.0 three times. *)
Lemma engine_margins_fall_back_together_witness :
  exists r,
    extract_result engine_without_margin (Samples.with_rate 4 Samples.request)
                   1.5 tt Samples.flight = Returns r
    /\ SimulationResult.success r = true
    /\ SimulationResult.stability_margin_initial r = 2.0
    /\ SimulationResult.stability_margin_burnout r = 2.0
    /\ SimulationResult.out_of_rail_stability r = 2.0.
Proof.
  assert (E : exists r,
             extract_result engine_without_margin (Samples.with_rate 4 Samples.request)
                            1.5 tt Samples.flight = Returns r)
    by (vm_compute; eexists; reflexivity).
  destruct E as (r & Hr). exists r. split; [exact Hr |].
  destruct (engine_margins_fall_back_together engine_without_margin
              (Samples.with_rate 4 Samples.request) 1.5 tt Samples.flight r
              (LibraryError "no static margin") Hr
              ltac:(left; reflexivity)) as (Hok & Hi & Hb & Hors).
  split; [exact Hok |]. split; [exact Hi |]. split; [exact Hb |].
  apply Hors. reflexivity.
Defined.

(** X24 on the default request with an output rate of 0. *)
Lemma engine_zero_rate_is_a_failed_result_witness :
  run_simulation Samples.float_of_str Samples.numpy (Some (Samples.engine true)) 0
                 (Samples.with_rate 0 Samples.request)
  = Returns (failed_result (ZeroDivisionError "float division by zero")).
Proof.
  apply (engine_zero_rate_is_a_failed_result Samples.float_of_str Samples.numpy
           (Samples.engine true) 0%nat (Samples.with_rate 0 Samples.request)).
  - reflexivity.
  - eexists. reflexivity.
Defined.

(* ================================================================== *)
(** * More on the Monte Carlo endpoint *)
(* ================================================================== *)

(** [np.min] of a non-empty list is one of its entries and a lower
    bound of all. *)
Lemma fold_min_spec (rest : list Q) :
  forall v,
    In (fold_left (fun m w => if Qltb w m then w else m) rest v) (v :: rest)
    /\ forall w, In w (v :: rest) ->
                 fold_left (fun m w => if Qltb w m then w else m) rest v <= w.
Proof.
  induction rest as [| a rest IH]; intros v; simpl.
  - split; [left; reflexivity |]. intros w [<- | []]. apply Qle_refl.
  - destruct (IH (if Qltb a v then a else v)) as [Hin Hle].
    assert (Hva : (if Qltb a v then a else v) <= v /\ (if Qltb a v then a else v) <= a).
    { destruct (Qltb a v) eqn:E.
      - apply Qltb_true in E. split; lra.
      - apply Qltb_false in E. split; lra. }
    split.
    + destruct Hin as [Hin | Hin].
      * rewrite <- Hin. destruct (Qltb a v); auto.
      * right. right. exact Hin.
    + intros w [<- | [<- | Hw]].
      * apply Qle_trans with (if Qltb a v then a else v);
          [apply Hle; left; reflexivity | apply Hva].
      * apply Qle_trans with (if Qltb a v then a else v);
          [apply Hle; left; reflexivity | apply Hva].
      * apply Hle. right. exact Hw.
Qed.

Lemma fold_max_spec (rest : list Q) :
  forall v,
    In (fold_left (fun m w => if Qltb m w then w else m) rest v) (v :: rest)
    /\ forall w, In w (v :: rest) ->
                 w <= fold_left (fun m w => if Qltb m w then w else m) rest v.
Proof.
  induction rest as [| a rest IH]; intros v; simpl.
  - split; [left; reflexivity |]. intros w [<- | []]. apply Qle_refl.
  - destruct (IH (if Qltb v a then a else v)) as [Hin Hle].
    assert (Hva : v <= (if Qltb v a then a else v) /\ a <= (if Qltb v a then a else v)).
    { destruct (Qltb v a) eqn:E.
      - apply Qltb_true in E. split; lra.
      - apply Qltb_false in E. split; lra. }
    split.
    + destruct Hin as [Hin | Hin].
      * rewrite <- Hin. destruct (Qltb v a); auto.
      * right. right. exact Hin.
    + intros w [<- | [<- | Hw]].
      * apply Qle_trans with (if Qltb v a then a else v);
          [apply Hva | apply Hle; left; reflexivity].
      * apply Qle_trans with (if Qltb v a then a else v);
          [apply Hva | apply Hle; left; reflexivity].
      * apply Hle. right. exact Hw.
Qed.

Section MonteCarloAnswers.

Variable float_of_str : string -> result Q.
Variable np : Numpy.API.





Section InstalledEngineAnswers.

Variable rp : RocketPy.API.
Variable fuel : nat.



(** X26.  The extreme apogees of a successful batch are attained:
    [apogee_min] and [apogee_max] are the apogees of two successful
    runs of the batch, and the apogee of every successful run lies
    between them. *)
Theorem monte_carlo_apogee_range
        (request : MonteCarloRequest.t) (st st' : Numpy.rng np)
        (answer : MonteCarloResult.t) :
  monte_carlo float_of_str np (Some rp) fuel request st = Returns (answer, st') ->
  MonteCarloResult.success answer = true ->
  exists trace,
    monte_carlo_trace float_of_str np (Some rp) fuel request
      (Py.range (MonteCarloRequest.num_simulations request)) st = Returns (trace, st')
    /\ (exists r, In r (successful_runs trace)
                  /\ SimulationResult.apogee r = MonteCarloResult.apogee_min answer)
    /\ (exists r, In r (successful_runs trace)
                  /\ SimulationResult.apogee r = MonteCarloResult.apogee_max answer)
    /\ (forall r, In r trace -> SimulationResult.success r = true ->
                  MonteCarloResult.apogee_min answer <= SimulationResult.apogee r
                  /\ SimulationResult.apogee r <= MonteCarloResult.apogee_max answer).
Proof.
  intros Hmc Hok. unfold monte_carlo in Hmc.
  rewrite monte_carlo_loop_filters_trace in Hmc.
  bind_inv Hmc looped Hloop. destruct looped as [[results positions] st1].
  bind_inv Hloop traced Htrace. destruct traced as [trace st2].
  cbv zeta in Hloop. cbn [app] in Hloop. injection Hloop as <- <- <-.
  fold (successful_runs trace) in Hmc.
  bind_inv Hmc summary Hsum. injection Hmc as <- <-.
  exists trace. split; [exact Htrace |].
  unfold monte_carlo_summary in Hsum.
  destruct (successful_runs trace) as [| r kept] eqn:Ek.
  - injection Hsum as <-. discriminate.
  - bind_inv Hsum dispersions Hdisp. cbn [map Numpy.min Numpy.max Py.bind] in Hsum.
    injection Hsum as <-. cbn [MonteCarloResult.apogee_min MonteCarloResult.apogee_max].
    destruct (fold_min_spec (map SimulationResult.apogee kept) (SimulationResult.apogee r))
      as [Hmin_in Hmin_le].
    destruct (fold_max_spec (map SimulationResult.apogee kept) (SimulationResult.apogee r))
      as [Hmax_in Hmax_le].
    change (SimulationResult.apogee r :: map SimulationResult.apogee kept)
      with (map SimulationResult.apogee (r :: kept)) in *.
    split; [| split].
    + apply in_map_iff in Hmin_in. destruct Hmin_in as (r0 & E & Hr0).
      exists r0. split; [exact Hr0 | exact E].
    + apply in_map_iff in Hmax_in. destruct Hmax_in as (r0 & E & Hr0).
      exists r0. split; [exact Hr0 | exact E].
    + intros r0 Hr0 Hs.
      assert (Hin : In (SimulationResult.apogee r0)
                       (map SimulationResult.apogee (r :: kept))).
      { apply in_map. rewrite <- Ek. unfold successful_runs. apply filter_In.
        split; assumption. }
      split; [apply Hmin_le | apply Hmax_le]; exact Hin.
Qed.

End InstalledEngineAnswers.

Lemma mock_landing_positions_returns (iters : list nat) :
  placeholder_draws_succeed np ->
  forall st, exists positions st',
    mock_landing_positions np iters st = Returns (positions, st')
    /\ List.length positions = List.length iters
    /\ Forall (fun p => List.length p = 2%nat) positions.
Proof.
  intros Hdraws. induction iters as [| i rest IH]; intros st; cbn [mock_landing_positions].
  - exists [], st. repeat split. constructor.
  - destruct (Hdraws st) as (px & st1 & ->). cbn [Py.lift Py.bind].
    destruct (Hdraws st1) as (py & st2 & ->). cbn [Py.lift Py.bind].
    destruct (IH st2) as (positions & st3 & -> & Hlen & Hall). cbn [Py.bind].
    exists ([px; py] :: positions), st3. split; [reflexivity |]. split.
    + simpl. rewrite Hlen. reflexivity.
    + constructor; [reflexivity | exact Hall].
Qed.

(** X27.  Without RocketPy the endpoint checks nothing about the count
    it is asked for: it answers [success = true] and echoes the count
    as it came, a zero or negative one included, next to
    [min(count, 100)] placeholder positions of two coordinates each
    (none for a count of 0 or less). *)
Theorem mock_monte_carlo_echoes_count (fuel : nat)
        (request : MonteCarloRequest.t) (st : Numpy.rng np) :
  placeholder_draws_succeed np ->
  exists answer st',
    monte_carlo float_of_str np None fuel request st = Returns (answer, st')
    /\ MonteCarloResult.success answer = true
    /\ MonteCarloResult.num_simulations answer = MonteCarloRequest.num_simulations request
    /\ Z.of_nat (List.length (MonteCarloResult.landing_positions answer))
       = Z.max 0 (Z.min (MonteCarloRequest.num_simulations request) 100)
    /\ Forall (fun p => List.length p = 2%nat) (MonteCarloResult.landing_positions answer).
Proof.
  intros Hdraws. unfold monte_carlo.
  destruct (mock_landing_positions_returns
              (Py.range (Z.min (MonteCarloRequest.num_simulations request) 100)) Hdraws st)
    as (positions & st' & -> & Hlen & Hall).
  cbn [Py.bind]. eexists. exists st'. split; [reflexivity |].
  cbn [MonteCarloResult.success MonteCarloResult.num_simulations
       MonteCarloResult.landing_positions].
  split; [reflexivity |]. split; [reflexivity |]. split; [| exact Hall].
  rewrite Hlen. unfold Py.range. rewrite length_seq. lia.
Qed.

(** X28.  Without RocketPy the endpoint reads the count and nothing
    else: two batches of the same size get the same answer from the
    same generator state, whatever rocket they are about and whatever
    deviations they ask for. *)
Theorem mock_monte_carlo_reads_only_the_count (fuel1 fuel2 : nat)
        (r1 r2 : MonteCarloRequest.t) (st : Numpy.rng np) :
  MonteCarloRequest.num_simulations r1 = MonteCarloRequest.num_simulations r2 ->
  monte_carlo float_of_str np None fuel1 r1 st
  = monte_carlo float_of_str np None fuel2 r2 st.
Proof.
  intros Hn. unfold monte_carlo. rewrite Hn. reflexivity.
Qed.

End MonteCarloAnswers.


Lemma sample_placeholder_draws_succeed : placeholder_draws_succeed Samples.numpy.
Proof.
  intros st. destruct st as [| draw rest]; eexists; eexists; reflexivity.
Qed.


(** X26 on the same batch: every run of the sample engine reaches
    100 m, and so do both extremes. *)
Lemma monte_carlo_apogee_range_witness :
  exists answer st' trace,
    monte_carlo Samples.float_of_str Samples.numpy (Some (Samples.engine true)) 0
                (coarse_batch 3) Samples.tape = Returns (answer, st')
    /\ MonteCarloResult.apogee_min answer == 100
    /\ MonteCarloResult.apogee_max answer == 100
    /\ monte_carlo_trace Samples.float_of_str Samples.numpy (Some (Samples.engine true)) 0
         (coarse_batch 3) (Py.range 3) Samples.tape = Returns (trace, st')
    /\ (exists r, In r (successful_runs trace)
                  /\ SimulationResult.apogee r = MonteCarloResult.apogee_min answer).
Proof.
  assert (E : exists answer st',
             monte_carlo Samples.float_of_str Samples.numpy (Some (Samples.engine true)) 0
                         (coarse_batch 3) Samples.tape = Returns (answer, st')
             /\ MonteCarloResult.success answer = true
             /\ MonteCarloResult.apogee_min answer == 100
             /\ MonteCarloResult.apogee_max answer == 100)
    by (vm_compute; eexists; eexists; repeat split).
  destruct E as (answer & st' & Hmc & Hok & Hmin & Hmax).
  destruct (monte_carlo_apogee_range Samples.float_of_str Samples.numpy
              (Samples.engine true) 0%nat (coarse_batch 3) Samples.tape st' answer Hmc Hok)
    as (trace & Htrace & Hlow & _).
  exists answer, st', trace.
  split; [exact Hmc |]. split; [exact Hmin |]. split; [exact Hmax |].
  split; [exact Htrace | exact Hlow].
Defined.

(** X27 on a batch of minus five runs: it is answered as a success of
    minus five runs with no position. *)
Lemma mock_monte_carlo_echoes_count_witness :
  exists answer st',
    monte_carlo Samples.float_of_str Samples.numpy None 0
                (careless_batch (-5)) Samples.tape = Returns (answer, st')
    /\ MonteCarloResult.success answer = true
    /\ MonteCarloResult.num_simulations answer = (-5)%Z
    /\ MonteCarloResult.landing_positions answer = [].
Proof.
  destruct (mock_monte_carlo_echoes_count Samples.float_of_str Samples.numpy 0%nat
              (careless_batch (-5)) Samples.tape sample_placeholder_draws_succeed)
    as (answer & st' & Hmc & Hok & Hnum & Hlen & _).
  exists answer, st'. split; [exact Hmc |]. split; [exact Hok |]. split; [exact Hnum |].
  destruct (MonteCarloResult.landing_positions answer) as [| p rest];
    [reflexivity | simpl in Hlen; lia].
Defined.

(** X28 on two batches of three runs: one over the default rocket, one
    over the invalid sample request with negative deviations. *)
Lemma mock_monte_carlo_reads_only_the_count_witness :
  monte_carlo Samples.float_of_str Samples.numpy None 0 (coarse_batch 3) Samples.tape
  = monte_carlo Samples.float_of_str Samples.numpy None 0 (careless_batch 3) Samples.tape.
Proof.
  apply (mock_monte_carlo_reads_only_the_count Samples.float_of_str Samples.numpy
           0%nat 0%nat (coarse_batch 3) (careless_batch 3) Samples.tape).
  reflexivity.
Defined.

(* ================================================================== *)
(** * Inputs that [run_simulation] carries and does not read *)
(* ================================================================== *)

(** Both branches on [motor_type] make the same constructor call. *)
Lemma create_rocketpy_motor_of_type (rp : RocketPy.API) (k : MotorType)
      (config : MotorConfig.t) :
  create_rocketpy_motor rp (motor_of_type k config) = create_rocketpy_motor rp config.
Proof.
  unfold create_rocketpy_motor, thrust_source_of. simpl.
  destruct k, (MotorConfig.motor_type config); reflexivity.
Qed.

(** The mock estimate on two requests that agree on what it reads. *)
Lemma create_mock_result_same_inputs (fuel : nat) (r1 r2 : SimulationRequest.t) :
  same_mock_inputs r1 r2 ->
  create_mock_result fuel r1 = create_mock_result fuel r2.
Proof.
  unfold same_mock_inputs. cbv zeta. intros (Hm & Ht & Hb & Hp & Hd & Hr).
  unfold create_mock_result.
  rewrite Hm, Ht, Hb, Hp, Hd, Hr.
  destruct (Py.div _ _) as [accel | e |]; cbn [Py.bind]; try reflexivity.
  destruct (Py.div _ _) as [dt | e |]; cbn [Py.bind]; try reflexivity.
  rewrite (mock_loop_same_inputs r1 r2 _ _ _ _ _ _ fuel Hp).
  reflexivity.
Qed.

Section UnreadInputs.

Variable float_of_str : string -> result Q.
Variable np : Numpy.API.
Variable rocketpy : option RocketPy.API.
Variable fuel : nat.

(** X29.  The declared motor type changes nothing: a motor declared
    hybrid or liquid is built and flown as the solid motor of the same
    numbers, with RocketPy and without. *)
Theorem motor_type_has_no_effect (k : MotorType) (request : SimulationRequest.t) :
  run_simulation float_of_str np rocketpy fuel (with_motor_type k request)
  = run_simulation float_of_str np rocketpy fuel request.
Proof.
  destruct rocketpy as [rp |]; cbn [run_simulation].
  - unfold run_rocketpy_simulation.
    assert (Hbuild : build_flight float_of_str np rp (with_motor_type k request)
                     = build_flight float_of_str np rp request).
    { unfold build_flight.
      cbn [with_motor_type SimulationRequest.set_rocket SimulationRequest.environment
           SimulationRequest.rocket SimulationRequest.flight RocketConfig.motor].
      rewrite create_rocketpy_motor_of_type. reflexivity. }
    rewrite Hbuild. reflexivity.
  - apply create_mock_result_same_inputs. repeat split.
Qed.

(** X30.  The wind of the request is read for the custom atmosphere
    only: under any other atmosphere type (the standard one is the
    default) two requests that differ in wind speed and direction get
    the same outcome, with RocketPy and without. *)
Theorem wind_is_read_only_by_custom_atmosphere
        (speed direction : Q) (request : SimulationRequest.t) :
  EnvironmentConfig.atmosphere_type (SimulationRequest.environment request) <> CUSTOM ->
  run_simulation float_of_str np rocketpy fuel (with_wind speed direction request)
  = run_simulation float_of_str np rocketpy fuel request.
Proof.
  intros Hkind. destruct rocketpy as [rp |]; cbn [run_simulation].
  - unfold run_rocketpy_simulation.
    assert (Hbuild : build_flight float_of_str np rp (with_wind speed direction request)
                     = build_flight float_of_str np rp request).
    { unfold build_flight.
      cbn [with_wind SimulationRequest.set_environment SimulationRequest.environment
           SimulationRequest.rocket SimulationRequest.flight
           EnvironmentConfig.set_wind_speed EnvironmentConfig.set_wind_direction
           EnvironmentConfig.latitude EnvironmentConfig.longitude
           EnvironmentConfig.elevation EnvironmentConfig.atmosphere_type].
      destruct (EnvironmentConfig.atmosphere_type (SimulationRequest.environment request));
        try reflexivity.
      contradiction. }
    rewrite Hbuild. reflexivity.
  - apply create_mock_result_same_inputs. repeat split.
Qed.

End UnreadInputs.

(** X30 on the default request, whose atmosphere is the standard one:
    a wind of 30 m/s from the west changes nothing. *)
Lemma wind_is_read_only_by_custom_atmosphere_witness :
  run_simulation Samples.float_of_str Samples.numpy (Some (Samples.engine true)) 0
                 (with_wind 30 270 Samples.request)
  = run_simulation Samples.float_of_str Samples.numpy (Some (Samples.engine true)) 0
                   Samples.request.
Proof.
  apply (wind_is_read_only_by_custom_atmosphere Samples.float_of_str Samples.numpy
           (Some (Samples.engine true)) 0%nat 30 270 Samples.request).
  discriminate.
Defined.
